(** * Script Documenter AI: the documentation pipeline, embedded and verified

    The development follows the TypeScript sources:
    - [App.tsx]: [getFileLanguage], [handleFilesUpload], [handleAnalyze],
      [handleCancel], [toggleFileInclusion], [handleReset], [canAnalyze]
      and the wiring of the upload zones;
    - [services/geminiService.ts]: [generateDocumentation];
    - [components/FileUpload.tsx]: the handlers of an upload zone;
    - [components/DiffViewer.tsx]: [DiffViewer], and [ReviewChanges] with
      its selection, its list and [handleApplyAndDownload].

    Conventions of the embedding.
    - A JavaScript string is a sequence of UTF-16 code units.  The names
      and contents of files and the responses of the model covered here
      are those whose code units lie in U+0000..U+00FF; one [ascii] stands
      for one code unit, so [string] is their type.  On that range [trim],
      [toLowerCase], [split], [startsWith], [includes] and the regular
      expression below are exact.  The message of an error, and with it
      every string of a JSON text, is a text of unrestricted code units
      ([Wide.text]).
    - An [await] on a request is a point where the environment acts: the
      remote model answers or rejects, the user may press Cancel, and a
      reader of the upload may deliver the text of its file, which it
      writes to the record that the run holds.  All three are inputs of
      the run ([Env]).
    - Effects that leave the component (state setters, the request sent to
      the model, console output) are recorded in a trace of [Event]s. *)

From Stdlib Require Import String Ascii Bool Arith Lia NArith ZArith DecimalString.
From stdpp Require Import list strings.

(** ** JavaScript string primitives *)

Module Js.

(** Code unit of a character. *)
Definition code (c : ascii) : nat := nat_of_ascii c.

(** ECMAScript [WhiteSpace] and [LineTerminator] code units below U+0100:
    TAB, LF, VT, FF, CR, SP and NBSP.  [String.prototype.trim] and the
    regular expression class [\s] both use this set. *)
Definition isWhiteSpace (c : ascii) : bool :=
  let n := code c in
  (9 <=? n) && (n <=? 13) || (n =? 32) || (n =? 160).

Definition isUpperAscii (c : ascii) : bool :=
  let n := code c in (65 <=? n) && (n <=? 90).

Definition isLowerAscii (c : ascii) : bool :=
  let n := code c in (97 <=? n) && (n <=? 122).

(** [[a-zA-Z]] *)
Definition isAsciiLetter (c : ascii) : bool := isUpperAscii c || isLowerAscii c.

(** Upper-case letters of the Latin-1 supplement: U+00C0..U+00DE but the
    multiplication sign U+00D7. *)
Definition isUpperLatin1 (c : ascii) : bool :=
  let n := code c in (192 <=? n) && (n <=? 222) && negb (n =? 215).

Definition toLowerCaseChar (c : ascii) : ascii :=
  if isUpperAscii c || isUpperLatin1 c then ascii_of_nat (code c + 32) else c.

(** [s.toLowerCase()] *)
Fixpoint toLowerCase (s : string) : string :=
  match s with
  | EmptyString => EmptyString
  | String c s' => String (toLowerCaseChar c) (toLowerCase s')
  end.

(** [s.trimStart()] *)
Fixpoint trimStart (s : string) : string :=
  match s with
  | EmptyString => EmptyString
  | String c s' => if isWhiteSpace c then trimStart s' else s
  end.

(** [s.trimEnd()]: a character is dropped when it is white space and
    nothing survives after it. *)
Fixpoint trimEnd (s : string) : string :=
  match s with
  | EmptyString => EmptyString
  | String c s' =>
      match trimEnd s' with
      | EmptyString => if isWhiteSpace c then EmptyString else String c EmptyString
      | t => String c t
      end
  end.

(** [s.trim()] *)
Definition trim (s : string) : string := trimEnd (trimStart s).

(** [s.startsWith(p)] *)
Fixpoint startsWith (p s : string) : bool :=
  match p, s with
  | EmptyString, _ => true
  | String a p', String b s' => Ascii.eqb a b && startsWith p' s'
  | String _ _, EmptyString => false
  end.

(** [s.includes(needle)] *)
Fixpoint includes (needle s : string) : bool :=
  startsWith needle s ||
  match s with
  | EmptyString => false
  | String _ s' => includes needle s'
  end.

(** [s.split(sep)] for a separator of one character.  The result is never
    empty: a string without the separator is its own single piece. *)
Fixpoint split (sep : ascii) (s : string) : list string :=
  match s with
  | EmptyString => [EmptyString]
  | String c s' =>
      if Ascii.eqb c sep then EmptyString :: split sep s'
      else match split sep s' with
           | piece :: rest => String c piece :: rest
           | [] => [String c EmptyString]
           end
  end.

(** [a.pop()] as a value: the last element, [undefined] on an empty array. *)
Definition pop (a : list string) : option string := last a.

(** [a.join(sep)] *)
Fixpoint join (sep : string) (a : list string) : string :=
  match a with
  | [] => EmptyString
  | [x] => x
  | x :: rest => x +:+ sep +:+ join sep rest
  end.

(** [a.find(p)] *)
Definition find {A} (p : A -> bool) (a : list A) : option A := List.find p a.

(** Number-to-string conversion of a non-negative integer, as a template
    literal performs it. *)
Definition ofNat (n : nat) : string := NilEmpty.string_of_uint (Nat.to_uint n).

(** The line feed and the double quote, as one-character strings. *)
Definition LF : string := String (ascii_of_nat 10) EmptyString.
Definition DQ : string := String (ascii_of_nat 34) EmptyString.

(** Every character of [s] satisfies [p]. *)
Fixpoint every (p : ascii -> bool) (s : string) : bool :=
  match s with
  | EmptyString => true
  | String c s' => p c && every p s'
  end.

(** The longest prefix of [s] whose characters satisfy [p], and the rest. *)
Fixpoint takeWhile (p : ascii -> bool) (s : string) : string :=
  match s with
  | EmptyString => EmptyString
  | String c s' => if p c then String c (takeWhile p s') else EmptyString
  end.

Fixpoint dropWhile (p : ascii -> bool) (s : string) : string :=
  match s with
  | EmptyString => EmptyString
  | String c s' => if p c then dropWhile p s' else s
  end.

(** Strings made of white space only (the empty string among them). *)
Fixpoint allWhiteSpace (s : string) : bool :=
  match s with
  | EmptyString => true
  | String c s' => isWhiteSpace c && allWhiteSpace s'
  end.

End Js.

(** ** Texts of unrestricted code units

    The message of an error is not bound to the range above: an escape of
    a JSON text denotes any code unit.  Such a text is the list of its
    code units, each a number (below 65536 in an actual string; nothing
    that follows depends on the bound). *)

Module Wide.

#[local] Open Scope N_scope.

Definition text : Type := list N.

(** A string of the range above, as a text. *)
Definition ofString (s : string) : text :=
  map (fun c => N.of_nat (Js.code c)) (list_ascii_of_string s).

(** The string of a text whose code units are all in the range above. *)
Definition narrow (t : text) : string := string_of_list_ascii (map ascii_of_N t).

Fixpoint eqb (a b : text) : bool :=
  match a, b with
  | [], [] => true
  | x :: a', y :: b' => (x =? y) && eqb a' b'
  | _, _ => false
  end.

(** [s.startsWith(p)] *)
Fixpoint startsWith (p s : text) : bool :=
  match p, s with
  | [], _ => true
  | a :: p', b :: s' => (a =? b) && startsWith p' s'
  | _ :: _, [] => false
  end.

(** [s.includes(needle)] *)
Fixpoint includes (needle s : text) : bool :=
  startsWith needle s ||
  match s with
  | [] => false
  | _ :: s' => includes needle s'
  end.

(** ToBoolean of a string: it is not empty. *)
Definition nonEmpty (t : text) : bool :=
  match t with [] => false | _ :: _ => true end.

(** [a.join(sep)] *)
Fixpoint join (sep : text) (a : list text) : text :=
  match a with
  | [] => []
  | [x] => x
  | x :: rest => x ++ sep ++ join sep rest
  end.

End Wide.

(** ** FileClassifier: [getFileLanguage] *)

(** [const extension = fileName.split('.').pop()?.toLowerCase()] *)
Definition extension (fileName : string) : option string :=
  Js.toLowerCase <$> Js.pop (Js.split "." fileName).

(** The [switch] of lines 30-38: the cases are compared with the
    extension by strict equality, in order. *)
Definition getFileLanguage (fileName : string) : string :=
  match extension fileName with
  | Some ext =>
      if String.eqb ext "js" then "JavaScript"
      else if String.eqb ext "ts" then "TypeScript"
      else if String.eqb ext "py" then "Python"
      else if String.eqb ext "java" then "Java"
      else if String.eqb ext "go" then "Go"
      else if String.eqb ext "gs" then "Google Apps Script"
      else "code"
  | None => "code"
  end.

(** ** Regular expressions

    The fragment of ECMAScript regular expressions that the service uses,
    matched by backtracking with continuations as the language
    specification describes it: alternatives are tried in priority order
    and the first one whose continuation succeeds is the match. *)

Module Regex.

Inductive regex : Type :=
| Chr (c : ascii)                  (* a literal character *)
| Class (p : ascii -> bool)        (* a character class [[...]] *)
| Bol                              (* [^], no multiline flag *)
| Eol                              (* [$], no multiline flag *)
| Seq (r1 r2 : regex)              (* concatenation *)
| Opt (r : regex)                  (* greedy [r?] *)
| StarClass (p : ascii -> bool)    (* greedy [[...]*] *)
| Group (n : nat) (r : regex)      (* the n-th capturing group [(r)] *)
| NonCapture (r : regex).          (* [(?:r)] *)

(** A position in the input: the index, the text still to read, and the
    groups captured so far (most recent first). *)
Record MatchState : Type := mkState {
  pos : nat;
  rest : string;
  captures : list (nat * string)
}.

Definition Continuation : Type := MatchState -> option MatchState.

Definition advance (st : MatchState) (s' : string) : MatchState :=
  mkState (S (pos st)) s' (captures st).

(** Greedy repetition of a class: read one more character when possible,
    and fall back to stopping here when the continuation fails later on. *)
Fixpoint starClass (p : ascii -> bool) (i : nat) (s : string)
    (caps : list (nat * string)) (k : Continuation) : option MatchState :=
  match s with
  | String c s' =>
      if p c then
        match starClass p (S i) s' caps k with
        | Some m => Some m
        | None => k (mkState i s caps)
        end
      else k (mkState i s caps)
  | EmptyString => k (mkState i s caps)
  end.

Fixpoint matchRe (r : regex) (st : MatchState) (k : Continuation) : option MatchState :=
  match r with
  | Chr c =>
      match rest st with
      | String d s' => if Ascii.eqb c d then k (advance st s') else None
      | EmptyString => None
      end
  | Class p =>
      match rest st with
      | String d s' => if p d then k (advance st s') else None
      | EmptyString => None
      end
  | Bol => if pos st =? 0 then k st else None
  | Eol => match rest st with EmptyString => k st | String _ _ => None end
  | Seq r1 r2 => matchRe r1 st (fun st' => matchRe r2 st' k)
  | Opt r =>
      (* one iteration first; an iteration that reads nothing is refused *)
      match matchRe r st (fun st' => if pos st' =? pos st then None else k st') with
      | Some m => Some m
      | None => k st
      end
  | StarClass p => starClass p (pos st) (rest st) (captures st) k
  | Group n r =>
      matchRe r st (fun st' =>
        k (mkState (pos st') (rest st')
             ((n, String.substring 0 (pos st' - pos st) (rest st)) :: captures st')))
  | NonCapture r => matchRe r st k
  end.

(** The literal text [s]. *)
Fixpoint lit (s : string) (tail : regex) : regex :=
  match s with
  | EmptyString => tail
  | String c s' => Seq (Chr c) (lit s' tail)
  end.

(** [s.match(r)] without the global flag: the first start index, from the
    left, at which the expression matches. *)
Fixpoint execFrom (r : regex) (i : nat) (s : string) : option MatchState :=
  match matchRe r (mkState i s []) Some with
  | Some m => Some m
  | None =>
      match s with
      | String _ s' => execFrom r (S i) s'
      | EmptyString => None
      end
  end.

Definition exec (r : regex) (s : string) : option MatchState := execFrom r 0 s.

(** [match[n]] *)
Fixpoint lookupGroup (n : nat) (caps : list (nat * string)) : option string :=
  match caps with
  | [] => None
  | (m, g) :: caps' => if m =? n then Some g else lookupGroup n caps'
  end.

Definition group (n : nat) (m : MatchState) : option string :=
  lookupGroup n (captures m).

End Regex.

(** ** DocumentationService: post-processing of a successful response *)

(** [[\s\S]]: white space or not white space. *)
Definition anyChar (c : ascii) : bool := Js.isWhiteSpace c || negb (Js.isWhiteSpace c).

Definition fence : string := "```".

(** The expression built on line 81 of the service: start of input, three
    backquotes, an optional (non-capturing) run of ASCII letters, an
    optional line feed, group 1 holding any run of characters, three
    backquotes, end of input. *)
Definition codeBlockRegex : Regex.regex :=
  Regex.Seq Regex.Bol
    (Regex.lit fence
      (Regex.Seq (Regex.Opt (Regex.NonCapture (Regex.StarClass Js.isAsciiLetter)))
        (Regex.Seq (Regex.Opt (Regex.Chr (ascii_of_nat 10)))
          (Regex.Seq (Regex.Group 1 (Regex.StarClass anyChar))
            (Regex.lit fence Regex.Eol))))).

(** Lines 79-86 of the service: trim the response, and when the expression
    matches take the trimmed first group instead.  The group takes part in
    every match ([codeBlock_group_defined] below), so the last branch is
    never taken. *)
Definition postProcess (responseText : string) : string :=
  let documentedScript := Js.trim responseText in
  match Regex.exec codeBlockRegex documentedScript with
  | Some m =>
      match Regex.group 1 m with
      | Some g => Js.trim g
      | None => documentedScript
      end
  | None => documentedScript
  end.

(** ** JSON

    [JSON.parse] by recursive descent over the JSON grammar, on a text of
    unrestricted code units.  Numbers keep their lexeme: which double a
    numeral denotes, and how it prints, is left to the host
    ([numberIsZero] and [numberToString] below). *)

Module Json.

#[local] Open Scope N_scope.

#[local] Set Warnings "-register-all".

Inductive value : Type :=
| Null
| Bool (b : bool)
| Number (lexeme : string)
| Str (s : Wide.text)
| Array (items : list value)
| Object (members : list (Wide.text * value)).

(** How parsing ends: with a result, or with the [SyntaxError] that
    [JSON.parse] throws. *)
Inductive result (A : Type) : Type :=
| Ok (a : A)
| SyntaxError.
Arguments Ok {A} a.
Arguments SyntaxError {A}.

Definition bind {A B : Type} (x : result A) (k : A -> result B) : result B :=
  match x with
  | Ok a => k a
  | SyntaxError => SyntaxError
  end.

Definition ofOption {A : Type} (x : option A) : result A :=
  match x with
  | Some a => Ok a
  | None => SyntaxError
  end.

#[local] Notation "'let*' p ':=' x 'in' k" := (bind x (fun p => k))
  (at level 10, p pattern, x at level 200, k at level 200).

(** JSON white space: TAB, LF, CR, SP. *)
Definition isWs (c : N) : bool :=
  (c =? 9) || (c =? 10) || (c =? 13) || (c =? 32).

Fixpoint skipWs (s : Wide.text) : Wide.text :=
  match s with
  | c :: s' => if isWs c then skipWs s' else s
  | [] => s
  end.

Definition isDigit (c : N) : bool := (48 <=? c) && (c <=? 57).

Definition hexValue (c : N) : option N :=
  if (48 <=? c) && (c <=? 57) then Some (c - 48)
  else if (65 <=? c) && (c <=? 70) then Some (c - 55)
  else if (97 <=? c) && (c <=? 102) then Some (c - 87)
  else None.

(** The code unit of an escape of four hexadecimal digits. *)
Definition unicodeEscape (h1 h2 h3 h4 : N) : option N :=
  match hexValue h1, hexValue h2, hexValue h3, hexValue h4 with
  | Some a, Some b, Some c, Some d => Some (4096 * a + 256 * b + 16 * c + d)
  | _, _, _, _ => None
  end.

Definition simpleEscape (c : N) : option N :=
  match c with
  | 34 => Some 34      (* quotation mark *)
  | 92 => Some 92      (* reverse solidus *)
  | 47 => Some 47      (* solidus *)
  | 98 => Some 8       (* b: backspace *)
  | 102 => Some 12     (* f: form feed *)
  | 110 => Some 10     (* n: line feed *)
  | 114 => Some 13     (* r: carriage return *)
  | 116 => Some 9      (* t: tab *)
  | _ => None
  end.

(** The characters of a string literal, after its opening quote: the
    decoded text and what follows the closing quote. *)
Fixpoint parseChars (s : Wide.text) : result (Wide.text * Wide.text) :=
  match s with
  | [] => SyntaxError
  | c :: s' =>
      if c =? 34 then Ok ([], s')
      else if c =? 92 then
        match s' with
        | e :: s'' =>
            if e =? 117 then
              match s'' with
              | h1 :: h2 :: h3 :: h4 :: s4 =>
                  let* d := ofOption (unicodeEscape h1 h2 h3 h4) in
                  let* (t, r) := parseChars s4 in
                  Ok (d :: t, r)
              | _ => SyntaxError
              end
            else
              let* d := ofOption (simpleEscape e) in
              let* (t, r) := parseChars s'' in
              Ok (d :: t, r)
        | [] => SyntaxError
        end
      else if c <? 32 then SyntaxError
      else let* (t, r) := parseChars s' in Ok (c :: t, r)
  end.

(** The longest run of digits at the head of [s], and the rest. *)
Fixpoint spanDigits (s : Wide.text) : Wide.text * Wide.text :=
  match s with
  | c :: s' =>
      if isDigit c then let '(d, r) := spanDigits s' in (c :: d, r)
      else ([], s)
  | [] => ([], s)
  end.

(** The digits of the integer part: a single zero, or a non-zero digit
    followed by digits. *)
Definition parseIntDigits (s : Wide.text) : option (Wide.text * Wide.text) :=
  match s with
  | c :: s' =>
      if c =? 48 then Some ([c], s')
      else if isDigit c then
        let '(d, r) := spanDigits s' in Some (c :: d, r)
      else None
  | [] => None
  end.

(** The integer part: an optional minus sign, then its digits. *)
Definition parseInt (s : Wide.text) : option (Wide.text * Wide.text) :=
  match s with
  | c :: s' =>
      if c =? 45 then
        match parseIntDigits s' with
        | Some (i, r) => Some (c :: i, r)
        | None => None
        end
      else parseIntDigits s
  | [] => None
  end.

(** The optional fraction: a point and at least one digit. *)
Definition parseFrac (s : Wide.text) : option (Wide.text * Wide.text) :=
  match s with
  | c :: s' =>
      if c =? 46 then
        match spanDigits s' with
        | ([], _) => None
        | (d, r) => Some (c :: d, r)
        end
      else Some ([], s)
  | [] => Some ([], s)
  end.

(** The digits of an exponent, after its optional sign. *)
Definition parseExpDigits (s : Wide.text) : option (Wide.text * Wide.text) :=
  match spanDigits s with
  | ([], _) => None
  | (d, r) => Some (d, r)
  end.

(** The optional exponent: e or E, an optional sign, at least one digit. *)
Definition parseExp (s : Wide.text) : option (Wide.text * Wide.text) :=
  match s with
  | c :: s' =>
      if (c =? 101) || (c =? 69) then
        match s' with
        | g :: s'' =>
            if (g =? 43) || (g =? 45) then
              match parseExpDigits s'' with
              | Some (d, r) => Some (c :: g :: d, r)
              | None => None
              end
            else
              match parseExpDigits s' with
              | Some (d, r) => Some (c :: d, r)
              | None => None
              end
        | [] => None
        end
      else Some ([], s)
  | [] => Some ([], s)
  end.

Definition parseNumber (s : Wide.text) : option (Wide.text * Wide.text) :=
  match parseInt s with
  | Some (i, s1) =>
      match parseFrac s1 with
      | Some (f, s2) =>
          match parseExp s2 with
          | Some (e, s3) => Some (i ++ f ++ e, s3)
          | None => None
          end
      | None => None
      end
  | None => None
  end.

(** [s] without the prefix [p]. *)
Fixpoint stripPrefix (p s : Wide.text) : option Wide.text :=
  match p, s with
  | [], _ => Some s
  | a :: p', b :: s' => if a =? b then stripPrefix p' s' else None
  | _ :: _, [] => None
  end.

(** A value that holds no other value: a string, a literal or a number,
    whose first character [c] is read already. *)
Definition parseScalar (c : N) (s' : Wide.text) : result (value * Wide.text) :=
  if c =? 34 then let* (t, r) := parseChars s' in Ok (Str t, r)
  else if c =? 116 then
    let* r := ofOption (stripPrefix (Wide.ofString "rue") s') in Ok (Bool true, r)
  else if c =? 102 then
    let* r := ofOption (stripPrefix (Wide.ofString "alse") s') in Ok (Bool false, r)
  else if c =? 110 then
    let* r := ofOption (stripPrefix (Wide.ofString "ull") s') in Ok (Null, r)
  else
    let* (lexeme, r) := ofOption (parseNumber (c :: s')) in
    Ok (Number (Wide.narrow lexeme), r).

(** A value, then the elements of an array after its opening bracket, then
    the members of an object after its opening brace.  Every call that
    recurses spends one unit of [fuel]; [parse] provides more than any text
    needs ([parseValue_enough] below). *)
Fixpoint parseValue (fuel : nat) (s : Wide.text) : result (value * Wide.text) :=
  match fuel with
  | O => SyntaxError
  | S fuel' =>
      match skipWs s with
      | [] => SyntaxError
      | c :: s' =>
          if c =? 123 then
            match skipWs s' with
            | d :: r =>
                if d =? 125 then Ok (Object [], r)
                else let* (ms, r') := parseMembers fuel' s' in Ok (Object ms, r')
            | [] => SyntaxError
            end
          else if c =? 91 then
            match skipWs s' with
            | d :: r =>
                if d =? 93 then Ok (Array [], r)
                else let* (vs, r') := parseElements fuel' s' in Ok (Array vs, r')
            | [] => SyntaxError
            end
          else parseScalar c s'
      end
  end

with parseElements (fuel : nat) (s : Wide.text) : result (list value * Wide.text) :=
  match fuel with
  | O => SyntaxError
  | S fuel' =>
      let* (v, r) := parseValue fuel' s in
      match skipWs r with
      | c :: r' =>
          if c =? 44 then
            let* (vs, r'') := parseElements fuel' r' in Ok (v :: vs, r'')
          else if c =? 93 then Ok ([v], r')
          else SyntaxError
      | [] => SyntaxError
      end
  end

with parseMembers (fuel : nat) (s : Wide.text)
    : result (list (Wide.text * value) * Wide.text) :=
  match fuel with
  | O => SyntaxError
  | S fuel' =>
      match skipWs s with
      | q :: s1 =>
          if q =? 34 then
            let* (key, s2) := parseChars s1 in
            match skipWs s2 with
            | colon :: s3 =>
                if colon =? 58 then
                  let* (v, r) := parseValue fuel' s3 in
                  match skipWs r with
                  | c :: r' =>
                      if c =? 44 then
                        let* (ms, r'') := parseMembers fuel' r' in Ok ((key, v) :: ms, r'')
                      else if c =? 125 then Ok ([(key, v)], r')
                      else SyntaxError
                  | [] => SyntaxError
                  end
                else SyntaxError
            | [] => SyntaxError
            end
          else SyntaxError
      | [] => SyntaxError
      end
  end.

(** [JSON.parse(text)]: one value, with white space around it and nothing
    else. *)
Definition parse (text : Wide.text) : result value :=
  let* (v, r) := parseValue (2 * length text + 2)%nat text in
  match skipWs r with
  | [] => Ok v
  | _ :: _ => SyntaxError
  end.

(** The own property [key] of an object: the last member of that name
    wins, as [JSON.parse] defines properties in source order. *)
Fixpoint lookupMember (key : Wide.text) (members : list (Wide.text * value))
    : option value :=
  match members with
  | [] => None
  | (k, v) :: rest =>
      match lookupMember key rest with
      | Some v' => Some v'
      | None => if Wide.eqb k key then Some v else None
      end
  end.

End Json.

(** ** What the embedding takes from outside the code

    - The two policy texts are constants of the service whose wording no
      property below depends on (the Russian one lies outside the range of
      characters covered), so they are kept abstract.
    - Which double a JSON numeral denotes and how a double prints is the
      engine's floating-point arithmetic: [numberIsZero] tells whether a
      numeral denotes zero, [numberToString] gives the text that string
      conversion produces for it. *)

Class Host : Type := {
  englishPolicy : string;
  russianPolicy : string;
  numberIsZero : string -> bool;
  numberToString : string -> string
}.

(** ** DocumentationService: [generateDocumentation] *)

Inductive DocLanguage : Type := en | ru.

(** A thrown value as a [catch] clause tells them apart: an [Error] object
    with its message, or anything else. *)
Inductive Thrown : Type :=
| ErrorObject (message : Wide.text)
| OtherValue.

(** How a call ends: it returns a value or throws. *)
Inductive Completion (A : Type) : Type :=
| Normal (a : A)
| Throw (e : Thrown).
Arguments Normal {A} a.
Arguments Throw {A} e.

(** The argument of [ai.models.generateContent]. *)
Record Request : Type := mkRequest {
  model : string;
  contents : string;
  systemInstruction : string
}.

(** What awaiting the remote call and reading [response.text] yields: the
    text of the response, or the value thrown on the way. *)
Inductive AiOutcome : Type :=
| Answered (text : string)
| Rejected (e : Thrown).

(** [type AppState = 'uploading' | 'loading' | 'reviewing'] *)
Inductive AppState : Type := uploading | loading | reviewing.

(** Effects that leave the component. *)
Inductive Event : Type :=
| AiCall (request : Request)              (* ai.models.generateContent *)
| ConsoleError (label : string)           (* console.error *)
| SetAppState (state : AppState)          (* setAppState *)
| SetProcessingMessage (message : string) (* setProcessingMessage *).

Definition isAiCall (e : Event) : bool :=
  match e with AiCall _ => true | _ => false end.

Definition unknownFailure : Wide.text :=
  Wide.ofString "An unknown error occurred while communicating with the AI model.".
Definition modelErrorPrefix : Wide.text := Wide.ofString "The AI model returned an error: ".
Definition unexpectedPrefix : Wide.text := Wide.ofString "An unexpected error occurred: ".
Definition remediationHint : Wide.text :=
  Wide.ofString
    (Js.LF +:+ "This could be a temporary issue with the AI service or the request might be too large. Please try again later or with fewer files.").

Section Service.
Context `{Host}.

(** A JavaScript value read out of a parsed JSON text: [None] is
    [undefined]. *)
Definition JsValue : Type := option Json.value.

(** ToBoolean *)
Definition truthy (v : JsValue) : bool :=
  match v with
  | None => false
  | Some Json.Null => false
  | Some (Json.Bool b) => b
  | Some (Json.Number lexeme) => negb (numberIsZero lexeme)
  | Some (Json.Str s) => Wide.nonEmpty s
  | Some (Json.Array _) => true
  | Some (Json.Object _) => true
  end.

(** [v.key] for a key that no prototype defines ([error] and [message] are
    such keys): the own property of an object, [undefined] on any other
    value, and a [TypeError] on [null] and [undefined], for which the
    result is [None]. *)
Definition getProperty (v : JsValue) (key : Wide.text) : option JsValue :=
  match v with
  | None => None
  | Some Json.Null => None
  | Some (Json.Object members) => Some (Json.lookupMember key members)
  | Some _ => Some None
  end.

(** ToString of a value of a parsed JSON text, as a template literal
    applies it; [None] when the conversion throws a [TypeError].  An array
    joins the conversions of its elements with commas, [null] elements
    giving nothing.  An object is converted by its [toString] method: the
    inherited one gives the default tag, but an own member of that name,
    which is never a function in a parsed text, hides it, and then no
    method gives a primitive value and the conversion throws. *)
Fixpoint toString (v : Json.value) : option Wide.text :=
  match v with
  | Json.Null => Some (Wide.ofString "null")
  | Json.Bool true => Some (Wide.ofString "true")
  | Json.Bool false => Some (Wide.ofString "false")
  | Json.Number lexeme => Some (Wide.ofString (numberToString lexeme))
  | Json.Str s => Some s
  | Json.Array items =>
      Wide.join (Wide.ofString ",") <$>
        (fix elements (l : list Json.value) : option (list Wide.text) :=
           match l with
           | [] => Some []
           | item :: rest =>
               match match item with Json.Null => Some [] | _ => toString item end,
                     elements rest with
               | Some t, Some ts => Some (t :: ts)
               | _, _ => None
               end
           end) items
  | Json.Object members =>
      match Json.lookupMember (Wide.ofString "toString") members with
      | Some _ => None
      | None => Some (Wide.ofString "[object Object]")
      end
  end.

Definition toStringJs (v : JsValue) : option Wide.text :=
  match v with None => Some (Wide.ofString "undefined") | Some w => toString w end.

(** Lines 95-101, the body of the inner [try]: [None] when it throws (the
    [SyntaxError] of [JSON.parse], the [TypeError] of reading a property
    of [null], or the [TypeError] of converting the nested message to a
    string). *)
Definition describeParsed (message : Wide.text) : option Wide.text :=
  match Json.parse message with
  | Json.SyntaxError => None
  | Json.Ok parsed =>
      match getProperty (Some parsed) (Wide.ofString "error") with
      | None => None
      | Some parsedError =>
          if truthy parsedError then
            match getProperty parsedError (Wide.ofString "message") with
            | None => None
            | Some nested =>
                if truthy nested
                then (fun converted => modelErrorPrefix ++ converted) <$> toStringJs nested
                else Some (unexpectedPrefix ++ message)
            end
          else Some (unexpectedPrefix ++ message)
      end
  end.

(** Lines 91-110: the message of the error that the service throws for a
    caught failure. *)
Definition finalMessage (error : Thrown) : Wide.text :=
  let described :=
    match error with
    | ErrorObject message =>
        if Wide.nonEmpty message then
          match describeParsed message with
          | Some described => described
          | None => unexpectedPrefix ++ message
          end
        else unknownFailure
    | OtherValue => unknownFailure
    end in
  if Wide.includes (Wide.ofString "500") described
     || Wide.includes (Wide.ofString "Rpc failed") described
  then described ++ remediationHint
  else described.

Definition buildSystemInstruction (language projectContext : string)
    (docLanguage : DocLanguage) : string :=
  let documentationLanguage := match docLanguage with ru => "Russian" | en => "English" end in
  let policy := match docLanguage with ru => russianPolicy | en => englishPolicy end in
  "You are an expert developer specializing in writing JSDoc documentation for "
    +:+ language +:+ " code." +:+ Js.LF
  +:+ "Your task is to analyze the provided script and add a JSDoc comment block directly above each function declaration. The documentation comments you write MUST be in "
    +:+ documentationLanguage +:+ "." +:+ Js.LF
  +:+ Js.LF
  +:+ "To help you understand the project's purpose, goals, and recent changes, I am providing the project's file structure and the content of its README and CHANGELOG files. Use this information to write more insightful and context-aware descriptions for functions, especially noting how a function might relate to the overall goals described in the README." +:+ Js.LF
  +:+ "    " +:+ Js.LF
  +:+ "--- PROJECT CONTEXT ---" +:+ Js.LF
  +:+ projectContext +:+ Js.LF
  +:+ "--- END PROJECT CONTEXT ---" +:+ Js.LF
  +:+ Js.LF
  +:+ policy +:+ Js.LF
  +:+ "    " +:+ Js.LF
  +:+ "If the file does not contain any functions that require documentation, return the original script content without any changes or comments." +:+ Js.LF
  +:+ Js.LF
  +:+ "You MUST return ONLY the fully documented script. Do not add any introductory text, closing remarks, or markdown code fences. The script you are documenting is provided as the user content.".

(** [generateDocumentation(script, language, projectContext, docLanguage)]
    with the remote model as the oracle [ai]: how the call completes, and
    the effects it performed. *)
Definition generateDocumentation (ai : Request -> AiOutcome)
    (script language projectContext : string) (docLanguage : DocLanguage)
    : Completion string * list Event :=
  if String.eqb language "code" || (String.length (Js.trim script) =? 0) then
    (Normal script, [])
  else
    let request :=
      mkRequest "gemini-2.5-flash" script
        (buildSystemInstruction language projectContext docLanguage) in
    match ai request with
    | Answered text => (Normal (postProcess text), [AiCall request])
    | Rejected error =>
        (Throw (ErrorObject (finalMessage error)),
         [AiCall request;
          ConsoleError "Error generating documentation with Gemini API:"])
    end.

End Service.

(** ** The application state of [App.tsx] *)

Record ProjectFile : Type := mkProjectFile {
  name : string;
  content : string;
  language : string;
  documentedContent : option string;
  error : option Wide.text;
  isIncluded : bool
}.

Definition setDocumentedContent (v : string) (f : ProjectFile) : ProjectFile :=
  mkProjectFile (name f) (content f) (language f) (Some v) (error f) (isIncluded f).

Definition setError (v : Wide.text) (f : ProjectFile) : ProjectFile :=
  mkProjectFile (name f) (content f) (language f) (documentedContent f) (Some v) (isIncluded f).

Definition setContent (v : string) (f : ProjectFile) : ProjectFile :=
  mkProjectFile (name f) v (language f) (documentedContent f) (error f) (isIncluded f).

(** [{ ...f, isIncluded: !f.isIncluded }] *)
Definition flipIncluded (f : ProjectFile) : ProjectFile :=
  mkProjectFile (name f) (content f) (language f) (documentedContent f) (error f)
    (negb (isIncluded f)).

Inductive Project : Type := main | frontend.

(** The component's state: the [useState] cells and the [useRef] flag. *)
Record App : Type := mkApp {
  mainProjectFiles : list ProjectFile;
  frontendProjectFiles : list ProjectFile;
  appState : AppState;
  docLanguage : DocLanguage;
  processingMessage : string;
  isCancelledRef : bool
}.

Definition initialApp : App := mkApp [] [] uploading en EmptyString false.

Definition projectFiles (project : Project) (app : App) : list ProjectFile :=
  match project with
  | main => mainProjectFiles app
  | frontend => frontendProjectFiles app
  end.

Definition setProjectFiles (project : Project) (files : list ProjectFile) (app : App) : App :=
  match project with
  | main =>
      mkApp files (frontendProjectFiles app) (appState app) (docLanguage app)
        (processingMessage app) (isCancelledRef app)
  | frontend =>
      mkApp (mainProjectFiles app) files (appState app) (docLanguage app)
        (processingMessage app) (isCancelledRef app)
  end.

(** The record that [handleFilesUpload] creates for a file of that name. *)
Definition newProjectFile (fileName : string) : ProjectFile :=
  mkProjectFile fileName EmptyString (getFileLanguage fileName) None None true.

(** [handleFilesUpload(project, files)], the files given by their names. *)
Definition handleFilesUpload (project : Project) (fileNames : list string) (app : App) : App :=
  setProjectFiles project (map newProjectFile fileNames) app.

(** [reader.onload] of the [index]-th file of an upload whose records are
    still the project's list: the text read becomes the record's content. *)
Definition readerOnload (project : Project) (index : nat) (text : string) (app : App) : App :=
  match projectFiles project app !! index with
  | Some f => setProjectFiles project (<[index := setContent text f]> (projectFiles project app)) app
  | None => app
  end.

(** [handleCancel] *)
Definition handleCancel (app : App) : App :=
  mkApp (mainProjectFiles app) (frontendProjectFiles app) (appState app) (docLanguage app)
    (processingMessage app) true.

(** [toggleFileInclusion(projectName, fileName)] *)
Definition toggleFileInclusion (projectName : Project) (fileName : string) (app : App) : App :=
  let files := projectFiles projectName app in
  let updatedFiles :=
    map (fun f => if String.eqb (name f) fileName then flipIncluded f else f) files in
  setProjectFiles projectName updatedFiles app.

(** [setDocLanguage(l)] *)
Definition setDocLanguage (l : DocLanguage) (app : App) : App :=
  mkApp (mainProjectFiles app) (frontendProjectFiles app) (appState app) l
    (processingMessage app) (isCancelledRef app).

(** [handleReset] *)
Definition handleReset (app : App) : App :=
  mkApp [] [] uploading (docLanguage app) (processingMessage app) (isCancelledRef app).

(** ** DocumentationPipeline: [handleAnalyze] *)

(** The environment of one run.  While the run is suspended on the call
    for the file at index [i], the model completes the call ([ai i]), the
    user may press Cancel ([cancelDuring i]), and readers of the upload
    may fire ([loadedDuring i]: for each, the position of its record in
    the combined list and the text read, in the order of firing). *)
Record Env : Type := mkEnv {
  ai : nat -> Request -> AiOutcome;
  cancelDuring : nat -> bool;
  loadedDuring : nat -> list (nat * string)
}.

(** [reader.onload] for the record at a position of the combined list:
    the text read becomes the content of that record. *)
Definition applyLoad (files : list ProjectFile) (load : nat * string) : list ProjectFile :=
  alter (setContent (snd load)) (fst load) files.

Definition applyLoads (loads : list (nat * string)) (files : list ProjectFile)
    : list ProjectFile :=
  foldl applyLoad files loads.

(** What the same readers do to the one record at position [i]. *)
Definition loadRecord (loads : list (nat * string)) (i : nat) (file : ProjectFile)
    : ProjectFile :=
  foldl (fun f load => if fst load =? i then setContent (snd load) f else f) file loads.

(** Lines 75-86. *)
Definition detailedProjectContext (files : list ProjectFile) : string :=
  let readmeFile :=
    Js.find (fun f => Js.startsWith "readme" (Js.toLowerCase (name f))) files in
  let changelogFile :=
    Js.find (fun f => Js.startsWith "changelog" (Js.toLowerCase (name f))) files in
  let listing :=
    "This project contains the following files:" +:+ Js.LF
    +:+ Js.join Js.LF (map (fun f => "- " +:+ name f) files) in
  let withReadme :=
    match readmeFile with
    | Some f =>
        listing +:+ Js.LF +:+ Js.LF +:+ "--- PROJECT README ---" +:+ Js.LF
        +:+ content f +:+ Js.LF +:+ "--- END README ---"
    | None => listing
    end in
  match changelogFile with
  | Some f =>
      withReadme +:+ Js.LF +:+ Js.LF +:+ "--- PROJECT CHANGELOG ---" +:+ Js.LF
      +:+ content f +:+ Js.LF +:+ "--- END CHANGELOG ---"
  | None => withReadme
  end.

Section Pipeline.
Context `{Host}.

(** The state of the loop of lines 90-108: the combined array, whose
    records are the very objects of the two project lists (each record is
    one object, at one place), the flag, and the effects so far. *)
Record Run : Type := mkRun {
  allFiles : list ProjectFile;
  cancelled : bool;
  message : string;
  trace : list Event
}.

Definition progressMessage (i totalFiles : nat) (file : ProjectFile) : string :=
  "Analyzing " +:+ Js.ofNat (i + 1) +:+ "/" +:+ Js.ofNat totalFiles +:+ ": " +:+ name file.

(** [err instanceof Error ? err.message : 'An unknown error occurred.'] *)
Definition caughtMessage (err : Thrown) : Wide.text :=
  match err with
  | ErrorObject message => message
  | OtherValue => Wide.ofString "An unknown error occurred."
  end.

(** Lines 94-107: the body of the loop for the file at index [i]. *)
Definition processFile (env : Env) (projectContext : string) (docLang : DocLanguage)
    (totalFiles i : nat) (file : ProjectFile) (r : Run) : Run :=
  let progress := progressMessage i totalFiles file in
  let announced := trace r ++ [SetProcessingMessage progress] in
  if String.eqb (language file) "code" then
    (* skipped without a call, hence without suspension *)
    mkRun (<[i := setDocumentedContent (content file) file]> (allFiles r))
      (cancelled r) progress announced
  else
    let '(completion, effects) :=
      generateDocumentation (ai env i) (content file) (language file) projectContext docLang in
    (* The run waits for the promise.  When the request went out it stays
       suspended until the model completes the call: the user and the
       readers act meanwhile.  A call that returned without a request is
       resumed before any of them can act. *)
    let suspended := existsb isAiCall effects in
    let flag := cancelled r || (suspended && cancelDuring env i) in
    let loads := if suspended then loadedDuring env i else [] in
    let files := applyLoads loads (allFiles r) in
    (* [file] is the object at index [i]: the readers wrote to it too *)
    let loaded := loadRecord loads i file in
    match completion with
    | Normal result =>
        mkRun (<[i := setDocumentedContent result loaded]> files)
          flag progress (announced ++ effects)
    | Throw err =>
        mkRun (<[i := setError (caughtMessage err) loaded]> files)
          flag progress
          (announced ++ effects ++ [ConsoleError ("Failed to document " +:+ name file +:+ ":")])
    end.

(** The [for] loop from index [i] on, for at most [n] iterations; the run
    of the whole loop is [loop ... totalFiles 0]. *)
Fixpoint loop (env : Env) (projectContext : string) (docLang : DocLanguage)
    (totalFiles n i : nat) (r : Run) : Run :=
  match n with
  | 0 => r
  | S n' =>
      if cancelled r then r
      else
        match allFiles r !! i with
        | Some file =>
            loop env projectContext docLang totalFiles n' (S i)
              (processFile env projectContext docLang totalFiles i file r)
        | None => r
        end
  end.

(** The run as it stands once the loop has gone through at most [n]
    iterations, for an application with at least one file. *)
Definition runUpTo (env : Env) (app : App) (n : nat) : Run :=
  let files := mainProjectFiles app ++ frontendProjectFiles app in
  loop env (detailedProjectContext files) (docLanguage app) (length files) n 0
    (mkRun files false (processingMessage app) [SetAppState loading]).

(** [handleAnalyze]: the state it leaves and the effects it performed. *)
Definition handleAnalyze (env : Env) (app : App) : App * list Event :=
  let files := mainProjectFiles app ++ frontendProjectFiles app in
  if length files =? 0 then
    (mkApp (mainProjectFiles app) (frontendProjectFiles app) uploading (docLanguage app)
       (processingMessage app) false,
     [SetAppState loading; SetAppState uploading])
  else
    let r := runUpTo env app (length files) in
    (mkApp (take (length (mainProjectFiles app)) (allFiles r))
       (drop (length (mainProjectFiles app)) (allFiles r))
       reviewing (docLanguage app) EmptyString (cancelled r),
     trace r ++ [SetProcessingMessage EmptyString; SetAppState reviewing]).

End Pipeline.

(** [canAnalyze], which enables the Analyze button (line 180). *)
Definition canAnalyze (app : App) : bool :=
  (0 <? length (mainProjectFiles app)) || (0 <? length (frontendProjectFiles app)).

(** ** The upload zones: [FileUpload.tsx]

    A [File] is given by its name, as in [handleFilesUpload].  A handler
    returns the component's next state together with the argument of
    [onFilesUploaded] when it calls it. *)

Module FileUpload.

(** The [useState] cells of the component. *)
Record State : Type := mkState {
  files : list string;
  isDragging : bool
}.

Definition initialState : State := mkState [] false.

(** [handleFileChange]: [e.target.files] is a list or [null]. *)
Definition handleFileChange (fileList : option (list string)) (st : State)
    : State * option (list string) :=
  match fileList with
  | Some newFiles => (mkState newFiles (isDragging st), Some newFiles)
  | None => (st, None)
  end.

Definition handleDragEnter (st : State) : State := mkState (files st) true.

Definition handleDragLeave (st : State) : State := mkState (files st) false.

Definition handleDragOver (st : State) : State := st.

(** [handleDrop]: an array is truthy, so the guard is the length alone. *)
Definition handleDrop (droppedFiles : list string) (st : State)
    : State * option (list string) :=
  if 0 <? length droppedFiles
  then (mkState droppedFiles false, Some droppedFiles)
  else (mkState (files st) false, None).

(** An item of the list, [<li key={file.name}>{file.name}</li>] (line
    94): its key and its text. *)
Record Item : Type := mkItem {
  key : string;
  label : string
}.

(** What the component renders under the zone (lines 88-101): the count
    and one item for each file of the state cell, keyed by the name of
    the file; [None] for the text that tells that nothing was uploaded.
    These are the elements that the component returns: which of them the
    page keeps when two keys are equal is decided outside the
    component. *)
Definition summary (st : State) : option (nat * list Item) :=
  if 0 <? length (files st)
  then Some (length (files st), map (fun file => mkItem file file) (files st))
  else None.

End FileUpload.

(** The uploading screen of [App.tsx] (lines 161-176): the application
    state and its two zones, each wired to [handleFilesUpload] for its
    project. *)
Record UploadScreen : Type := mkUploadScreen {
  screenApp : App;
  mainZone : FileUpload.State;
  frontendZone : FileUpload.State
}.

Definition zone (project : Project) (s : UploadScreen) : FileUpload.State :=
  match project with main => mainZone s | frontend => frontendZone s end.

Definition setZone (project : Project) (st : FileUpload.State) (s : UploadScreen)
    : UploadScreen :=
  match project with
  | main => mkUploadScreen (screenApp s) st (frontendZone s)
  | frontend => mkUploadScreen (screenApp s) (mainZone s) st
  end.

(** What the user does to a zone. *)
Inductive ZoneAction : Type :=
| FileChange (fileList : option (list string))
| DragEnter
| DragLeave
| DragOver
| Drop (droppedFiles : list string).

(** A zone's handler, then the callback into the application when the
    handler calls it. *)
Definition zoneStep (project : Project) (action : ZoneAction) (s : UploadScreen)
    : UploadScreen :=
  let '(st, uploaded) :=
    match action with
    | FileChange fileList => FileUpload.handleFileChange fileList (zone project s)
    | DragEnter => (FileUpload.handleDragEnter (zone project s), None)
    | DragLeave => (FileUpload.handleDragLeave (zone project s), None)
    | DragOver => (FileUpload.handleDragOver (zone project s), None)
    | Drop droppedFiles => FileUpload.handleDrop droppedFiles (zone project s)
    end in
  let s' := setZone project st s in
  match uploaded with
  | Some fileNames =>
      mkUploadScreen (handleFilesUpload project fileNames (screenApp s'))
        (mainZone s') (frontendZone s')
  | None => s'
  end.

(** The screen as the zones are mounted over an application state. *)
Definition mountUploadScreen (app : App) : UploadScreen :=
  mkUploadScreen app FileUpload.initialState FileUpload.initialState.

(** What happens on the uploading screen: the user acts on a zone or
    picks a documentation language, or a reader of an upload fires. *)
Inductive ScreenAction : Type :=
| OnZone (project : Project) (action : ZoneAction)
| OnLoad (project : Project) (index : nat) (text : string)
| OnLanguage (l : DocLanguage).

Definition screenStep (s : UploadScreen) (action : ScreenAction) : UploadScreen :=
  match action with
  | OnZone project zoneAction => zoneStep project zoneAction s
  | OnLoad project index text =>
      mkUploadScreen (readerOnload project index text (screenApp s))
        (mainZone s) (frontendZone s)
  | OnLanguage l =>
      mkUploadScreen (setDocLanguage l (screenApp s)) (mainZone s) (frontendZone s)
  end.

Definition screenSteps (actions : list ScreenAction) (s : UploadScreen) : UploadScreen :=
  foldl screenStep s actions.

(** ** The review screen: [DiffViewer.tsx] *)

Module DiffViewer.

(** What the component renders: the error panel (lines 15-20), the note
    that nothing changed (lines 29-31), or the two columns (lines 33-52). *)
Inductive View : Type :=
| ErrorPanel (fileName : string) (error : Wide.text)
| NoChanges (fileName : string)
| SideBySide (fileName originalContent finalNewContent : string).

(** [DiffViewer({ fileName, originalContent, newContent, error })]; the
    test [if (error)] takes a string that is neither [null] nor empty. *)
Definition render (fileName originalContent : string) (newContent : option string)
    (error : option Wide.text) : View :=
  let finalNewContent := default originalContent newContent in
  let hasChanges := negb (String.eqb originalContent finalNewContent) in
  let body :=
    if negb hasChanges then NoChanges fileName
    else SideBySide fileName originalContent finalNewContent in
  match error with
  | Some e => if Wide.nonEmpty e then ErrorPanel fileName e else body
  | None => body
  end.

End DiffViewer.

Module ReviewChanges.

(** [type SelectedProjectFile = ProjectFile & { project }] *)
Record SelectedProjectFile : Type := mkSelected {
  file : ProjectFile;
  project : Project
}.

(** [allFiles] of lines 93-96. *)
Definition allFiles (mainProjectFiles frontendProjectFiles : list ProjectFile)
    : list SelectedProjectFile :=
  map (fun f => mkSelected f main) mainProjectFiles
  ++ map (fun f => mkSelected f frontend) frontendProjectFiles.

(** [f.documentedContent && f.documentedContent !== f.content] *)
Definition hasSuggestedChanges (f : ProjectFile) : bool :=
  match documentedContent f with
  | Some d => negb (String.eqb d EmptyString) && negb (String.eqb d (content f))
  | None => false
  end.

(** Lines 99-106, the selection set while the component mounts: the first
    file with changes, else the first file, else none. *)
Definition initialSelection (mainProjectFiles frontendProjectFiles : list ProjectFile)
    : option SelectedProjectFile :=
  let allFiles := allFiles mainProjectFiles frontendProjectFiles in
  match Js.find (fun s => hasSuggestedChanges (file s)) allFiles with
  | Some firstChangedFile => Some firstChangedFile
  | None => if 0 <? length allFiles then allFiles !! 0 else None
  end.

(** What the component does to the archive and to the page. *)
Inductive Effect : Type :=
| SetIsDownloading (value : bool)
| ZipFolder (folder : string)                 (* zip.folder(name) *)
| ZipFile (folder name content : string)      (* folder.file(name, content) *)
| GenerateAsync                               (* zip.generateAsync *)
| Download (fileName : string)                (* the link, clicked *)
| LogError (label : string)                   (* console.error *)
| Alert (text : string).

(** [file.isIncluded ? (file.documentedContent ?? file.content) : file.content] *)
Definition archivedContent (file : ProjectFile) : string :=
  if isIncluded file then default (content file) (documentedContent file) else content file.

(** [files.length > 0 ? zip.folder(name) : null] *)
Definition openFolder (folder : string) (files : list ProjectFile) : option string :=
  if 0 <? length files then Some folder else None.

(** The [forEach] loops of lines 116-128. *)
Definition writeFiles (folder : option string) (files : list ProjectFile) : list Effect :=
  flat_map (fun file =>
              match folder with
              | Some f => [ZipFile f (name file) (archivedContent file)]
              | None => []
              end) files.

Definition folderEffect (folder : option string) : list Effect :=
  match folder with Some f => [ZipFolder f] | None => [] end.

(** [handleApplyAndDownload]; [generated] tells whether [generateAsync]
    fulfils or rejects. *)
Definition handleApplyAndDownload (generated : bool)
    (mainProjectFiles frontendProjectFiles : list ProjectFile) : list Effect :=
  let mainFolder := openFolder "main_project" mainProjectFiles in
  let frontendFolder := openFolder "frontend_project" frontendProjectFiles in
  [SetIsDownloading true]
  ++ folderEffect mainFolder ++ folderEffect frontendFolder
  ++ writeFiles mainFolder mainProjectFiles
  ++ writeFiles frontendFolder frontendProjectFiles
  ++ [GenerateAsync]
  ++ (if generated then [Download "documented_project.zip"]
      else [LogError "Failed to create or download zip file";
            Alert "Failed to create zip archive."])
  ++ [SetIsDownloading false].

(** [hasFilesToDownload] of lines 169-172 *)
Definition hasFilesToDownload (mainProjectFiles frontendProjectFiles : list ProjectFile)
    : bool :=
  existsb isIncluded mainProjectFiles || existsb isIncluded frontendProjectFiles.

(** One line of the list, as [FileListItem] shows it. *)
Record FileListItem : Type := mkItem {
  label : string;
  checked : bool;
  isSelected : bool;
  noChangesBadge : bool;
  errorBadge : option Wide.text
}.

Definition sameProject (a b : Project) : bool :=
  match a, b with
  | main, main => true
  | frontend, frontend => true
  | _, _ => false
  end.

(** [renderFileList], for one file of the project [projectName]. *)
Definition fileListItem (selectedFile : option SelectedProjectFile) (projectName : Project)
    (f : ProjectFile) : FileListItem :=
  mkItem (name f) (isIncluded f)
    match selectedFile with
    | Some s => String.eqb (name (file s)) (name f) && sameProject (project s) projectName
    | None => false
    end
    match documentedContent f with
    | Some d => String.eqb d (content f)
    | None => false
    end
    match error f with
    | Some e => if Wide.nonEmpty e then Some e else None
    | None => None
    end.

(** The right-hand pane (lines 199-212). *)
Inductive MainPane : Type :=
| Placeholder
| Viewer (view : DiffViewer.View).

Definition mainPane (selectedFile : option SelectedProjectFile) : MainPane :=
  match selectedFile with
  | Some s =>
      let f := file s in
      Viewer (DiffViewer.render (name f) (content f)
                (if isIncluded f then documentedContent f else Some (content f))
                (error f))
  | None => Placeholder
  end.

End ReviewChanges.


(** ** Notions of the specification *)

(** The interior of a fenced block whose text between the two fences is
    [inner]: what follows the language tag (the letters right after the
    opening fence) and the line feed that ends the opening line, if any. *)
Definition dropLineFeed (s : string) : string :=
  match s with
  | String c s' => if Js.code c =? 10 then s' else s
  | EmptyString => EmptyString
  end.

Definition fenceInterior (inner : string) : string :=
  dropLineFeed (Js.dropWhile Js.isAsciiLetter inner).

(** The table of the classifier, and the label of an extension written in
    lower case: the sentinel outside the table. *)
Definition languageTable : list (string * string) :=
  [("js", "JavaScript"); ("ts", "TypeScript"); ("py", "Python");
   ("java", "Java"); ("go", "Go"); ("gs", "Google Apps Script")].

Fixpoint labelIn (table : list (string * string)) (ext : string) : string :=
  match table with
  | [] => "code"
  | (key, label) :: table' => if String.eqb ext key then label else labelIn table' ext
  end.

(** The three states of a file in the pipeline.  A record with both a
    documented content and an error is in none of them. *)
Inductive PipelineState : Type := NotProcessed | Documented | Failed.

Definition pipelineState (f : ProjectFile) : option PipelineState :=
  match documentedContent f, error f with
  | None, None => Some NotProcessed
  | Some _, None => Some Documented
  | None, Some _ => Some Failed
  | Some _, Some _ => None
  end.

(** A record as an upload leaves it. *)
Definition pristine (f : ProjectFile) : Prop :=
  documentedContent f = None /\ error f = None.

(** The combined list of an application state, [main] first. *)
Definition combinedFiles (app : App) : list ProjectFile :=
  mainProjectFiles app ++ frontendProjectFiles app.

(** The progress notifications of a trace, in order. *)
Definition progressOf (t : list Event) : list string :=
  omap (fun e => match e with SetProcessingMessage m => Some m | _ => None end) t.

(** The calls to the remote model of a trace. *)
Definition aiCallsOf (t : list Event) : list Event := filter (fun e => isAiCall e = true) t.


(** The remediation hint, appended to a message that carries one of the
    two markers. *)
Definition withHint (m : Wide.text) : Wide.text :=
  if Wide.includes (Wide.ofString "500") m || Wide.includes (Wide.ofString "Rpc failed") m
  then m ++ remediationHint else m.

Section PipelineNotions.
Context `{Host}.

(** The files that the service hands to the remote model: those with a
    label other than the sentinel and a content that is not blank. *)
Definition needsModel (f : ProjectFile) : bool :=
  negb (String.eqb (language f) "code") && negb (Js.allWhiteSpace (content f)).

(** The request that the service sends for a file. *)
Definition requestFor (projectContext : string) (docLang : DocLanguage) (f : ProjectFile)
    : Request :=
  mkRequest "gemini-2.5-flash" (content f)
    (buildSystemInstruction (language f) projectContext docLang).

(** The readers that act during the turn of a file at index [i]: those
    firing while its call is out, when it needs the model. *)
Definition turnLoads (env : Env) (i : nat) (file : ProjectFile) : list (nat * string) :=
  if needsModel file then loadedDuring env i else [].

(** A record that is another one but for its content. *)
Definition sameButContent (f g : ProjectFile) : Prop := g = setContent (content g) f.

(** The effects of the turn of a file at index [i]: the progress
    notification, then what the service does, then the report of the
    failure when the service throws. *)
Definition turnEvents (env : Env) (projectContext : string) (docLang : DocLanguage)
    (totalFiles i : nat) (file : ProjectFile) : list Event :=
  SetProcessingMessage (progressMessage i totalFiles file)
  :: (if String.eqb (language file) "code" then []
      else
        snd (generateDocumentation (ai env i) (content file) (language file)
               projectContext docLang)
        ++ match fst (generateDocumentation (ai env i) (content file) (language file)
                        projectContext docLang) with
           | Normal _ => []
           | Throw _ => [ConsoleError ("Failed to document " +:+ name file +:+ ":")]
           end).

(** The record that the loop body leaves at index [i], but for what the
    readers do to its content meanwhile. *)
Definition processedRecord (env : Env) (projectContext : string) (docLang : DocLanguage)
    (i : nat) (file : ProjectFile) : ProjectFile :=
  if String.eqb (language file) "code" then setDocumentedContent (content file) file
  else
    match fst (generateDocumentation (ai env i) (content file) (language file)
                 projectContext docLang) with
    | Normal result => setDocumentedContent result file
    | Throw err => setError (caughtMessage err) file
    end.

(** One turn of the loop at index [i]: the test of the flag, then the
    body. *)
Definition iteration (env : Env) (projectContext : string) (docLang : DocLanguage)
    (totalFiles i : nat) (r : Run) : Run :=
  if cancelled r then r
  else
    match allFiles r !! i with
    | Some file => processFile env projectContext docLang totalFiles i file r
    | None => r
    end.

(** The states of the application that its interface can bring about.  The
    upload zones, the language selector and the Analyze button are shown
    while the state is [uploading]; the review panel, with its check boxes
    and its reset button, while it is [reviewing]; Cancel acts during a
    run, through [Env]. *)
Inductive Reachable : App -> Prop :=
| reach_initial : Reachable initialApp
| reach_upload project fileNames app :
    Reachable app -> appState app = uploading ->
    Reachable (handleFilesUpload project fileNames app)
| reach_onload project index text app :
    Reachable app -> Reachable (readerOnload project index text app)
| reach_language l app :
    Reachable app -> appState app = uploading -> Reachable (setDocLanguage l app)
| reach_analyze env app :
    Reachable app -> appState app = uploading -> Reachable (fst (handleAnalyze env app))
| reach_toggle project fileName app :
    Reachable app -> appState app = reviewing ->
    Reachable (toggleFileInclusion project fileName app)
| reach_reset app :
    Reachable app -> appState app = reviewing -> Reachable (handleReset app).

(** A record without what a run writes to it. *)
Definition clearOutcome (f : ProjectFile) : ProjectFile :=
  mkProjectFile (name f) (content f) (language f) None None (isIncluded f).

(** No reader fires during the run. *)
Definition quiet (env : Env) : Prop := forall i, loadedDuring env i = [].

(** The record at index [j] as it stands when the loop comes to it. *)
Definition atTurn (env : Env) (app : App) (j : nat) : option ProjectFile :=
  allFiles (runUpTo env app j) !! j.

(** The effects of the first [k] turns of a run, in the order of the
    turns, each on the record as it stands when the loop comes to it. *)
Definition runEvents (env : Env) (app : App) (k : nat) : list Event :=
  flat_map
    (fun j =>
       match atTurn env app j with
       | Some file =>
           turnEvents env (detailedProjectContext (combinedFiles app)) (docLanguage app)
             (length (combinedFiles app)) j file
       | None => []
       end)
    (seq 0 k).

(** The calls to the model of the first [k] turns: for each record that
    needs the model as the loop comes to it, its request. *)
Definition runCalls (env : Env) (app : App) (k : nat) : list Event :=
  omap
    (fun j =>
       match atTurn env app j with
       | Some file =>
           if needsModel file
           then Some (AiCall (requestFor (detailedProjectContext (combinedFiles app))
                                (docLanguage app) file))
           else None
       | None => None
       end)
    (seq 0 k).

End PipelineNotions.

(** The files that a trace of the review screen writes to the archive, as
    (folder, name, content), in order. *)
Definition zipFilesOf (t : list ReviewChanges.Effect) : list (string * string * string) :=
  omap (fun e => match e with
                 | ReviewChanges.ZipFile folder name content => Some (folder, name, content)
                 | _ => None
                 end) t.

(** The state cell of the zone of a project holds the names of the
    project's records. *)
Definition zoneInSync (project : Project) (s : UploadScreen) : Prop :=
  FileUpload.files (zone project s) = map name (projectFiles project (screenApp s)).

(** A string that does not begin with white space. *)
Definition startsClean (s : string) : bool :=
  match s with
  | String c _ => negb (Js.isWhiteSpace c)
  | EmptyString => true
  end.

(** ** Sample data for the examples *)

Module Sample.

(** A host for the examples: its number conversions are those of plain
    integer numerals. *)
Definition allZeroDigits (lexeme : string) : bool :=
  negb (Js.includes "1" lexeme || Js.includes "2" lexeme || Js.includes "3" lexeme
        || Js.includes "4" lexeme || Js.includes "5" lexeme || Js.includes "6" lexeme
        || Js.includes "7" lexeme || Js.includes "8" lexeme || Js.includes "9" lexeme).

Definition host : Host := {|
  englishPolicy := "Strictly adhere to the following JSDoc documentation policy:";
  russianPolicy := "Strictly adhere to the following JSDoc documentation policy:";
  numberIsZero := allZeroDigits;
  numberToString := fun lexeme => lexeme
|}.

(** A JSON string literal: the text between quotation marks. *)
Definition quoted (s : string) : string := Js.DQ +:+ s +:+ Js.DQ.

(** The text of an object whose member [error] is an object whose member
    [message] is the value written [m]. *)
Definition payloadOf (m : string) : Wide.text :=
  Wide.ofString ("{" +:+ quoted "error" +:+ ":{" +:+ quoted "message" +:+ ":" +:+ m +:+ "}}").

(** The same for the string [m], quoted. *)
Definition errorPayload (m : string) : Wide.text := payloadOf (quoted m).

(** The response of the fence-stripping scenario: a block tagged js around
    one line. *)
Definition fencedResponse : string :=
  "```js" +:+ Js.LF +:+ "foo();" +:+ Js.LF +:+ "```".

(** The groupings of the ordering scenario, as uploaded and read. *)
Definition uploaded : App :=
  readerOnload main 0 "def f(): pass"
    (readerOnload main 1 "About this project"
      (readerOnload main 2 "function g() {}"
        (readerOnload frontend 0 "export const h = () => 1;"
          (handleFilesUpload frontend ["d.ts"]
            (handleFilesUpload main ["a.py"; "b.readme"; "c.js"] initialApp))))).

(** A model that answers the first call and rejects every later one, and a
    user who presses Cancel during the call for the file at index [k]. *)
Definition envCancelAt (k : nat) : Env :=
  mkEnv
    (fun i _ =>
       if i =? 0 then Answered "def f(): pass"
       else Rejected (ErrorObject (errorPayload "quota exceeded")))
    (fun i => i =? k)
    (fun _ => []).

(** The same model with a user who never presses Cancel. *)
Definition envNoCancel : Env :=
  mkEnv (ai (envCancelAt 0)) (fun _ => false) (fun _ => []).

(** The upload of the ordering scenario while the reader of c.js is still
    out: the three other files are read, c.js has no content yet. *)
Definition halfRead : App :=
  readerOnload main 0 "def f(): pass"
    (readerOnload main 1 "About this project"
      (readerOnload frontend 0 "export const h = () => 1;"
        (handleFilesUpload frontend ["d.ts"]
          (handleFilesUpload main ["a.py"; "b.readme"; "c.js"] initialApp)))).

(** A model that answers every call with the contents of the request, a
    user who never presses Cancel, and the reader of c.js (position 2 of
    the combined list) firing during the call for the file at index [k]. *)
Definition envReaderAt (k : nat) : Env :=
  mkEnv (fun _ request => Answered (contents request)) (fun _ => false)
    (fun i => if i =? k then [(2, "function g() {}")] else []).

(** A project with a README: the two files as uploaded and read. *)
Definition withReadme : App :=
  readerOnload main 0 "Converts sheets."
    (readerOnload main 1 "function run() {}"
      (handleFilesUpload main ["README.md"; "run.gs"] initialApp)).

End Sample.

(** * Properties *)

(** ** Strings *)

#[local] Arguments String.append : simpl nomatch.

Lemma append_nil_r (s : string) : s +:+ EmptyString = s.
Proof. induction s as [|c s IH]; simpl; [reflexivity | now f_equal]. Qed.

Lemma append_assoc (a b c : string) : (a +:+ b) +:+ c = a +:+ (b +:+ c).
Proof. induction a as [|x a IH]; simpl; [reflexivity | now f_equal]. Qed.

Lemma length_append (a b : string) :
  String.length (a +:+ b) = String.length a + String.length b.
Proof. induction a as [|x a IH]; simpl; [reflexivity | now f_equal]. Qed.

Lemma substring_prefix (a b : string) :
  String.substring 0 (String.length a) (a +:+ b) = a.
Proof.
  induction a as [|x a IH]; simpl.
  - destruct b; reflexivity.
  - now f_equal.
Qed.

Lemma trimEnd_empty (s : string) :
  Js.trimEnd s = EmptyString <-> Js.allWhiteSpace s = true.
Proof.
  induction s as [|c s IH]; simpl; [tauto |].
  destruct (Js.trimEnd s) eqn:E.
  - destruct (Js.isWhiteSpace c); simpl; [tauto |].
    split; discriminate.
  - split; [discriminate |].
    intros [_ Hs]%andb_prop. apply IH in Hs. discriminate.
Qed.

Lemma allWhiteSpace_trimStart (s : string) :
  Js.allWhiteSpace (Js.trimStart s) = Js.allWhiteSpace s.
Proof.
  induction s as [|c s IH]; simpl; [reflexivity |].
  destruct (Js.isWhiteSpace c) eqn:E; simpl; [exact IH | now rewrite E].
Qed.

(** A string trims to nothing exactly when it is white space only. *)
Lemma trim_empty (s : string) :
  Js.trim s = EmptyString <-> Js.allWhiteSpace s = true.
Proof.
  unfold Js.trim. rewrite trimEnd_empty. now rewrite allWhiteSpace_trimStart.
Qed.

Lemma trim_length_zero (s : string) :
  (String.length (Js.trim s) =? 0) = Js.allWhiteSpace s.
Proof.
  destruct (Js.allWhiteSpace s) eqn:E.
  - apply trim_empty in E. now rewrite E.
  - destruct (Js.trim s) eqn:T; [| reflexivity].
    apply trim_empty in T. congruence.
Qed.

(** ** The JSON parser has fuel to spare *)

Section JsonFuel.
Import Json.

Lemma skipWs_length s : length (skipWs s) <= length s.
Proof.
  induction s as [|c s IH]; simpl; [lia |].
  destruct (isWs c); simpl; lia.
Qed.

Lemma skipWs_cons s c s' :
  skipWs s = c :: s' -> length s' < length s.
Proof. intros E. pose proof (skipWs_length s) as L. rewrite E in L. simpl in L. lia. Qed.

Lemma parseChars_length : forall n s t r,
  length s <= n -> parseChars s = Ok (t, r) -> length r < length s.
Proof.
  induction n as [|n IH]; intros s t r Hn Hp.
  - destruct s; [discriminate | simpl in Hn; lia].
  - destruct s as [|c s]; [discriminate |]. simpl in Hp, Hn.
    destruct (c =? 34)%N; [injection Hp as _ <-; simpl; lia |].
    destruct (c =? 92)%N.
    + destruct s as [|e s]; [discriminate |].
      destruct (e =? 117)%N.
      * destruct s as [|h1 [|h2 [|h3 [|h4 s4]]]]; try discriminate.
        destruct (unicodeEscape h1 h2 h3 h4); try discriminate.
        unfold ofOption, bind in Hp.
        destruct (parseChars s4) as [[t' r']|] eqn:E; try discriminate.
        injection Hp as _ <-. apply IH in E; simpl in *; lia.
      * destruct (simpleEscape e); try discriminate.
        unfold ofOption, bind in Hp.
        destruct (parseChars s) as [[t' r']|] eqn:E; try discriminate.
        injection Hp as _ <-. apply IH in E; simpl in *; lia.
    + destruct (c <? 32)%N; [discriminate |].
      unfold bind in Hp.
      destruct (parseChars s) as [[t' r']|] eqn:E; try discriminate.
      injection Hp as _ <-. apply IH in E; simpl in *; lia.
Qed.

Lemma spanDigits_length s d r :
  spanDigits s = (d, r) -> length r <= length s.
Proof.
  revert d r. induction s as [|c s IH]; intros d r; simpl.
  - intros [= _ <-]. simpl. lia.
  - destruct (isDigit c).
    + destruct (spanDigits s) as [d' r'] eqn:E. intros [= _ <-].
      specialize (IH _ _ eq_refl). lia.
    + intros [= _ <-]. simpl. lia.
Qed.

Lemma parseIntDigits_length s i r :
  parseIntDigits s = Some (i, r) -> length r < length s.
Proof.
  unfold parseIntDigits. destruct s as [|c s']; [discriminate |]. simpl.
  destruct (c =? 48)%N; [intros [= _ <-]; lia |].
  destruct (isDigit c); [| discriminate].
  destruct (spanDigits s') as [d r1] eqn:E. intros [= _ <-].
  apply spanDigits_length in E. lia.
Qed.

Lemma parseInt_length s i r :
  parseInt s = Some (i, r) -> length r < length s.
Proof.
  unfold parseInt. destruct s as [|c s']; [discriminate |].
  destruct (c =? 45)%N; [| apply parseIntDigits_length].
  destruct (parseIntDigits s') as [[i' r']|] eqn:E; [| discriminate].
  intros [= _ <-]. apply parseIntDigits_length in E. simpl. lia.
Qed.

Lemma parseFrac_length s f r :
  parseFrac s = Some (f, r) -> length r <= length s.
Proof.
  unfold parseFrac. destruct s as [|c s']; [intros [= _ <-]; lia |].
  destruct (c =? 46)%N; [| intros [= _ <-]; lia].
  destruct (spanDigits s') as [d r1] eqn:E. apply spanDigits_length in E.
  destruct d; [discriminate |]. intros [= _ <-]. simpl. lia.
Qed.

Lemma parseExpDigits_length s d r :
  parseExpDigits s = Some (d, r) -> length r <= length s.
Proof.
  unfold parseExpDigits.
  destruct (spanDigits s) as [d' r1] eqn:E. apply spanDigits_length in E.
  destruct d'; [discriminate |]. now intros [= _ <-].
Qed.

Lemma parseExp_length s e r :
  parseExp s = Some (e, r) -> length r <= length s.
Proof.
  unfold parseExp. destruct s as [|c s']; [intros [= _ <-]; lia |].
  destruct (_ || _); [| intros [= _ <-]; lia].
  destruct s' as [|g s'']; [discriminate |].
  destruct (_ || _).
  - destruct (parseExpDigits s'') as [[d r']|] eqn:E; [| discriminate].
    intros [= _ <-]. apply parseExpDigits_length in E. simpl. lia.
  - destruct (parseExpDigits (g :: s'')) as [[d r']|] eqn:E; [| discriminate].
    intros [= _ <-]. apply parseExpDigits_length in E. simpl in *. lia.
Qed.

Lemma parseNumber_length s l r :
  parseNumber s = Some (l, r) -> length r < length s.
Proof.
  unfold parseNumber.
  destruct (parseInt s) as [[i s1]|] eqn:E1; [| discriminate].
  destruct (parseFrac s1) as [[f s2]|] eqn:E2; [| discriminate].
  destruct (parseExp s2) as [[e s3]|] eqn:E3; [| discriminate].
  intros [= _ <-].
  apply parseInt_length in E1. apply parseFrac_length in E2. apply parseExp_length in E3.
  lia.
Qed.

Lemma stripPrefix_length p s r :
  stripPrefix p s = Some r -> length r <= length s.
Proof.
  revert s. induction p as [|a p IH]; intros s; simpl.
  - intros [= <-]. lia.
  - destruct s as [|b s]; [discriminate |].
    destruct (a =? b)%N; [| discriminate].
    intros Hp%IH. simpl. lia.
Qed.

Lemma parseScalar_length c s' v r :
  parseScalar c s' = Ok (v, r) -> length r <= length s'.
Proof.
  unfold parseScalar, bind, ofOption.
  destruct (c =? 34)%N.
  { destruct (parseChars s') as [[t r']|] eqn:E; try discriminate.
    intros [= _ <-]. apply (parseChars_length _ _ _ _ (le_n _)) in E. lia. }
  assert (Hlit : forall p (w : value),
            match match stripPrefix p s' with Some a => Ok a | None => SyntaxError end with
            | Ok r0 => Ok (w, r0)
            | SyntaxError => SyntaxError
            end = Ok (v, r) ->
            length r <= length s').
  { intros p w. destruct (stripPrefix p s') as [r0|] eqn:E; [| discriminate].
    intros [= _ <-]. now apply stripPrefix_length in E. }
  destruct (c =? 116)%N; [apply Hlit |].
  destruct (c =? 102)%N; [apply Hlit |].
  destruct (c =? 110)%N; [apply Hlit |].
  destruct (parseNumber (c :: s')) as [[l r']|] eqn:E; [| discriminate].
  intros [= _ <-]. apply parseNumber_length in E. simpl in E. lia.
Qed.

(** A value, a run of elements, a run of members: each reads at least one
    character. *)
Lemma parse_consumes fuel :
  (forall s v r, parseValue fuel s = Ok (v, r) -> length r < length s)
  /\ (forall s vs r, parseElements fuel s = Ok (vs, r) -> length r < length s)
  /\ (forall s ms r, parseMembers fuel s = Ok (ms, r) -> length r < length s).
Proof.
  induction fuel as [|fuel (IHv & IHe & IHm)]; [repeat split; discriminate |].
  split; [| split].
  - intros s v r. cbn [parseValue]. unfold bind.
    destruct (skipWs s) as [|c s'] eqn:Es; [discriminate |].
    pose proof (skipWs_cons _ _ _ Es) as Ls.
    destruct (c =? 123)%N; [| destruct (c =? 91)%N].
    + destruct (skipWs s') as [|d r0] eqn:Es'; [discriminate |].
      pose proof (skipWs_cons _ _ _ Es') as Ls'.
      destruct (d =? 125)%N; [intros [= _ <-]; lia |].
      destruct (parseMembers fuel s') as [[ms r']|] eqn:E; try discriminate.
      intros [= _ <-]. apply IHm in E. lia.
    + destruct (skipWs s') as [|d r0] eqn:Es'; [discriminate |].
      pose proof (skipWs_cons _ _ _ Es') as Ls'.
      destruct (d =? 93)%N; [intros [= _ <-]; lia |].
      destruct (parseElements fuel s') as [[vs r']|] eqn:E; try discriminate.
      intros [= _ <-]. apply IHe in E. lia.
    + intros Hp%parseScalar_length. lia.
  - intros s vs r. cbn [parseElements]. unfold bind.
    destruct (parseValue fuel s) as [[v r0]|] eqn:Ev; try discriminate.
    apply IHv in Ev.
    destruct (skipWs r0) as [|c r1] eqn:Es; [discriminate |].
    pose proof (skipWs_cons _ _ _ Es) as Ls.
    destruct (c =? 44)%N.
    + destruct (parseElements fuel r1) as [[vs' r2]|] eqn:E; try discriminate.
      intros [= _ <-]. apply IHe in E. lia.
    + destruct (c =? 93)%N; [| discriminate]. intros [= _ <-]. lia.
  - intros s ms r. cbn [parseMembers]. unfold bind.
    destruct (skipWs s) as [|q s1] eqn:Es; [discriminate |].
    pose proof (skipWs_cons _ _ _ Es) as Ls.
    destruct (q =? 34)%N; [| discriminate].
    destruct (parseChars s1) as [[key s2]|] eqn:Ek; try discriminate.
    apply (parseChars_length _ _ _ _ (le_n _)) in Ek.
    destruct (skipWs s2) as [|colon s3] eqn:Es2; [discriminate |].
    pose proof (skipWs_cons _ _ _ Es2) as Ls2.
    destruct (colon =? 58)%N; [| discriminate].
    destruct (parseValue fuel s3) as [[v r0]|] eqn:Ev; try discriminate.
    apply IHv in Ev.
    destruct (skipWs r0) as [|c r1] eqn:Es3; [discriminate |].
    pose proof (skipWs_cons _ _ _ Es3) as Ls3.
    destruct (c =? 44)%N.
    + destruct (parseMembers fuel r1) as [[ms' r2]|] eqn:E; try discriminate.
      intros [= _ <-]. apply IHm in E. lia.
    + destruct (c =? 125)%N; [| discriminate]. intros [= _ <-]. lia.
Qed.

(** Above twice the length of the text (and one or two more), the fuel
    makes no difference. *)
Lemma parse_fuel_irrelevant n : forall s,
  length s < n ->
  (forall f1 f2, 2 * length s + 1 <= f1 -> 2 * length s + 1 <= f2 ->
                 parseValue f1 s = parseValue f2 s)
  /\ (forall f1 f2, 2 * length s + 2 <= f1 -> 2 * length s + 2 <= f2 ->
                    parseElements f1 s = parseElements f2 s)
  /\ (forall f1 f2, 2 * length s + 2 <= f1 -> 2 * length s + 2 <= f2 ->
                    parseMembers f1 s = parseMembers f2 s).
Proof.
  induction n as [|n IH]; intros s Hs; [lia |].
  assert (Hv : forall f1 f2,
            2 * length s + 1 <= f1 -> 2 * length s + 1 <= f2 ->
            parseValue f1 s = parseValue f2 s).
  { intros [|g1] [|g2] H1 H2; try lia. cbn [parseValue].
    destruct (skipWs s) as [|c s'] eqn:Es; [reflexivity |].
    pose proof (skipWs_cons _ _ _ Es) as Ls.
    destruct (IH s') as (_ & IHe & IHm); [lia |].
    now rewrite (IHe g1 g2), (IHm g1 g2) by lia. }
  split; [exact Hv | split].
  - intros [|g1] [|g2] H1 H2; try lia. cbn [parseElements]. unfold bind.
    rewrite (Hv g1 g2) by lia.
    destruct (parseValue g2 s) as [[v r0]|] eqn:Ev; try reflexivity.
    apply (proj1 (parse_consumes g2)) in Ev.
    destruct (skipWs r0) as [|c r1] eqn:Es; [reflexivity |].
    pose proof (skipWs_cons _ _ _ Es) as Ls.
    destruct (IH r1) as (_ & IHe & _); [lia |].
    now rewrite (IHe g1 g2) by lia.
  - intros [|g1] [|g2] H1 H2; try lia. cbn [parseMembers]. unfold bind.
    destruct (skipWs s) as [|q s1] eqn:Es; [reflexivity |].
    pose proof (skipWs_cons _ _ _ Es) as Ls.
    destruct (q =? 34)%N; [| reflexivity].
    destruct (parseChars s1) as [[key s2]|] eqn:Ek; try reflexivity.
    apply (parseChars_length _ _ _ _ (le_n _)) in Ek.
    destruct (skipWs s2) as [|colon s3] eqn:Es2; [reflexivity |].
    pose proof (skipWs_cons _ _ _ Es2) as Ls2.
    destruct (colon =? 58)%N; [| reflexivity].
    destruct (IH s3) as (IHv & _ & _); [lia |].
    rewrite (IHv g1 g2) by lia.
    destruct (parseValue g2 s3) as [[v r0]|] eqn:Ev; try reflexivity.
    apply (proj1 (parse_consumes g2)) in Ev.
    destruct (skipWs r0) as [|c r1] eqn:Es3; [reflexivity |].
    pose proof (skipWs_cons _ _ _ Es3) as Ls3.
    destruct (IH r1) as (_ & _ & IHm); [lia |].
    now rewrite (IHm g1 g2) by lia.
Qed.

(** The fuel that [parse] provides is enough: any larger amount gives the
    same result, so a [SyntaxError] of [parse] is one of the text. *)
Lemma parseValue_enough s fuel :
  2 * length s + 2 <= fuel ->
  parseValue fuel s = parseValue (2 * length s + 2) s.
Proof.
  intros Hf.
  apply (proj1 (parse_fuel_irrelevant (S (length s)) s (Nat.lt_succ_diag_r _))); lia.
Qed.

End JsonFuel.

(** ** The regular expression of the service *)

Section RegexFacts.
Import Regex.

Lemma takeWhile_dropWhile p s : Js.takeWhile p s +:+ Js.dropWhile p s = s.
Proof.
  induction s as [|c s IH]; simpl; [reflexivity |].
  destruct (p c); simpl; [now f_equal | reflexivity].
Qed.

Lemma every_takeWhile p s : Js.every p (Js.takeWhile p s) = true.
Proof.
  induction s as [|c s IH]; simpl; [reflexivity |].
  destruct (p c) eqn:E; simpl; [now rewrite E | reflexivity].
Qed.

Lemma anyChar_true c : anyChar c = true.
Proof. unfold anyChar. apply orb_negb_r. Qed.

Lemma every_anyChar s : Js.every anyChar s = true.
Proof. induction s as [|c s IH]; simpl; [reflexivity | now rewrite anyChar_true]. Qed.

(** The star stops where the class stops. *)
Lemma starClass_stop p i s caps k :
  match s with String c _ => p c = false | EmptyString => True end ->
  starClass p i s caps k = k (mkState i s caps).
Proof. destruct s as [|c s]; simpl; [reflexivity | now intros ->]. Qed.

(** Greediness: when the run from the end of [a] succeeds, it is the
    match, whatever the shorter alternatives would give. *)
Lemma starClass_app p a b i caps k m :
  Js.every p a = true ->
  starClass p (i + String.length a) b caps k = Some m ->
  starClass p i (a +:+ b) caps k = Some m.
Proof.
  revert i. induction a as [|c a IH]; intros i Ha Hm; simpl in *.
  - now rewrite Nat.add_0_r in Hm.
  - apply andb_prop in Ha as [-> Ha].
    rewrite (IH (S i)); [reflexivity | exact Ha |].
    now rewrite Nat.add_succ_r in Hm.
Qed.

(** Whatever matches consumed a prefix of the input, and the continuation
    succeeded on the state it was given. *)
Lemma starClass_sound p s i caps k m :
  starClass p i s caps k = Some m ->
  exists a st', s = a +:+ rest st' /\ k st' = Some m.
Proof.
  revert i. induction s as [|c s IH]; intros i Hm; simpl in Hm.
  - exists EmptyString, (mkState i EmptyString caps). now split.
  - destruct (p c).
    + destruct (starClass p (S i) s caps k) eqn:E.
      * injection Hm as ->. apply IH in E as (a & st' & -> & Hk).
        exists (String c a), st'. now split.
      * exists EmptyString, (mkState i (String c s) caps). now split.
    + exists EmptyString, (mkState i (String c s) caps). now split.
Qed.

Lemma matchRe_sound r : forall st k m,
  matchRe r st k = Some m ->
  exists a st', rest st = a +:+ rest st' /\ k st' = Some m.
Proof.
  induction r as [c | p | | | r1 IH1 r2 IH2 | r IH | p | n r IH | r IH];
    intros st k m Hm; simpl in Hm.
  - destruct (rest st) as [|d s'] eqn:E; [discriminate |].
    destruct (Ascii.eqb c d); [| discriminate].
    exists (String d EmptyString), (advance st s'). now split.
  - destruct (rest st) as [|d s'] eqn:E; [discriminate |].
    destruct (p d); [| discriminate].
    exists (String d EmptyString), (advance st s'). now split.
  - destruct (pos st =? 0); [| discriminate].
    exists EmptyString, st. now split.
  - destruct (rest st) eqn:E; [| discriminate].
    exists EmptyString, st. split; [now rewrite E | exact Hm].
  - apply IH1 in Hm as (a1 & st1 & E1 & Hm).
    apply IH2 in Hm as (a2 & st2 & E2 & Hm).
    exists (a1 +:+ a2), st2. split; [| exact Hm].
    now rewrite E1, E2, append_assoc.
  - destruct (matchRe r st _) eqn:E.
    + injection Hm as ->. apply IH in E as (a & st' & E1 & Hk).
      destruct (pos st' =? pos st); [discriminate |].
      exists a, st'. now split.
    + exists EmptyString, st. now split.
  - apply starClass_sound in Hm as (a & st' & E & Hk).
    exists a, st'. now split.
  - apply IH in Hm as (a & st' & E & Hk).
    eexists a, (mkState _ (rest st') _). split; [exact E | exact Hk].
  - now apply IH.
Qed.

Lemma matchRe_Seq r1 r2 st k :
  matchRe (Seq r1 r2) st k = matchRe r1 st (fun st' => matchRe r2 st' k).
Proof. reflexivity. Qed.

Lemma matchRe_Chr_sound c st k m :
  matchRe (Chr c) st k = Some m ->
  exists s', rest st = String c s' /\ k (advance st s') = Some m.
Proof.
  cbn -[Ascii.eqb]. destruct (rest st) as [|d s']; [discriminate |].
  destruct (Ascii.eqb_spec c d) as [<- |]; [| discriminate].
  intros Hk. now exists s'.
Qed.

Lemma matchRe_Chr_here c s i caps k :
  matchRe (Chr c) (mkState i (String c s) caps) k = k (mkState (S i) s caps).
Proof. cbn -[Ascii.eqb]. now rewrite Ascii.eqb_refl. Qed.

Lemma matchRe_Eol_sound st k m :
  matchRe Eol st k = Some m -> rest st = EmptyString.
Proof. simpl. now destruct (rest st). Qed.

(** The closing fence: three backquotes, then the end of the input. *)
Lemma closeFence_sound st k m :
  matchRe (lit fence Eol) st k = Some m -> rest st = fence.
Proof.
  unfold fence. cbn [lit]. intros Hm.
  rewrite matchRe_Seq in Hm. apply matchRe_Chr_sound in Hm as (s1 & E1 & Hm).
  rewrite matchRe_Seq in Hm. apply matchRe_Chr_sound in Hm as (s2 & E2 & Hm).
  rewrite matchRe_Seq in Hm. apply matchRe_Chr_sound in Hm as (s3 & E3 & Hm).
  apply matchRe_Eol_sound in Hm. cbn [rest advance] in *.
  now rewrite E1, E2, E3, Hm.
Qed.

Lemma closeFence_here i caps k :
  matchRe (lit fence Eol) (mkState i fence caps) k
  = k (mkState (S (S (S i))) EmptyString caps).
Proof.
  unfold fence. cbn [lit]. now rewrite !matchRe_Seq, !matchRe_Chr_here.
Qed.

(** On a closing fence alone, the greedy run of any characters gives all
    three backquotes back. *)
Lemma starAny_fence i caps (k : Continuation) :
  (forall j s, String.length s < 3 -> k (mkState j s caps) = None) ->
  starClass anyChar i fence caps k = k (mkState i fence caps).
Proof.
  intros Hk. unfold fence. cbn [starClass]. rewrite !anyChar_true.
  rewrite !Hk by (simpl; lia). reflexivity.
Qed.

(** Group 1 and the closing fence, on a text that ends with a fence. *)
Lemma group_then_fence body i caps :
  matchRe (Seq (Group 1 (StarClass anyChar)) (lit fence Eol))
    (mkState i (body +:+ fence) caps) Some
  = Some (mkState (S (S (S (i + String.length body)))) EmptyString ((1, body) :: caps)).
Proof.
  rewrite matchRe_Seq. cbn [matchRe pos rest captures].
  apply starClass_app; [apply every_anyChar |].
  rewrite starAny_fence.
  - cbn [pos rest captures]. rewrite closeFence_here.
    replace (i + String.length body - i) with (String.length body) by lia.
    now rewrite substring_prefix.
  - intros j s Hs. cbn [pos rest captures].
    destruct (matchRe (lit fence Eol) _ Some) eqn:E; [| reflexivity].
    apply closeFence_sound in E. cbn [rest] in E. subst s. simpl in Hs. lia.
Qed.

Lemma matchRe_Opt r st k :
  matchRe (Opt r) st k =
  match matchRe r st (fun st' => if pos st' =? pos st then None else k st') with
  | Some m => Some m
  | None => k st
  end.
Proof. reflexivity. Qed.

Lemma code_10 c : Js.code c = 10 -> c = ascii_of_nat 10.
Proof. unfold Js.code. intros E. now rewrite <- (ascii_nat_embedding c), E. Qed.

Lemma matchRe_Chr_other c d s i caps k :
  Ascii.eqb c d = false ->
  matchRe (Chr c) (mkState i (String d s) caps) k = None.
Proof. intros E. cbn -[Ascii.eqb]. now rewrite E. Qed.

(** The optional line feed, group 1 and the closing fence. *)
Lemma lineFeed_then_group text i caps :
  exists j,
    matchRe (Seq (Opt (Chr (ascii_of_nat 10)))
               (Seq (Group 1 (StarClass anyChar)) (lit fence Eol)))
      (mkState i (text +:+ fence) caps) Some
    = Some (mkState j EmptyString ((1, dropLineFeed text) :: caps)).
Proof.
  rewrite matchRe_Seq, matchRe_Opt. cbn [pos].
  destruct text as [|c text]; [| destruct (Js.code c =? 10) eqn:E].
  - eexists.
    change (EmptyString +:+ fence) with (String "`" "``") at 1.
    rewrite matchRe_Chr_other by reflexivity.
    apply (group_then_fence EmptyString).
  - apply Nat.eqb_eq, code_10 in E. subst c.
    change (String (ascii_of_nat 10) text +:+ fence)
      with (String (ascii_of_nat 10) (text +:+ fence)).
    rewrite matchRe_Chr_here. cbn [pos].
    replace (S i =? i) with false by (symmetry; apply Nat.eqb_neq; lia).
    rewrite group_then_fence. eexists. reflexivity.
  - assert (Hc : Ascii.eqb (ascii_of_nat 10) c = false).
    { apply Ascii.eqb_neq. intros <-. now vm_compute in E. }
    change (String c text +:+ fence) with (String c (text +:+ fence)) at 1.
    rewrite matchRe_Chr_other by exact Hc.
    rewrite group_then_fence. cbn [dropLineFeed]. rewrite E. eauto.
Qed.

Lemma dropWhile_head p s :
  match Js.dropWhile p s with String c _ => p c = false | EmptyString => True end.
Proof.
  induction s as [|c s IH]; simpl; [exact I |].
  destruct (p c) eqn:E; [exact IH | exact E].
Qed.

Lemma not_letter_before_fence s :
  match s with String c _ => Js.isAsciiLetter c = false | EmptyString => True end ->
  match s +:+ fence with String c _ => Js.isAsciiLetter c = false | EmptyString => True end.
Proof. destruct s; simpl; [reflexivity | trivial]. Qed.

(** The whole expression after the opening fence. *)
Lemma tag_then_interior inner i caps :
  exists j,
    matchRe (Seq (Opt (NonCapture (StarClass Js.isAsciiLetter)))
              (Seq (Opt (Chr (ascii_of_nat 10)))
                (Seq (Group 1 (StarClass anyChar)) (lit fence Eol))))
      (mkState i (inner +:+ fence) caps) Some
    = Some (mkState j EmptyString ((1, fenceInterior inner) :: caps)).
Proof.
  rewrite matchRe_Seq, matchRe_Opt. cbn [pos rest captures matchRe].
  unfold fenceInterior.
  set (tag := Js.takeWhile Js.isAsciiLetter inner).
  set (after := Js.dropWhile Js.isAsciiLetter inner).
  assert (Hsplit : inner +:+ fence = tag +:+ (after +:+ fence)).
  { unfold tag, after. now rewrite <- append_assoc, takeWhile_dropWhile. }
  assert (Hstop : match after +:+ fence with
                  | String c _ => Js.isAsciiLetter c = false
                  | EmptyString => True
                  end) by apply not_letter_before_fence, dropWhile_head.
  destruct (lineFeed_then_group after (i + String.length tag) caps) as [j Hj].
  exists j.
  destruct tag as [|c tag'] eqn:Etag.
  - (* no tag: the iteration reads nothing and is refused *)
    rewrite Hsplit. change (EmptyString +:+ (after +:+ fence)) with (after +:+ fence).
    rewrite starClass_stop by exact Hstop. cbn [pos].
    rewrite Nat.eqb_refl.
    simpl in Hj. rewrite Nat.add_0_r in Hj. exact Hj.
  - rewrite Hsplit.
    erewrite starClass_app; [reflexivity | | ].
    + rewrite <- Etag. apply every_takeWhile.
    + rewrite starClass_stop by exact Hstop. cbn [pos].
      replace (i + String.length (String c tag') =? i) with false
        by (symmetry; apply Nat.eqb_neq; simpl; lia).
      exact Hj.
Qed.

Lemma execFrom_unfold r i s :
  execFrom r i s =
  match matchRe r (mkState i s []) Some with
  | Some m => Some m
  | None =>
      match s with
      | String _ s' => execFrom r (S i) s'
      | EmptyString => None
      end
  end.
Proof. destruct s; reflexivity. Qed.

(** An expression anchored at the start matches at index 0 or nowhere. *)
Lemma execFrom_anchored r s : forall i, i <> 0 -> execFrom (Seq Bol r) i s = None.
Proof.
  induction s as [|c s IH]; intros i Hi; rewrite execFrom_unfold;
    cbn [matchRe pos]; apply Nat.eqb_neq in Hi; rewrite Hi.
  - reflexivity.
  - apply IH. lia.
Qed.

(** The opening fence. *)
Lemma openFence_here tail s i caps k :
  matchRe (lit fence tail) (mkState i (fence +:+ s) caps) k
  = matchRe tail (mkState (S (S (S i))) s caps) k.
Proof.
  unfold fence. cbn [lit String.append]. now rewrite !matchRe_Seq, !matchRe_Chr_here.
Qed.

Lemma openFence_sound tail st k m :
  matchRe (lit fence tail) st k = Some m ->
  exists st', rest st = fence +:+ rest st' /\ matchRe tail st' k = Some m.
Proof.
  unfold fence. cbn [lit]. intros Hm.
  rewrite matchRe_Seq in Hm. apply matchRe_Chr_sound in Hm as (s1 & E1 & Hm).
  rewrite matchRe_Seq in Hm. apply matchRe_Chr_sound in Hm as (s2 & E2 & Hm).
  rewrite matchRe_Seq in Hm. apply matchRe_Chr_sound in Hm as (s3 & E3 & Hm).
  cbn [rest advance] in *.
  eexists. split; [| exact Hm]. cbn [rest advance]. now rewrite E1, E2, E3.
Qed.

(** A text between two fences matches, and group 1 is its interior. *)
Lemma exec_fenced inner :
  exists m,
    exec codeBlockRegex (fence +:+ inner +:+ fence) = Some m
    /\ group 1 m = Some (fenceInterior inner).
Proof.
  destruct (tag_then_interior inner 3 []) as [j Hj].
  exists (mkState j EmptyString [(1, fenceInterior inner)]). split; [| reflexivity].
  unfold exec. rewrite execFrom_unfold. unfold codeBlockRegex.
  rewrite matchRe_Seq. cbn [matchRe pos Nat.eqb].
  now rewrite openFence_here, Hj.
Qed.

(** Only a text between two fences matches. *)
Lemma exec_sound t m :
  exec codeBlockRegex t = Some m -> exists inner, t = fence +:+ inner +:+ fence.
Proof.
  unfold exec. rewrite execFrom_unfold.
  destruct (matchRe codeBlockRegex (mkState 0 t []) Some) as [m0|] eqn:E.
  - intros _. unfold codeBlockRegex in E.
    rewrite matchRe_Seq in E. cbn [matchRe pos Nat.eqb] in E.
    apply openFence_sound in E as (st0 & E0 & E). cbn [rest] in E0.
    rewrite matchRe_Seq in E. apply matchRe_sound in E as (a1 & st1 & F1 & E).
    rewrite matchRe_Seq in E. apply matchRe_sound in E as (a2 & st2 & F2 & E).
    rewrite matchRe_Seq in E. apply matchRe_sound in E as (a3 & st3 & F3 & E).
    apply closeFence_sound in E.
    exists (a1 +:+ a2 +:+ a3).
    rewrite E0, F1, F2, F3, E. now rewrite !append_assoc.
  - destruct t as [|c t]; [discriminate |].
    unfold codeBlockRegex. now rewrite execFrom_anchored by lia.
Qed.

(** Group 1 takes part in every match of the expression. *)
Lemma codeBlock_group_defined t m :
  exec codeBlockRegex t = Some m -> exists g, group 1 m = Some g.
Proof.
  intros Hm. destruct (exec_sound _ _ Hm) as [inner ->].
  destruct (exec_fenced inner) as (m' & Hm' & Hg).
  rewrite Hm in Hm'. injection Hm' as ->. eauto.
Qed.

End RegexFacts.

(** ** Readers *)

Lemma sameButContent_refl f : sameButContent f f.
Proof. now destruct f. Qed.

Lemma sameButContent_trans f g h :
  sameButContent f g -> sameButContent g h -> sameButContent f h.
Proof. unfold sameButContent. intros -> ->. reflexivity. Qed.

Lemma sameButContent_setContent text f : sameButContent f (setContent text f).
Proof. reflexivity. Qed.

Lemma sameButContent_fields f g :
  sameButContent f g ->
  name g = name f /\ language g = language f
  /\ documentedContent g = documentedContent f /\ error g = error f
  /\ isIncluded g = isIncluded f.
Proof. unfold sameButContent. intros ->. now repeat split. Qed.

Lemma sameButContent_state f g : sameButContent f g -> pipelineState g = pipelineState f.
Proof. unfold sameButContent. intros ->. reflexivity. Qed.

Lemma sameButContent_pristine f g : sameButContent f g -> pristine f -> pristine g.
Proof. unfold sameButContent. intros -> [? ?]. now split. Qed.

Lemma sameButContent_eq f g : sameButContent f g -> content g = content f -> g = f.
Proof. unfold sameButContent. intros -> E. simpl in E. rewrite E. now destruct f. Qed.

Lemma sameButContent_setDocumentedContent d f g :
  sameButContent f g -> sameButContent (setDocumentedContent d f) (setDocumentedContent d g).
Proof. unfold sameButContent. intros ->. reflexivity. Qed.

Lemma sameButContent_setError m f g :
  sameButContent f g -> sameButContent (setError m f) (setError m g).
Proof. unfold sameButContent. intros ->. reflexivity. Qed.

Lemma loadRecord_same loads i : forall f, sameButContent f (loadRecord loads i f).
Proof.
  unfold loadRecord. induction loads as [|load loads IH]; intros f; simpl.
  - apply sameButContent_refl.
  - eapply sameButContent_trans; [| apply IH].
    destruct (fst load =? i); [apply sameButContent_setContent | apply sameButContent_refl].
Qed.

Lemma loadRecord_setDocumentedContent loads i d : forall f,
  loadRecord loads i (setDocumentedContent d f) = setDocumentedContent d (loadRecord loads i f).
Proof.
  unfold loadRecord. induction loads as [|load loads IH]; intros f; simpl; [reflexivity |].
  destruct (fst load =? i); [exact (IH (setContent (snd load) f)) | apply IH].
Qed.

Lemma loadRecord_setError loads i m : forall f,
  loadRecord loads i (setError m f) = setError m (loadRecord loads i f).
Proof.
  unfold loadRecord. induction loads as [|load loads IH]; intros f; simpl; [reflexivity |].
  destruct (fst load =? i); [exact (IH (setContent (snd load) f)) | apply IH].
Qed.

Lemma applyLoads_length loads : forall files, length (applyLoads loads files) = length files.
Proof.
  unfold applyLoads. induction loads as [|load loads IH]; intros files; simpl; [reflexivity |].
  rewrite IH. unfold applyLoad. apply length_alter.
Qed.

(** What the readers do to a list is what they do to each of its
    records. *)
Lemma applyLoads_lookup loads j : forall files,
  applyLoads loads files !! j = loadRecord loads j <$> files !! j.
Proof.
  unfold applyLoads, loadRecord.
  induction loads as [|load loads IH]; intros files; simpl.
  - now destruct (files !! j).
  - rewrite IH. unfold applyLoad.
    destruct (Nat.eqb_spec (fst load) j) as [-> | Hne].
    + rewrite list_lookup_alter_eq. now destruct (files !! j).
    + now rewrite list_lookup_alter_ne.
Qed.


(** The content after the readers' writes is the content from before, or
    the text that a reader wrote to that position. *)
Lemma loadRecord_content loads i : forall f,
  content (loadRecord loads i f) = content f
  \/ exists text, (i, text) ∈ loads /\ content (loadRecord loads i f) = text.
Proof.
  unfold loadRecord. induction loads as [|[k text] loads IH]; intros f; [now left |].
  simpl. destruct (Nat.eqb_spec k i) as [-> | Hne].
  - right. destruct (IH (setContent text f)) as [E | (text' & Hin & E)].
    + exists text. split; [apply elem_of_cons; now left | exact E].
    + exists text'. split; [apply elem_of_cons; now right | exact E].
  - destruct (IH f) as [E | (text' & Hin & E)]; [now left |].
    right. exists text'. split; [apply elem_of_cons; now right | exact E].
Qed.
(** ** The loop of the pipeline *)

Section LoopFacts.
Context `{Host}.
Variables (env : Env) (projectContext : string) (docLang : DocLanguage) (totalFiles : nat).

#[local] Abbreviation loop' := (loop env projectContext docLang totalFiles).
#[local] Abbreviation iteration' := (iteration env projectContext docLang totalFiles).
#[local] Abbreviation processFile' := (processFile env projectContext docLang totalFiles).
#[local] Abbreviation processedRecord' := (processedRecord env projectContext docLang).

(** The service sends a request exactly for a content that is not blank,
    under a label that is not the sentinel. *)
Lemma generateDocumentation_suspended model script lang :
  existsb isAiCall (snd (generateDocumentation model script lang projectContext docLang))
  = negb (String.eqb lang "code") && negb (Js.allWhiteSpace script).
Proof.
  unfold generateDocumentation. rewrite trim_length_zero.
  destruct (String.eqb lang "code"); [reflexivity |].
  destruct (Js.allWhiteSpace script); [reflexivity |]. simpl.
  now destruct (model _).
Qed.

Lemma processFile_allFiles i file r :
  allFiles (processFile' i file r)
  = <[i := loadRecord (turnLoads env i file) i (processedRecord' i file)]>
      (applyLoads (turnLoads env i file) (allFiles r)).
Proof.
  pose proof (generateDocumentation_suspended (ai env i) (content file) (language file)) as S.
  unfold processFile, processedRecord, turnLoads, needsModel in *.
  destruct (String.eqb (language file) "code"); [reflexivity |].
  destruct (generateDocumentation _ _ _ _ _) as [[result | err] effects]; simpl in *;
    rewrite S; [now rewrite loadRecord_setDocumentedContent | now rewrite loadRecord_setError].
Qed.

Lemma processFile_cancelled i file r :
  cancelled (processFile' i file r) = cancelled r || (needsModel file && cancelDuring env i).
Proof.
  pose proof (generateDocumentation_suspended (ai env i) (content file) (language file)) as S.
  unfold processFile, needsModel in *.
  destruct (String.eqb (language file) "code"); simpl; [now rewrite orb_false_r |].
  destruct (generateDocumentation _ _ _ _ _) as [[result | err] effects]; simpl in *;
    now rewrite S.
Qed.

Lemma processFile_trace i file r :
  trace (processFile' i file r)
  = trace r ++ turnEvents env projectContext docLang totalFiles i file.
Proof.
  unfold processFile, turnEvents.
  destruct (String.eqb (language file) "code"); [reflexivity |].
  destruct (generateDocumentation _ _ _ _ _) as [[result | err] effects]; simpl.
  - now rewrite app_nil_r, <- app_assoc.
  - now rewrite <- !app_assoc.
Qed.

Lemma processFile_length i file r :
  length (allFiles (processFile' i file r)) = length (allFiles r).
Proof. now rewrite processFile_allFiles, length_insert, applyLoads_length. Qed.

(** The list after the turn of the file at index [i], position by
    position. *)
Lemma processFile_lookup i file r j :
  allFiles r !! i = Some file ->
  allFiles (processFile' i file r) !! j
  = if decide (j = i)
    then Some (loadRecord (turnLoads env i file) i (processedRecord' i file))
    else loadRecord (turnLoads env i file) j <$> allFiles r !! j.
Proof.
  intros Hi. rewrite processFile_allFiles.
  destruct (decide (j = i)) as [-> | Hne].
  - apply list_lookup_insert_eq. rewrite applyLoads_length. now apply lookup_lt_Some in Hi.
  - rewrite list_lookup_insert_ne by congruence. apply applyLoads_lookup.
Qed.

Lemma iteration_length i r : length (allFiles (iteration' i r)) = length (allFiles r).
Proof.
  unfold iteration. destruct (cancelled r); [reflexivity |].
  destruct (allFiles r !! i); [| reflexivity].
  apply processFile_length.
Qed.

(** The loop, unfolded at its last turn. *)
Lemma loop_S n : forall i r, loop' (S n) i r = iteration' (i + n) (loop' n i r).
Proof.
  induction n as [|n IH]; intros i r.
  - rewrite Nat.add_0_r. unfold iteration. simpl.
    destruct (cancelled r); [reflexivity |]. now destruct (allFiles r !! i).
  - change (loop' (S (S n)) i r) with
      (if cancelled r then r
       else match allFiles r !! i with
            | Some file => loop' (S n) (S i) (processFile' i file r)
            | None => r
            end).
    change (loop' (S n) i r) with
      (if cancelled r then r
       else match allFiles r !! i with
            | Some file => loop' n (S i) (processFile' i file r)
            | None => r
            end).
    destruct (cancelled r) eqn:C.
    + unfold iteration. now rewrite C.
    + destruct (allFiles r !! i) as [file|] eqn:L.
      * rewrite IH. f_equal. lia.
      * unfold iteration. rewrite C.
        rewrite (proj2 (lookup_ge_None (allFiles r) (i + S n))); [reflexivity |].
        apply lookup_ge_None in L. lia.
Qed.

End LoopFacts.

(** ** Runs of the pipeline *)

Section RunFacts.
Context `{Host}.
Variables (env : Env) (app : App).

#[local] Abbreviation files := (combinedFiles app).
#[local] Abbreviation context := (detailedProjectContext (combinedFiles app)).
#[local] Abbreviation run := (runUpTo env app).
#[local] Abbreviation turn :=
  (iteration env (detailedProjectContext (combinedFiles app)) (docLanguage app)
     (length (combinedFiles app))).
#[local] Abbreviation outcome :=
  (processedRecord env (detailedProjectContext (combinedFiles app)) (docLanguage app)).

Lemma run_0 :
  run 0 = mkRun files false (processingMessage app) [SetAppState loading].
Proof. reflexivity. Qed.

Lemma run_S n : run (S n) = turn n (run n).
Proof. unfold runUpTo. now rewrite loop_S. Qed.

Lemma run_length n : length (allFiles (run n)) = length files.
Proof.
  induction n as [|n IH]; [reflexivity |].
  now rewrite run_S, iteration_length.
Qed.

(** A run has a record wherever the application has one. *)
Lemma run_lookup_is_Some n j f :
  files !! j = Some f -> exists g, allFiles (run n) !! j = Some g.
Proof.
  intros Hf%lookup_lt_Some. apply lookup_lt_is_Some_2. now rewrite run_length.
Qed.

(** Once the flag is set the run stands still. *)
Lemma run_cancelled_S n : cancelled (run n) = true -> run (S n) = run n.
Proof. intros C. rewrite run_S. unfold iteration. now rewrite C. Qed.

Lemma run_cancelled_later n k : cancelled (run n) = true -> run (n + k) = run n.
Proof.
  intros C. induction k as [|k IH]; [now rewrite Nat.add_0_r |].
  rewrite Nat.add_succ_r, run_cancelled_S; rewrite IH; auto.
Qed.

Lemma run_cancelled_mono n m : n <= m -> cancelled (run n) = true -> cancelled (run m) = true.
Proof.
  intros Hnm C. replace m with (n + (m - n)) by lia. now rewrite run_cancelled_later.
Qed.

Lemma run_cancelled_stays n m : n <= m -> cancelled (run n) = true -> run m = run n.
Proof.
  intros Hnm C. replace m with (n + (m - n)) by lia. now apply run_cancelled_later.
Qed.

(** The flag after the turn at index [n]: Cancel takes while the call
    for the record, as the loop finds it, is out. *)
Lemma run_cancelled_step n :
  cancelled (run (S n)) =
  cancelled (run n)
  || match atTurn env app n with
     | Some file => needsModel file && cancelDuring env n
     | None => false
     end.
Proof.
  rewrite run_S. unfold iteration, atTurn.
  destruct (cancelled (run n)) eqn:C; [now rewrite C |].
  destruct (allFiles (run n) !! n) as [file|]; [| now rewrite C, orb_false_r].
  now rewrite processFile_cancelled, C.
Qed.

(** Beyond the last file the run stands still. *)
Lemma run_past_end n : length files <= n -> run (S n) = run n.
Proof.
  intros Hn. rewrite run_S. unfold iteration.
  destruct (cancelled (run n)); [reflexivity |].
  now rewrite (proj2 (lookup_ge_None (allFiles (run n)) n)) by (rewrite run_length; lia).
Qed.

(** The record at a position of a snapshot.  A position that the loop has
    not come to, or came to with the flag set, holds the record of the
    application but for its content; a position that the loop went
    through holds what the turn made of the record it found there, but
    for its content. *)
Lemma run_lookup n : forall j g,
  allFiles (run n) !! j = Some g ->
  exists f,
    files !! j = Some f
    /\ if decide (j < n) then
         if cancelled (run j) then sameButContent f g
         else exists file, atTurn env app j = Some file /\ sameButContent (outcome j file) g
       else sameButContent f g.
Proof.
  induction n as [|n IH]; intros j g Hg.
  - exists g. split; [exact Hg |]. destruct (decide (j < 0)); [lia |].
    apply sameButContent_refl.
  - rewrite run_S in Hg. unfold iteration in Hg.
    destruct (cancelled (run n)) eqn:C.
    + destruct (IH j g Hg) as (f & Hf & Hrel). exists f. split; [exact Hf |].
      destruct (decide (j < n)) as [Hlt | Hge].
      * destruct (decide (j < S n)); [exact Hrel | lia].
      * destruct (decide (j < S n)) as [Hj | Hj]; [| exact Hrel].
        replace j with n in * by lia. now rewrite C.
    + destruct (allFiles (run n) !! n) as [file|] eqn:F.
      * rewrite (processFile_lookup _ _ _ _ _ _ _ _ F) in Hg.
        destruct (decide (j = n)) as [-> | Hne].
        -- injection Hg as <-. destruct (IH n file F) as (f & Hf & _).
           exists f. split; [exact Hf |].
           destruct (decide (n < S n)); [| lia]. rewrite C.
           exists file. split; [exact F | apply loadRecord_same].
        -- destruct (allFiles (run n) !! j) as [g0|] eqn:G; [| discriminate].
           injection Hg as <-. destruct (IH j g0 G) as (f & Hf & Hrel).
           exists f. split; [exact Hf |].
           pose proof (loadRecord_same (turnLoads env n file) j g0) as Hload.
           destruct (decide (j < n)) as [Hlt | Hge].
           ++ destruct (decide (j < S n)); [| lia].
              destruct (cancelled (run j)).
              ** eapply sameButContent_trans; eassumption.
              ** destruct Hrel as (file0 & Hfile0 & Hrel). exists file0.
                 split; [exact Hfile0 |]. eapply sameButContent_trans; eassumption.
           ++ destruct (decide (j < S n)); [lia |].
              eapply sameButContent_trans; eassumption.
      * destruct (IH j g Hg) as (f & Hf & Hrel). exists f. split; [exact Hf |].
        destruct (decide (j < n)) as [Hlt | Hge].
        -- destruct (decide (j < S n)); [exact Hrel | lia].
        -- destruct (decide (j < S n)) as [Hj | Hj]; [| exact Hrel].
           replace j with n in * by lia. congruence.
Qed.

(** The record that the loop finds at a position is the record of the
    application but for its content. *)
Lemma atTurn_original j file :
  atTurn env app j = Some file -> exists f, files !! j = Some f /\ sameButContent f file.
Proof.
  intros Hfile. destruct (run_lookup j j file Hfile) as (f & Hf & Hrel).
  exists f. split; [exact Hf |]. now destruct (decide (j < j)); [lia |].
Qed.

Lemma atTurn_is_Some j f : files !! j = Some f -> exists file, atTurn env app j = Some file.
Proof. apply run_lookup_is_Some. Qed.

Lemma turnLoads_elem i file load : load ∈ turnLoads env i file -> load ∈ loadedDuring env i.
Proof. unfold turnLoads. destruct (needsModel file); [auto | intros []%elem_of_nil]. Qed.

Lemma outcome_content j file : content (outcome j file) = content file.
Proof.
  unfold processedRecord. destruct (String.eqb (language file) "code"); [reflexivity |].
  now destruct (fst (generateDocumentation _ _ _ _ _)).
Qed.

(** The content at a position of a snapshot is the content that the run
    started with, or a text that a reader wrote there during one of the
    calls so far: the loop itself writes no content. *)
Lemma run_content n : forall j f g,
  files !! j = Some f -> allFiles (run n) !! j = Some g ->
  content g = content f
  \/ exists i text, i < n /\ (j, text) ∈ loadedDuring env i /\ content g = text.
Proof.
  induction n as [|n IH]; intros j f g Hf Hg.
  - left. rewrite run_0 in Hg. simpl in Hg. congruence.
  - assert (Hweak : forall g0, allFiles (run n) !! j = Some g0 ->
              content g0 = content f
              \/ exists i text, i < S n /\ (j, text) ∈ loadedDuring env i /\ content g0 = text).
    { intros g0 Hg0. destruct (IH j f g0 Hf Hg0) as [E | (i & text & Hi & Hin & E)];
        [now left | right; exists i, text; split; [lia | now split]]. }
    rewrite run_S in Hg. unfold iteration in Hg.
    destruct (cancelled (run n)); [now apply Hweak |].
    destruct (allFiles (run n) !! n) as [file|] eqn:F; [| now apply Hweak].
    rewrite (processFile_lookup _ _ _ _ _ _ _ _ F) in Hg.
    destruct (decide (j = n)) as [-> | Hne].
    + injection Hg as <-.
      destruct (loadRecord_content (turnLoads env n file) n (outcome n file))
        as [E | (text & Hin & E)].
      * rewrite E, outcome_content. now apply Hweak.
      * right. exists n, text. split; [lia |]. split; [now apply (turnLoads_elem n file) | exact E].
    + destruct (allFiles (run n) !! j) as [g0|] eqn:G; [| discriminate].
      injection Hg as <-.
      destruct (loadRecord_content (turnLoads env n file) j g0) as [E | (text & Hin & E)].
      * rewrite E. now apply Hweak.
      * right. exists n, text. split; [lia |]. split; [now apply (turnLoads_elem n file) | exact E].
Qed.

(** *** Runs in which no reader acts

    No reader acts when none fires during a call, and also when no record
    of the application needs the model, for then no call goes out. *)

Section Calm.
Hypothesis calm : forall j f, files !! j = Some f -> turnLoads env j f = [].

(** Positions that the loop has not come to hold what the run started
    with. *)
Lemma run_lookup_ahead n : forall j, n <= j -> allFiles (run n) !! j = files !! j.
Proof.
  induction n as [|n IH]; intros j Hj; [reflexivity |].
  rewrite run_S. unfold iteration.
  destruct (cancelled (run n)); [apply IH; lia |].
  destruct (allFiles (run n) !! n) as [file|] eqn:L; [| apply IH; lia].
  rewrite IH in L by lia.
  rewrite processFile_allFiles, (calm n file L), list_lookup_insert_ne by lia.
  apply IH. lia.
Qed.

(** What the loop left at the positions it has come to: the processed
    record, unless the flag was set when the loop came there. *)
Lemma run_lookup_done n : forall j, j < n ->
  allFiles (run n) !! j =
  (if cancelled (run j) then files !! j else outcome j <$> files !! j).
Proof.
  induction n as [|n IH]; intros j Hj; [lia |].
  rewrite run_S. unfold iteration.
  destruct (cancelled (run n)) eqn:C.
  - destruct (decide (j = n)) as [-> | Hne]; [| apply IH; lia].
    now rewrite C, run_lookup_ahead by lia.
  - pose proof (run_lookup_ahead n n (le_n n)) as L.
    destruct (files !! n) as [file|] eqn:F.
    + rewrite L, processFile_allFiles, (calm n file F).
      destruct (decide (j = n)) as [-> | Hne].
      * rewrite C, F. apply list_lookup_insert_eq.
        change (applyLoads [] (allFiles (run n))) with (allFiles (run n)).
        rewrite run_length. now apply lookup_lt_Some in F.
      * rewrite list_lookup_insert_ne by lia. apply IH. lia.
    + rewrite L.
      destruct (decide (j = n)) as [-> | Hne]; [| apply IH; lia].
      now rewrite C, L, F.
Qed.

Lemma atTurn_calm j : atTurn env app j = files !! j.
Proof. unfold atTurn. now apply run_lookup_ahead. Qed.

End Calm.

End RunFacts.

Lemma quiet_calm `{Host} (env : Env) (app : App) :
  quiet env -> forall j f, combinedFiles app !! j = Some f -> turnLoads env j f = [].
Proof. intros Hq j f _. unfold turnLoads. rewrite (Hq j). now destruct (needsModel f). Qed.

Lemma unread_calm `{Host} (env : Env) (app : App) :
  (forall f, f ∈ combinedFiles app -> needsModel f = false) ->
  forall j f, combinedFiles app !! j = Some f -> turnLoads env j f = [].
Proof.
  intros Hu j f Hf. unfold turnLoads.
  now rewrite (Hu f (list_elem_of_lookup_2 _ _ _ Hf)).
Qed.

(** ** The states of a file *)

Lemma pipelineState_exclusive f :
  is_Some (pipelineState f) <->
  ~ (is_Some (documentedContent f) /\ is_Some (error f)).
Proof.
  unfold pipelineState.
  destruct (documentedContent f), (error f); split; intros Hs;
    try (intros [[? ?] [? ?]]; discriminate); eauto.
  - destruct Hs as [? ?]; discriminate.
  - exfalso. apply Hs. eauto.
Qed.

Lemma pristine_state f : pristine f <-> pipelineState f = Some NotProcessed.
Proof.
  unfold pristine, pipelineState.
  destruct (documentedContent f), (error f); split;
    (intros [? ?] || intros ?); try discriminate; auto.
Qed.

Lemma newProjectFile_pristine fileName : pristine (newProjectFile fileName).
Proof. now split. Qed.

Lemma setContent_pristine text f : pristine f -> pristine (setContent text f).
Proof. intros [? ?]. now split. Qed.

Lemma setContent_state text f : pipelineState (setContent text f) = pipelineState f.
Proof. reflexivity. Qed.

Lemma flipIncluded_state f : pipelineState (flipIncluded f) = pipelineState f.
Proof. reflexivity. Qed.

Section RecordFacts.
Context `{Host}.

(** The loop body leaves a pristine record documented or failed. *)
Lemma processedRecord_state env projectContext docLang i f :
  pristine f ->
  pipelineState (processedRecord env projectContext docLang i f) = Some Documented
  \/ pipelineState (processedRecord env projectContext docLang i f) = Some Failed.
Proof.
  intros [Hd He]. unfold processedRecord, pipelineState.
  destruct (String.eqb (language f) "code"); simpl; [rewrite He; auto |].
  destruct (fst (generateDocumentation _ _ _ _ _)); simpl;
    [rewrite He | rewrite Hd]; auto.
Qed.

Lemma processedRecord_shape env projectContext docLang i f :
  (exists d, processedRecord env projectContext docLang i f = setDocumentedContent d f)
  \/ (exists m, processedRecord env projectContext docLang i f = setError m f).
Proof.
  unfold processedRecord.
  destruct (String.eqb (language f) "code"); [eauto |].
  destruct (fst (generateDocumentation _ _ _ _ _)); eauto.
Qed.

(** Whatever the loop body finds, it leaves a documented content or an
    error. *)
Lemma processedRecord_written env projectContext docLang i f g :
  sameButContent (processedRecord env projectContext docLang i f) g ->
  is_Some (documentedContent g) \/ is_Some (error g).
Proof.
  intros (_ & _ & Hd & He & _)%sameButContent_fields. rewrite Hd, He.
  destruct (processedRecord_shape env projectContext docLang i f) as [[d ->] | [m ->]];
    simpl; eauto.
Qed.

(** What [handleAnalyze] leaves, read off the run. *)
Lemma analyze_files env app :
  combinedFiles (fst (handleAnalyze env app))
  = allFiles (runUpTo env app (length (combinedFiles app))).
Proof.
  unfold handleAnalyze. fold (combinedFiles app).
  destruct (length (combinedFiles app) =? 0) eqn:E; simpl.
  - apply Nat.eqb_eq in E. now rewrite E.
  - unfold combinedFiles at 1. simpl. apply take_drop.
Qed.

Lemma analyze_state env app :
  appState (fst (handleAnalyze env app))
  = if length (combinedFiles app) =? 0 then uploading else reviewing.
Proof.
  unfold handleAnalyze. fold (combinedFiles app).
  now destruct (length (combinedFiles app) =? 0).
Qed.

Lemma analyze_flag env app :
  isCancelledRef (fst (handleAnalyze env app))
  = cancelled (runUpTo env app (length (combinedFiles app))).
Proof.
  unfold handleAnalyze. fold (combinedFiles app).
  destruct (length (combinedFiles app) =? 0) eqn:E; simpl; [| reflexivity].
  apply Nat.eqb_eq in E. now rewrite E.
Qed.

Lemma analyze_trace env app :
  snd (handleAnalyze env app)
  = if length (combinedFiles app) =? 0
    then [SetAppState loading; SetAppState uploading]
    else trace (runUpTo env app (length (combinedFiles app)))
         ++ [SetProcessingMessage EmptyString; SetAppState reviewing].
Proof.
  unfold handleAnalyze. fold (combinedFiles app).
  now destruct (length (combinedFiles app) =? 0).
Qed.

Lemma analyze_length env app :
  length (combinedFiles (fst (handleAnalyze env app))) = length (combinedFiles app).
Proof. now rewrite analyze_files, run_length. Qed.

Lemma analyze_lookup_is_Some env app j f :
  combinedFiles app !! j = Some f ->
  exists g, combinedFiles (fst (handleAnalyze env app)) !! j = Some g.
Proof.
  intros Hf%lookup_lt_Some. apply lookup_lt_is_Some_2. now rewrite analyze_length.
Qed.

(** The record at a position, after the run, in terms of the flag as it
    stood when the loop came to that position: the record of the
    application when the flag was set, and otherwise what the turn made
    of the record it found, in both cases but for the content. *)
Lemma analyze_lookup env app j g :
  combinedFiles (fst (handleAnalyze env app)) !! j = Some g ->
  exists f,
    combinedFiles app !! j = Some f
    /\ if cancelled (runUpTo env app j) then sameButContent f g
       else exists file,
              atTurn env app j = Some file /\ sameButContent f file
              /\ sameButContent
                   (processedRecord env (detailedProjectContext (combinedFiles app))
                      (docLanguage app) j file) g.
Proof.
  rewrite analyze_files. intros Hg.
  destruct (run_lookup env app _ j g Hg) as (f & Hf & Hrel).
  exists f. split; [exact Hf |].
  destruct (decide (j < length (combinedFiles app))) as [_ | Hge];
    [| apply lookup_lt_Some in Hf; lia].
  destruct (cancelled (runUpTo env app j)); [exact Hrel |].
  destruct Hrel as (file & Hfile & Hrel). exists file. split; [exact Hfile |].
  split; [| exact Hrel].
  destruct (atTurn_original env app j file Hfile) as (f' & Hf' & Hsame). congruence.
Qed.

(** The same when no reader acts: the records are known exactly. *)
(** A run writes no content: what differs from before was written by a
    reader during one of the calls. *)
Lemma analyze_content env app j f g :
  combinedFiles app !! j = Some f ->
  combinedFiles (fst (handleAnalyze env app)) !! j = Some g ->
  content g = content f
  \/ exists i text,
       i < length (combinedFiles app) /\ (j, text) ∈ loadedDuring env i /\ content g = text.
Proof. rewrite analyze_files. apply run_content. Qed.

Lemma analyze_lookup_calm env app j :
  (forall i f, combinedFiles app !! i = Some f -> turnLoads env i f = []) ->
  combinedFiles (fst (handleAnalyze env app)) !! j =
  (if cancelled (runUpTo env app j) then combinedFiles app !! j
   else processedRecord env (detailedProjectContext (combinedFiles app))
          (docLanguage app) j <$> combinedFiles app !! j).
Proof.
  intros calm. rewrite analyze_files.
  destruct (decide (j < length (combinedFiles app))) as [Hj | Hj].
  - now apply run_lookup_done.
  - rewrite run_lookup_ahead by (exact calm || lia).
    rewrite (proj2 (lookup_ge_None (combinedFiles app) j)) by lia.
    now destruct (cancelled _).
Qed.

(** Every snapshot of a run from pristine records holds records in one of
    the three states. *)
Lemma run_states env app n :
  Forall pristine (combinedFiles app) ->
  Forall (fun f => is_Some (pipelineState f)) (allFiles (runUpTo env app n)).
Proof.
  intros Hp. apply Forall_lookup. intros j g Hg.
  destruct (run_lookup env app n j g Hg) as (f & Hf & Hrel).
  pose proof (proj1 (Forall_lookup _ _) Hp j f Hf) as Pf.
  assert (Hkept : sameButContent f g -> is_Some (pipelineState g)).
  { intros Hs. rewrite (sameButContent_state _ _ Hs).
    apply pristine_state in Pf. rewrite Pf. eauto. }
  destruct (decide (j < n)); [| now apply Hkept].
  destruct (cancelled (runUpTo env app j)); [now apply Hkept |].
  destruct Hrel as (file & Hfile & Hrel).
  destruct (atTurn_original env app j file Hfile) as (f' & Hf' & Hsame).
  assert (f' = f) as -> by congruence.
  rewrite (sameButContent_state _ _ Hrel).
  destruct (processedRecord_state env (detailedProjectContext (combinedFiles app))
              (docLanguage app) j file (sameButContent_pristine _ _ Hsame Pf)) as [-> | ->];
    eauto.
Qed.

(** In the uploading state every record is pristine, and in every state
    every record is in one of the three states. *)
Lemma reachable_states app :
  Reachable app ->
  (appState app = uploading -> Forall pristine (combinedFiles app))
  /\ Forall (fun f => is_Some (pipelineState f)) (combinedFiles app).
Proof.
  assert (Hweak : forall l, Forall pristine l ->
            Forall (fun f => is_Some (pipelineState f)) l).
  { intros l Hl. eapply Forall_impl; [exact Hl |].
    intros f Hf%pristine_state. rewrite Hf. eauto. }
  induction 1 as [ | project fileNames app _ [IHp IHs] St
                 | project index text app _ [IHp IHs]
                 | l app _ [IHp IHs] St
                 | env app _ [IHp IHs] St
                 | project fileName app _ [IHp IHs] St
                 | app _ _ _ ].
  - split; [intros _ |]; constructor.
  - assert (Hnew : Forall pristine (combinedFiles (handleFilesUpload project fileNames app))).
    { specialize (IHp St). apply Forall_app in IHp as [Hm Hf].
      unfold combinedFiles. apply Forall_app.
      destruct project; simpl; (split; try assumption);
        apply Forall_fmap, Forall_true; intros ?; apply newProjectFile_pristine. }
    split; [intros _; exact Hnew | exact (Hweak _ Hnew)].
  - unfold readerOnload.
    destruct (projectFiles project app !! index) as [f|] eqn:L; [| now split].
    assert (Hstep : forall P : ProjectFile -> Prop,
              (forall g, P g -> P (setContent text g)) ->
              Forall P (combinedFiles app) ->
              Forall P (combinedFiles (setProjectFiles project
                 (<[index := setContent text f]> (projectFiles project app)) app))).
    { intros P HP [Hm Hf]%Forall_app. unfold combinedFiles. apply Forall_app.
      destruct project; simpl in *; (split; try assumption);
        apply Forall_insert; auto; apply HP.
      - exact (proj1 (Forall_lookup _ _) Hm _ _ L).
      - exact (proj1 (Forall_lookup _ _) Hf _ _ L). }
    split.
    + intros St. apply Hstep; [apply setContent_pristine |].
      apply IHp. now destruct project.
    + apply Hstep; [| exact IHs]. intros g. now rewrite setContent_state.
  - now split.
  - rewrite analyze_state, analyze_files. specialize (IHp St).
    split; [| now apply run_states].
    destruct (length (combinedFiles app) =? 0) eqn:E; [| discriminate].
    intros _. apply Nat.eqb_eq in E. rewrite E. exact IHp.
  - split.
    + destruct project; simpl; intros St'; congruence.
    + apply Forall_app in IHs as [Hm Hf]. unfold combinedFiles. apply Forall_app.
      destruct project; simpl; (split; try assumption);
        apply Forall_fmap; (eapply Forall_impl; [eassumption |]);
        intros g Hg; simpl; destruct (String.eqb (name g) fileName);
        now rewrite ?flipIncluded_state.
  - split; [intros _ |]; constructor.
Qed.

End RecordFacts.

(** ** Independence of the flag and of the siblings from one call *)

Section Independence.
Context `{Host}.

Lemma generateDocumentation_ext ai1 ai2 script lang projectContext docLang :
  (forall request, ai1 request = ai2 request) ->
  generateDocumentation ai1 script lang projectContext docLang
  = generateDocumentation ai2 script lang projectContext docLang.
Proof. intros E. unfold generateDocumentation. now rewrite E. Qed.

Lemma processedRecord_ext env1 env2 projectContext docLang j f :
  (forall request, ai env1 j request = ai env2 j request) ->
  processedRecord env1 projectContext docLang j f
  = processedRecord env2 projectContext docLang j f.
Proof.
  intros E. unfold processedRecord.
  now rewrite (generateDocumentation_ext _ _ _ _ _ _ E).
Qed.

Lemma clearOutcome_loadRecord loads j : forall f,
  clearOutcome (loadRecord loads j f) = loadRecord loads j (clearOutcome f).
Proof.
  unfold loadRecord. induction loads as [|load loads IH]; intros f; simpl; [reflexivity |].
  destruct (fst load =? j); [exact (IH (setContent (snd load) f)) | apply IH].
Qed.

Lemma clearOutcome_processedRecord env projectContext docLang j f :
  clearOutcome (processedRecord env projectContext docLang j f) = clearOutcome f.
Proof.
  unfold processedRecord. destruct (String.eqb (language f) "code"); [reflexivity |].
  now destruct (fst (generateDocumentation _ _ _ _ _)).
Qed.

Lemma clearOutcome_needsModel f g : clearOutcome f = clearOutcome g -> needsModel f = needsModel g.
Proof. unfold needsModel. now intros [= _ -> -> _]. Qed.

Lemma clearOutcome_turnLoads env j f g :
  clearOutcome f = clearOutcome g -> turnLoads env j f = turnLoads env j g.
Proof. intros E. unfold turnLoads. now rewrite (clearOutcome_needsModel f g E). Qed.

(** Two runs that differ only in how the call for the file at index [i]
    ends: the flag is the same, every other record is the same, and the
    record at index [i] is the same but for what the run writes to it. *)
Lemma run_siblings env env' app i :
  (forall k, cancelDuring env' k = cancelDuring env k) ->
  (forall k, loadedDuring env' k = loadedDuring env k) ->
  (forall k request, k <> i -> ai env' k request = ai env k request) ->
  forall n,
    cancelled (runUpTo env' app n) = cancelled (runUpTo env app n)
    /\ forall j,
         (j <> i -> allFiles (runUpTo env' app n) !! j = allFiles (runUpTo env app n) !! j)
         /\ clearOutcome <$> allFiles (runUpTo env' app n) !! j
            = clearOutcome <$> allFiles (runUpTo env app n) !! j.
Proof.
  intros Hc Hl Ha. induction n as [|n [IHc IHr]]; [split; [reflexivity | now split] |].
  rewrite !run_S. unfold iteration. rewrite IHc.
  destruct (cancelled (runUpTo env app n)) eqn:C; [split; [congruence | exact IHr] |].
  pose proof (proj2 (IHr n)) as Hn.
  destruct (allFiles (runUpTo env' app n) !! n) as [file'|] eqn:F';
    destruct (allFiles (runUpTo env app n) !! n) as [file|] eqn:F;
    try discriminate; [| split; [congruence | exact IHr]].
  apply (f_equal (default (clearOutcome file))) in Hn. simpl in Hn.
  assert (Hloads : turnLoads env' n file' = turnLoads env n file).
  { unfold turnLoads. rewrite (clearOutcome_needsModel _ _ Hn), Hl. reflexivity. }
  split.
  - rewrite !processFile_cancelled, IHc, C, Hc. now rewrite (clearOutcome_needsModel _ _ Hn).
  - intros j.
    rewrite (processFile_lookup _ _ _ _ _ _ _ _ F'), (processFile_lookup _ _ _ _ _ _ _ _ F).
    rewrite Hloads.
    destruct (decide (j = n)) as [-> | Hne].
    + split.
      * intros Hni. f_equal. f_equal.
        assert (file' = file) as ->.
        { pose proof (proj1 (IHr n) Hni) as E. rewrite F', F in E. now injection E. }
        apply processedRecord_ext. intros request. now apply Ha.
      * simpl. f_equal. now rewrite !clearOutcome_loadRecord, !clearOutcome_processedRecord, Hn.
    + destruct (IHr j) as [Hsame Hclear]. split.
      * intros Hji. now rewrite (Hsame Hji).
      * destruct (allFiles (runUpTo env' app n) !! j) as [g'|];
          destruct (allFiles (runUpTo env app n) !! j) as [g|]; try discriminate;
          [| reflexivity].
        apply (f_equal (default (clearOutcome g))) in Hclear. simpl in Hclear.
        simpl. f_equal. now rewrite !clearOutcome_loadRecord, Hclear.
Qed.

Lemma run_never_cancelled env app n :
  (forall k, cancelDuring env k = false) -> cancelled (runUpTo env app n) = false.
Proof.
  intros E. induction n as [|n IH]; [reflexivity |].
  rewrite run_cancelled_step, IH, E.
  destruct (atTurn env app n); [apply andb_false_r | reflexivity].
Qed.

(** The service throws [Error] objects only. *)
Lemma generateDocumentation_throws ai script lang projectContext docLang err :
  fst (generateDocumentation ai script lang projectContext docLang) = Throw err ->
  exists cause, err = ErrorObject (finalMessage cause).
Proof.
  unfold generateDocumentation.
  destruct (_ || _); [discriminate |].
  destruct (ai _) as [text | cause]; [discriminate |].
  intros [= <-]. eauto.
Qed.

End Independence.

(** ** The trace of a run *)

Section TraceFacts.
Context `{Host}.

Lemma generateDocumentation_progress ai script lang projectContext docLang :
  progressOf (snd (generateDocumentation ai script lang projectContext docLang)) = [].
Proof.
  unfold generateDocumentation.
  destruct (_ || _); [reflexivity |]. now destruct (ai _).
Qed.

Lemma aiCallsOf_app t1 t2 : aiCallsOf (t1 ++ t2) = aiCallsOf t1 ++ aiCallsOf t2.
Proof. unfold aiCallsOf. apply filter_app. Qed.

Lemma generateDocumentation_calls model script lang projectContext docLang :
  aiCallsOf (snd (generateDocumentation model script lang projectContext docLang))
  = if negb (String.eqb lang "code") && negb (Js.allWhiteSpace script)
    then [AiCall (mkRequest "gemini-2.5-flash" script
                    (buildSystemInstruction lang projectContext docLang))]
    else [].
Proof.
  unfold generateDocumentation. rewrite trim_length_zero.
  destruct (String.eqb lang "code"); [reflexivity |].
  destruct (Js.allWhiteSpace script); [reflexivity |]. simpl.
  now destruct (model _).
Qed.

(** A turn announces its file once, and calls the model once when the
    file needs it. *)
Lemma turnEvents_progress env projectContext docLang totalFiles i file :
  progressOf (turnEvents env projectContext docLang totalFiles i file)
  = [progressMessage i totalFiles file].
Proof.
  pose proof (generateDocumentation_progress (ai env i) (content file) (language file)
                projectContext docLang) as G.
  unfold turnEvents, progressOf in *. simpl. f_equal.
  destruct (String.eqb (language file) "code"); [reflexivity |].
  rewrite omap_app, G. now destruct (fst (generateDocumentation _ _ _ _ _)).
Qed.

Lemma turnEvents_calls env projectContext docLang totalFiles i file :
  aiCallsOf (turnEvents env projectContext docLang totalFiles i file)
  = if needsModel file then [AiCall (requestFor projectContext docLang file)] else [].
Proof.
  pose proof (generateDocumentation_calls (ai env i) (content file) (language file)
                projectContext docLang) as G.
  unfold turnEvents, needsModel, requestFor in *.
  change (aiCallsOf (?e :: ?t)) with (aiCallsOf ([e] ++ t)).
  rewrite aiCallsOf_app.
  destruct (String.eqb (language file) "code"); [reflexivity |].
  rewrite aiCallsOf_app, G. simpl.
  destruct (fst (generateDocumentation _ _ _ _ _)); simpl; now rewrite app_nil_r.
Qed.

Lemma runEvents_S env app k :
  runEvents env app (S k)
  = runEvents env app k
    ++ match atTurn env app k with
       | Some file =>
           turnEvents env (detailedProjectContext (combinedFiles app)) (docLanguage app)
             (length (combinedFiles app)) k file
       | None => []
       end.
Proof.
  unfold runEvents. rewrite seq_S, flat_map_app. simpl. now rewrite app_nil_r.
Qed.

Lemma runCalls_S env app k :
  runCalls env app (S k)
  = runCalls env app k
    ++ match atTurn env app k with
       | Some file =>
           if needsModel file
           then [AiCall (requestFor (detailedProjectContext (combinedFiles app))
                           (docLanguage app) file)]
           else []
       | None => []
       end.
Proof.
  unfold runCalls. rewrite seq_S, omap_app. simpl.
  destruct (atTurn env app k) as [file|]; [| reflexivity].
  now destruct (needsModel file).
Qed.

(** The trace of a snapshot: the turns that the loop went through, in
    order; their number is that of the iterations, up to the length of
    the list, unless the flag stopped the loop before. *)
Lemma run_trace env app n :
  exists k,
    k <= n `min` length (combinedFiles app)
    /\ trace (runUpTo env app n) = SetAppState loading :: runEvents env app k
    /\ (forall j, j < k -> cancelled (runUpTo env app j) = false)
    /\ (cancelled (runUpTo env app n) = false -> k = n `min` length (combinedFiles app))
    /\ (k < n `min` length (combinedFiles app) -> cancelled (runUpTo env app k) = true).
Proof.
  induction n as [|n (k & Hk & Htrace & Hclear & Hfull & Hcut)].
  - exists 0. split; [lia |]. split; [reflexivity |].
    split; [intros j; lia |]. split; [intros _; lia | lia].
  - rewrite run_S. unfold iteration.
    destruct (cancelled (runUpTo env app n)) eqn:C.
    + exists k. rewrite C. split; [lia |]. split; [exact Htrace |].
      split; [exact Hclear |]. split; [discriminate |].
      intros Hlt. destruct (decide (k < n `min` length (combinedFiles app))) as [Hk' | Hk'];
        [now apply Hcut |].
      replace k with n by lia. exact C.
    + specialize (Hfull eq_refl).
      destruct (allFiles (runUpTo env app n) !! n) as [file|] eqn:F.
      * pose proof (lookup_lt_Some _ _ _ F) as Hn. rewrite run_length in Hn.
        exists (S n). split; [lia |]. split.
        -- rewrite processFile_trace, Htrace, runEvents_S. unfold atTurn. rewrite F.
           replace k with n by lia. reflexivity.
        -- split; [| split; [intros _; lia | lia]].
           intros j Hj. destruct (decide (j = n)) as [-> | Hne]; [exact C |].
           apply Hclear. lia.
      * apply lookup_ge_None in F. rewrite run_length in F.
        exists k. rewrite C. split; [lia |]. split; [exact Htrace |].
        split; [exact Hclear |]. split; [intros _; lia | lia].
Qed.

(** The notifications of the first turns name the first files of the
    combined list, in its order. *)
Lemma runEvents_progress env app k :
  k <= length (combinedFiles app) ->
  progressOf (runEvents env app k)
  = imap (fun i f => progressMessage i (length (combinedFiles app)) f)
      (take k (combinedFiles app)).
Proof.
  induction k as [|k IH]; intros Hk; [reflexivity |].
  destruct (lookup_lt_is_Some_2 (combinedFiles app) k) as [f Hf]; [lia |].
  destruct (atTurn_is_Some env app k f Hf) as [file Hfile].
  destruct (atTurn_original env app k file Hfile) as (f' & Hf' & Hsame).
  assert (f' = f) as -> by congruence.
  rewrite runEvents_S, Hfile. unfold progressOf in *.
  rewrite omap_app, IH by lia.
  pose proof (turnEvents_progress env (detailedProjectContext (combinedFiles app))
                (docLanguage app) (length (combinedFiles app)) k file) as P.
  unfold progressOf in P. rewrite P.
  rewrite (take_S_r _ _ _ Hf), imap_app. simpl.
  rewrite length_take, Nat.min_l by lia. rewrite Nat.add_0_r.
  unfold progressMessage. now rewrite (proj1 (sameButContent_fields _ _ Hsame)).
Qed.

Lemma runEvents_calls env app k : aiCallsOf (runEvents env app k) = runCalls env app k.
Proof.
  induction k as [|k IH]; [reflexivity |].
  rewrite runEvents_S, runCalls_S, aiCallsOf_app, IH. f_equal.
  destruct (atTurn env app k) as [file|]; [| reflexivity].
  apply turnEvents_calls.
Qed.

(** The trace of [handleAnalyze] with at least one file. *)
Lemma analyze_turns env app :
  length (combinedFiles app) <> 0 ->
  exists k,
    k <= length (combinedFiles app)
    /\ snd (handleAnalyze env app)
       = SetAppState loading :: runEvents env app k
         ++ [SetProcessingMessage EmptyString; SetAppState reviewing]
    /\ (forall j, j < k -> cancelled (runUpTo env app j) = false)
    /\ (k < length (combinedFiles app) -> cancelled (runUpTo env app k) = true)
    /\ ((forall i, cancelDuring env i = false) -> k = length (combinedFiles app)).
Proof.
  intros Hne. rewrite analyze_trace.
  destruct (length (combinedFiles app) =? 0) eqn:E; [apply Nat.eqb_eq in E; lia |].
  destruct (run_trace env app (length (combinedFiles app)))
    as (k & Hk & Htrace & Hclear & Hfull & Hcut).
  rewrite Nat.min_id in *.
  exists k. split; [exact Hk |]. split; [now rewrite Htrace |].
  split; [exact Hclear |]. split; [exact Hcut |].
  intros Hnever. apply Hfull. now apply run_never_cancelled.
Qed.

(** The notifications of a run name a prefix of the combined list, in its
    order; the prefix is everything the loop has come to, as long as the
    flag is not set. *)
Lemma run_progress env app n :
  exists k,
    k <= length (combinedFiles app)
    /\ progressOf (trace (runUpTo env app n))
       = imap (fun i f => progressMessage i (length (combinedFiles app)) f)
           (take k (combinedFiles app))
    /\ (cancelled (runUpTo env app n) = false -> k = n `min` length (combinedFiles app)).
Proof.
  destruct (run_trace env app n) as (k & Hk & Htrace & _ & Hfull & _).
  exists k. split; [lia |]. split; [| exact Hfull].
  rewrite Htrace. change (progressOf (SetAppState loading :: ?t)) with (progressOf t).
  apply runEvents_progress. lia.
Qed.

End TraceFacts.

(** * The claims *)

(** The sample application is one that the interface brings about. *)
Lemma sample_uploaded_reachable : @Reachable Sample.host Sample.uploaded.
Proof.
  unfold Sample.uploaded.
  repeat (apply reach_onload).
  repeat (apply reach_upload; [| reflexivity]).
  apply reach_initial.
Qed.

Lemma sample_uploaded_pristine : Forall pristine (combinedFiles Sample.uploaded).
Proof. repeat constructor. Qed.

Lemma sample_quiet k : quiet (Sample.envCancelAt k).
Proof. intros i. reflexivity. Qed.

(** C1. In every state that the application reaches, and in every snapshot
    of a run started from such a state, each file record is in exactly one
    of the three pipeline states (documented with no error, failed with no
    documented content, or neither); in particular no record has both a
    documented content and an error.  After the run, a record has neither
    exactly when the flag was already set as the loop came to its
    position, and then the run ended cancelled; every other record is
    documented or failed. *)
Theorem pipeline_state_invariant `{Host} (app : App) :
  Reachable app ->
  Forall (fun f => is_Some (pipelineState f)
                   /\ ~ (is_Some (documentedContent f) /\ is_Some (error f)))
    (combinedFiles app)
  /\ (appState app = uploading -> forall env : Env,
        (forall n,
            Forall (fun f => is_Some (pipelineState f)
                             /\ ~ (is_Some (documentedContent f) /\ is_Some (error f)))
              (allFiles (runUpTo env app n)))
        /\ (forall j f,
              combinedFiles (fst (handleAnalyze env app)) !! j = Some f ->
              if cancelled (runUpTo env app j)
              then pipelineState f = Some NotProcessed
                   /\ isCancelledRef (fst (handleAnalyze env app)) = true
              else pipelineState f = Some Documented \/ pipelineState f = Some Failed)).
Proof.
  intros R. destruct (reachable_states app R) as [Hp Hs].
  assert (Hboth : forall l, Forall (fun f => is_Some (pipelineState f)) l ->
            Forall (fun f => is_Some (pipelineState f)
                             /\ ~ (is_Some (documentedContent f) /\ is_Some (error f))) l).
  { intros l Hl. eapply Forall_impl; [exact Hl |].
    intros f Hf. split; [exact Hf | now apply pipelineState_exclusive]. }
  split; [now apply Hboth |].
  intros St env. specialize (Hp St). split.
  - intros n. now apply Hboth, run_states.
  - intros j f Hf. destruct (analyze_lookup env app j f Hf) as (f0 & Hf0 & Hrel).
    pose proof (proj1 (Forall_lookup _ _) Hp j f0 Hf0) as P0.
    destruct (cancelled (runUpTo env app j)) eqn:C.
    + split.
      * rewrite (sameButContent_state _ _ Hrel). now apply pristine_state.
      * rewrite analyze_flag. apply lookup_lt_Some in Hf0.
        apply (run_cancelled_mono env app j); [lia | exact C].
    + destruct Hrel as (found & _ & Hsame & Hrel).
      rewrite (sameButContent_state _ _ Hrel). apply processedRecord_state.
      now apply (sameButContent_pristine f0).
Qed.

Lemma pipeline_state_invariant_witness :
  Forall (fun f => is_Some (pipelineState f)
                   /\ ~ (is_Some (documentedContent f) /\ is_Some (error f)))
    (combinedFiles Sample.uploaded)
  /\ Forall (fun f => is_Some (pipelineState f)
                      /\ ~ (is_Some (documentedContent f) /\ is_Some (error f)))
       (allFiles (@runUpTo Sample.host (Sample.envCancelAt 2) Sample.uploaded 3)).
Proof.
  destruct (@pipeline_state_invariant Sample.host Sample.uploaded
              sample_uploaded_reachable) as [W1 W2].
  split; [exact W1 |].
  exact (proj1 (W2 eq_refl (Sample.envCancelAt 2)) 3).
Defined.

(** C2. A failure of the service for the file at position [i] does not
    leave [handleAnalyze].  The loop finds at that position the record of
    the application, but for a content that a reader may have written
    since the click (the very record when no reader fires during the
    run).  When the service throws for it, the run still ends in the
    reviewing state; the thrown value is an [Error] whose message becomes
    the record's error, its documented content staying null and its other
    fields being kept; every other record is what it would be had that
    call ended otherwise; and unless Cancel was pressed during the call,
    the loop goes on to the file at position [i + 1], which ends
    documented or failed. *)
Theorem failure_is_contained `{Host} (env : Env) (app : App) (i : nat)
    (file : ProjectFile) (err : Thrown) :
  Forall pristine (combinedFiles app) ->
  combinedFiles app !! i = Some file ->
  cancelled (runUpTo env app i) = false ->
  exists found,
    atTurn env app i = Some found
    /\ found = setContent (content found) file
    /\ (quiet env -> found = file)
    /\ (fst (generateDocumentation (ai env i) (content found) (language found)
               (detailedProjectContext (combinedFiles app)) (docLanguage app)) = Throw err ->
        let after := fst (handleAnalyze env app) in
        appState after = reviewing
        /\ (exists m f,
              err = ErrorObject m /\ combinedFiles after !! i = Some f
              /\ error f = Some m /\ documentedContent f = None
              /\ f = setContent (content f) (setError m file)
              /\ (quiet env -> f = setError m file))
        /\ (forall env' j,
              j <> i ->
              (forall k, cancelDuring env' k = cancelDuring env k) ->
              (forall k, loadedDuring env' k = loadedDuring env k) ->
              (forall k request, k <> i -> ai env' k request = ai env k request) ->
              combinedFiles (fst (handleAnalyze env' app)) !! j = combinedFiles after !! j)
        /\ (forall next,
              combinedFiles app !! S i = Some next ->
              cancelDuring env i = false ->
              exists f,
                combinedFiles after !! S i = Some f
                /\ (pipelineState f = Some Documented \/ pipelineState f = Some Failed))).
Proof.
  intros Hp Hfile Hflag.
  destruct (atTurn_is_Some env app i file Hfile) as [found Hfound].
  destruct (atTurn_original env app i found Hfound) as (f' & Hf' & Hsame).
  assert (f' = file) as -> by congruence.
  assert (Hquiet : quiet env -> found = file).
  { intros Hq. pose proof (atTurn_calm env app (quiet_calm env app Hq) i) as E.
    rewrite Hfound, Hfile in E. now injection E. }
  exists found. split; [exact Hfound |]. split; [exact Hsame |]. split; [exact Hquiet |].
  intros Hthrow after. subst after.
  destruct (generateDocumentation_throws _ _ _ _ _ _ Hthrow) as [cause ->].
  assert (Hlang : String.eqb (language found) "code" = false).
  { destruct (String.eqb (language found) "code") eqn:E; [| reflexivity].
    unfold generateDocumentation in Hthrow. now rewrite E in Hthrow. }
  assert (Hturn : processedRecord env (detailedProjectContext (combinedFiles app))
                    (docLanguage app) i found = setError (finalMessage cause) found).
  { unfold processedRecord. now rewrite Hlang, Hthrow. }
  split; [| split; [| split]].
  - rewrite analyze_state. apply lookup_lt_Some in Hfile.
    destruct (length (combinedFiles app)); [lia | reflexivity].
  - destruct (analyze_lookup_is_Some env app i file Hfile) as [g Hg].
    destruct (analyze_lookup env app i g Hg) as (f0 & Hf0 & Hrel).
    assert (f0 = file) as -> by congruence. rewrite Hflag in Hrel.
    destruct Hrel as (found' & Hfound' & _ & Hrel).
    assert (found' = found) as -> by congruence. rewrite Hturn in Hrel.
    assert (Hg' : sameButContent (setError (finalMessage cause) file) g).
    { eapply sameButContent_trans; [| exact Hrel]. now apply sameButContent_setError. }
    destruct (sameButContent_fields _ _ Hg') as (_ & _ & Hd & He & _).
    exists (finalMessage cause), g.
    split; [reflexivity |]. split; [exact Hg |]. split; [exact He |].
    split; [rewrite Hd; exact (proj1 (proj1 (Forall_lookup _ _) Hp i file Hfile)) |].
    split; [exact Hg' |].
    intros Hq. rewrite (analyze_lookup_calm env app i (quiet_calm env app Hq)) in Hg.
    rewrite Hflag, Hfile in Hg. simpl in Hg. injection Hg as <-.
    rewrite <- (Hquiet Hq). exact Hturn.
  - intros env' j Hj Huser Hreaders Hai.
    rewrite !analyze_files.
    exact (proj1 (proj2 (run_siblings env env' app i Huser Hreaders Hai _) j) Hj).
  - intros next Hnext Huser.
    assert (Hgo : cancelled (runUpTo env app (S i)) = false).
    { now rewrite run_cancelled_step, Hflag, Hfound, Huser, andb_false_r. }
    destruct (analyze_lookup_is_Some env app (S i) next Hnext) as [g Hg].
    exists g. split; [exact Hg |].
    destruct (analyze_lookup env app (S i) g Hg) as (f0 & Hf0 & Hrel).
    rewrite Hgo in Hrel. destruct Hrel as (found' & _ & Hsame' & Hrel).
    rewrite (sameButContent_state _ _ Hrel). apply processedRecord_state.
    apply (sameButContent_pristine f0); [exact Hsame' |].
    exact (proj1 (Forall_lookup _ _) Hp (S i) f0 Hf0).
Qed.

Lemma failure_is_contained_witness :
  appState (fst (@handleAnalyze Sample.host Sample.envNoCancel Sample.uploaded)) = reviewing
  /\ (exists m f,
        ErrorObject (@finalMessage Sample.host
                       (ErrorObject (Sample.errorPayload "quota exceeded"))) = ErrorObject m
        /\ combinedFiles (fst (@handleAnalyze Sample.host Sample.envNoCancel Sample.uploaded)) !! 2
           = Some f
        /\ error f = Some m /\ documentedContent f = None
        /\ f = setError m (mkProjectFile "c.js" "function g() {}" "JavaScript" None None true)).
Proof.
  destruct (@failure_is_contained Sample.host Sample.envNoCancel Sample.uploaded 2
              (mkProjectFile "c.js" "function g() {}" "JavaScript" None None true)
              (ErrorObject (@finalMessage Sample.host
                              (ErrorObject (Sample.errorPayload "quota exceeded"))))
              sample_uploaded_pristine eq_refl eq_refl)
    as (found & _ & _ & Hquiet & W).
  rewrite (Hquiet (fun _ => eq_refl)) in W. simpl in W.
  destruct (W eq_refl) as (W1 & (m & f & E & Hf & He & Hd & _ & Hexact) & _).
  split; [exact W1 |].
  exists m, f. repeat split; try assumption. exact (Hexact (fun _ => eq_refl)).
Defined.

(** C3. Cancellation takes effect between files.  When the flag is clear as
    the loop comes to the file at position [k] (counted from 0) and set
    once that file's turn is over, that file is completed (documented or
    failed), every file after it keeps a null documented content and a
    null error (it is the record of the application, but for a content
    that a reader may have written meanwhile, and the very record when no
    reader fires during the run), and the application still ends in the
    reviewing state, the flag being all that tells the run was cut
    short. *)
Theorem cancellation_at_file_boundary `{Host} (env : Env) (app : App) (k : nat) :
  Forall pristine (combinedFiles app) ->
  k < length (combinedFiles app) ->
  cancelled (runUpTo env app k) = false ->
  cancelled (runUpTo env app (S k)) = true ->
  let after := fst (handleAnalyze env app) in
  (exists f,
      combinedFiles after !! k = Some f
      /\ (pipelineState f = Some Documented \/ pipelineState f = Some Failed))
  /\ (forall j f,
        k < j -> combinedFiles after !! j = Some f ->
        (exists f0, combinedFiles app !! j = Some f0 /\ f = setContent (content f) f0)
        /\ documentedContent f = None /\ error f = None
        /\ (quiet env -> combinedFiles app !! j = Some f))
  /\ appState after = reviewing
  /\ last (snd (handleAnalyze env app)) = Some (SetAppState reviewing)
  /\ isCancelledRef after = true.
Proof.
  intros Hp Hk Hclear Hset after. subst after.
  assert (Hne : (length (combinedFiles app) =? 0) = false) by (apply Nat.eqb_neq; lia).
  split; [| split; [| split; [| split]]].
  - destruct (lookup_lt_is_Some_2 _ _ Hk) as [f0 Hf0].
    destruct (analyze_lookup_is_Some env app k f0 Hf0) as [g Hg].
    exists g. split; [exact Hg |].
    destruct (analyze_lookup env app k g Hg) as (f1 & Hf1 & Hrel).
    rewrite Hclear in Hrel. destruct Hrel as (found & _ & Hsame & Hrel).
    rewrite (sameButContent_state _ _ Hrel). apply processedRecord_state.
    apply (sameButContent_pristine f1); [exact Hsame |].
    exact (proj1 (Forall_lookup _ _) Hp k f1 Hf1).
  - intros j f Hj Hf.
    assert (Hstopped : cancelled (runUpTo env app j) = true).
    { apply (run_cancelled_mono env app (S k)); [lia | exact Hset]. }
    destruct (analyze_lookup env app j f Hf) as (f0 & Hf0 & Hrel).
    rewrite Hstopped in Hrel.
    destruct (proj1 (Forall_lookup _ _) Hp j f0 Hf0) as [Hd He].
    destruct (sameButContent_fields _ _ Hrel) as (_ & _ & Hd' & He' & _).
    split; [eauto |]. split; [congruence |]. split; [congruence |].
    intros Hq. rewrite (analyze_lookup_calm env app j (quiet_calm env app Hq)) in Hf.
    now rewrite Hstopped in Hf.
  - now rewrite analyze_state, Hne.
  - rewrite analyze_trace, Hne.
    now rewrite last_app.
  - rewrite analyze_flag. apply (run_cancelled_mono env app (S k)); [lia | exact Hset].
Qed.

Lemma cancellation_at_file_boundary_witness :
  (exists f,
      combinedFiles (fst (@handleAnalyze Sample.host (Sample.envCancelAt 2) Sample.uploaded)) !! 2
      = Some f
      /\ (pipelineState f = Some Documented \/ pipelineState f = Some Failed))
  /\ (forall j f,
        2 < j ->
        combinedFiles (fst (@handleAnalyze Sample.host (Sample.envCancelAt 2) Sample.uploaded)) !! j
        = Some f ->
        combinedFiles Sample.uploaded !! j = Some f
        /\ documentedContent f = None /\ error f = None)
  /\ appState (fst (@handleAnalyze Sample.host (Sample.envCancelAt 2) Sample.uploaded)) = reviewing.
Proof.
  destruct (@cancellation_at_file_boundary Sample.host (Sample.envCancelAt 2) Sample.uploaded 2
              sample_uploaded_pristine) as (W1 & W2 & W3 & _).
  - simpl. lia.
  - reflexivity.
  - reflexivity.
  - split; [exact W1 | split; [| exact W3]].
    intros j f Hj Hf. destruct (W2 j f Hj Hf) as (_ & Hd & He & Hexact).
    split; [exact (Hexact (fun _ => eq_refl)) |]. now split.
Defined.

(** C4. The pipeline goes through the combined list in order, the files of
    [main] first and those of [frontend] after them, each in the order of
    its list.  A run takes some number [k] of turns, all of them unless
    the flag stops the loop: the trace is made of the turns for the
    positions 0 to [k - 1] of [main ++ frontend], in that order, each turn
    announcing the file at its position, then handing the record it finds
    there to the service, whose effects follow, before the next turn
    begins.  Hence the progress notifications name the first [k] files
    position by position, and the calls to the remote model are those of
    the files among them that need the model, in the same order.  When
    the run is over each of the first [k] positions holds what its turn
    made of the record (a documented content or an error is written to
    it), and the later positions hold the records of the application,
    nothing being written to them.  With [a.py; b.readme; c.js] in [main]
    and [d.ts] in [frontend] the order is a.py, b.readme, c.js, d.ts. *)
Theorem processing_order `{Host} (env : Env) (app : App) :
  (exists k,
      k <= length (mainProjectFiles app ++ frontendProjectFiles app)
      /\ (forall j, j < k -> cancelled (runUpTo env app j) = false)
      /\ (k < length (mainProjectFiles app ++ frontendProjectFiles app) ->
          cancelled (runUpTo env app k) = true)
      /\ ((forall i, cancelDuring env i = false) ->
          k = length (mainProjectFiles app ++ frontendProjectFiles app))
      /\ snd (handleAnalyze env app)
         = (if length (mainProjectFiles app ++ frontendProjectFiles app) =? 0
            then [SetAppState loading; SetAppState uploading]
            else SetAppState loading :: runEvents env app k
                 ++ [SetProcessingMessage EmptyString; SetAppState reviewing])
      /\ progressOf (snd (handleAnalyze env app))
         = imap (fun i f =>
                   progressMessage i (length (mainProjectFiles app ++ frontendProjectFiles app)) f)
             (take k (mainProjectFiles app ++ frontendProjectFiles app))
           ++ (if length (mainProjectFiles app ++ frontendProjectFiles app) =? 0
               then [] else [EmptyString])
      /\ aiCallsOf (snd (handleAnalyze env app)) = runCalls env app k
      /\ (forall j f,
            j < k -> (mainProjectFiles app ++ frontendProjectFiles app) !! j = Some f ->
            exists found g,
              atTurn env app j = Some found /\ sameButContent f found
              /\ combinedFiles (fst (handleAnalyze env app)) !! j = Some g
              /\ sameButContent
                   (processedRecord env
                      (detailedProjectContext (mainProjectFiles app ++ frontendProjectFiles app))
                      (docLanguage app) j found) g
              /\ (is_Some (documentedContent g) \/ is_Some (error g)))
      /\ (forall j f,
            k <= j -> (mainProjectFiles app ++ frontendProjectFiles app) !! j = Some f ->
            exists g,
              combinedFiles (fst (handleAnalyze env app)) !! j = Some g
              /\ sameButContent f g))
  /\ ((forall i, cancelDuring env i = false) ->
      progressOf (snd (handleAnalyze env Sample.uploaded))
      = ["Analyzing 1/4: a.py"; "Analyzing 2/4: b.readme";
         "Analyzing 3/4: c.js"; "Analyzing 4/4: d.ts"; EmptyString])
  /\ map (fun e => match e with AiCall request => contents request | _ => EmptyString end)
       (aiCallsOf (snd (handleAnalyze Sample.envNoCancel Sample.uploaded)))
     = ["def f(): pass"; "function g() {}"; "export const h = () => 1;"].
Proof.
  assert (General : forall app0,
    exists k,
      k <= length (combinedFiles app0)
      /\ (forall j, j < k -> cancelled (runUpTo env app0 j) = false)
      /\ (k < length (combinedFiles app0) -> cancelled (runUpTo env app0 k) = true)
      /\ ((forall i, cancelDuring env i = false) -> k = length (combinedFiles app0))
      /\ snd (handleAnalyze env app0)
         = (if length (combinedFiles app0) =? 0
            then [SetAppState loading; SetAppState uploading]
            else SetAppState loading :: runEvents env app0 k
                 ++ [SetProcessingMessage EmptyString; SetAppState reviewing])).
  { intros app0. destruct (Nat.eqb_spec (length (combinedFiles app0)) 0) as [E | Hne].
    - exists 0. split; [lia |]. split; [intros j; lia |]. split; [lia |].
      split; [intros _; lia |]. rewrite analyze_trace, E. reflexivity.
    - destruct (analyze_turns env app0 Hne) as (k & Hk & Htrace & Hclear & Hcut & Hfull).
      exists k. repeat split; assumption. }
  split; [| split; [| reflexivity]].
  - destruct (General app) as (k & Hk & Hclear & Hcut & Hfull & Htrace).
    fold (combinedFiles app) in *.
    exists k. split; [exact Hk |]. split; [exact Hclear |]. split; [exact Hcut |].
    split; [exact Hfull |]. split; [exact Htrace |].
    split; [| split; [| split]].
    + rewrite Htrace. destruct (length (combinedFiles app) =? 0) eqn:E.
      * apply Nat.eqb_eq in E. replace k with 0 by lia. reflexivity.
      * change (progressOf (SetAppState loading :: ?t)) with (progressOf t).
        unfold progressOf. rewrite omap_app. simpl.
        pose proof (runEvents_progress env app k Hk) as P. unfold progressOf in P.
        now rewrite P.
    + rewrite Htrace. destruct (length (combinedFiles app) =? 0) eqn:E.
      * apply Nat.eqb_eq in E. replace k with 0 by lia. reflexivity.
      * change (aiCallsOf (SetAppState loading :: ?t)) with (aiCallsOf t).
        rewrite aiCallsOf_app, runEvents_calls. apply app_nil_r.
    + intros j f Hj Hf.
      destruct (analyze_lookup_is_Some env app j f Hf) as [g Hg].
      destruct (analyze_lookup env app j g Hg) as (f0 & Hf0 & Hrel).
      assert (f0 = f) as -> by congruence.
      rewrite (Hclear j Hj) in Hrel. destruct Hrel as (found & Hfound & Hsame & Hrel).
      exists found, g. split; [exact Hfound |]. split; [exact Hsame |].
      split; [exact Hg |]. split; [exact Hrel |].
      exact (processedRecord_written _ _ _ _ _ _ Hrel).
    + intros j f Hj Hf.
      destruct (analyze_lookup_is_Some env app j f Hf) as [g Hg].
      exists g. split; [exact Hg |].
      destruct (analyze_lookup env app j g Hg) as (f0 & Hf0 & Hrel).
      assert (f0 = f) as -> by congruence.
      apply lookup_lt_Some in Hf.
      rewrite (run_cancelled_mono env app k j) in Hrel by (lia || (apply Hcut; lia)).
      exact Hrel.
  - intros Hnever.
    destruct (General Sample.uploaded) as (k & Hk & _ & _ & Hfull & Htrace).
    rewrite Htrace, (Hfull Hnever).
    change (length (combinedFiles Sample.uploaded) =? 0) with false. cbv iota.
    change (progressOf (SetAppState loading :: ?t)) with (progressOf t).
    unfold progressOf. rewrite omap_app.
    pose proof (runEvents_progress env Sample.uploaded _ (le_n _)) as P.
    unfold progressOf in P. now rewrite P.
Qed.

Lemma processing_order_witness :
  progressOf (snd (@handleAnalyze Sample.host Sample.envNoCancel Sample.uploaded))
  = ["Analyzing 1/4: a.py"; "Analyzing 2/4: b.readme";
     "Analyzing 3/4: c.js"; "Analyzing 4/4: d.ts"; EmptyString].
Proof.
  apply (proj1 (proj2 (@processing_order Sample.host Sample.envNoCancel Sample.uploaded))).
  reflexivity.
Defined.



(** C9. One call of [toggleFileInclusion] keeps the length of the
    grouping's list and, position by position, keeps every field of every
    record but [isIncluded], which it negates on the records whose name is
    [fileName] and keeps on the others; it leaves the other grouping and
    the rest of the state alone.  Two calls with the same arguments restore
    the state, hence the grouping's list. *)
Theorem toggle_twice_restores (project : Project) (fileName : string) (app : App) :
  toggleFileInclusion project fileName (toggleFileInclusion project fileName app) = app
  /\ projectFiles project
       (toggleFileInclusion project fileName (toggleFileInclusion project fileName app))
     = projectFiles project app
  /\ length (projectFiles project (toggleFileInclusion project fileName app))
     = length (projectFiles project app)
  /\ (forall i f,
        projectFiles project app !! i = Some f ->
        exists f',
          projectFiles project (toggleFileInclusion project fileName app) !! i = Some f'
          /\ name f' = name f /\ content f' = content f /\ language f' = language f
          /\ documentedContent f' = documentedContent f /\ error f' = error f
          /\ isIncluded f' = (if String.eqb (name f) fileName
                              then negb (isIncluded f) else isIncluded f))
  /\ (forall other,
        other <> project ->
        projectFiles other (toggleFileInclusion project fileName app)
        = projectFiles other app).
Proof.
  assert (Hmap : forall l : list ProjectFile,
            map (fun f => if String.eqb (name f) fileName then flipIncluded f else f)
              (map (fun f => if String.eqb (name f) fileName then flipIncluded f else f) l)
            = l).
  { induction l as [|f l IH]; simpl; [reflexivity |]. rewrite IH. f_equal.
    destruct (String.eqb (name f) fileName) eqn:E; simpl; rewrite ?E; [| reflexivity].
    destruct f as [n c l' d e inc]. unfold flipIncluded. simpl.
    now rewrite negb_involutive. }
  assert (Htwice : toggleFileInclusion project fileName
                     (toggleFileInclusion project fileName app) = app).
  { destruct app as [m fr st dl pm fl], project; unfold toggleFileInclusion; simpl;
      now rewrite Hmap. }
  split; [exact Htwice |]. split; [now rewrite Htwice |].
  split; [| split].
  - destruct project; unfold toggleFileInclusion; simpl; apply length_map.
  - intros i f Hf.
    exists (if String.eqb (name f) fileName then flipIncluded f else f).
    split.
    + destruct project; unfold toggleFileInclusion; simpl in *;
        now rewrite list_lookup_fmap, Hf.
    + now destruct (String.eqb (name f) fileName).
  - intros other Hother. now destruct project, other.
Qed.

Lemma toggle_twice_restores_witness :
  exists f',
    projectFiles main (toggleFileInclusion main "b.readme" Sample.uploaded) !! 1 = Some f'
    /\ name f' = "b.readme" /\ content f' = "About this project" /\ language f' = "code"
    /\ documentedContent f' = None /\ error f' = None
    /\ isIncluded f' = false.
Proof.
  exact (proj1 (proj2 (proj2 (proj2
           (toggle_twice_restores main "b.readme" Sample.uploaded)))) 1
           (mkProjectFile "b.readme" "About this project" "code" None None true) eq_refl).
Defined.

(** C10. Started with both groupings empty, [handleAnalyze] processes
    nothing: it emits no progress notification, calls the model not once
    (so no project context is ever handed over), leaves both lists as
    they are, and sets the state back to [uploading]; the state
    [reviewing] is never set. *)
Theorem analyze_without_files `{Host} (env : Env) (app : App) :
  mainProjectFiles app = [] ->
  frontendProjectFiles app = [] ->
  handleAnalyze env app
  = (mkApp [] [] uploading (docLanguage app) (processingMessage app) false,
     [SetAppState loading; SetAppState uploading])
  /\ appState (fst (handleAnalyze env app)) = uploading
  /\ progressOf (snd (handleAnalyze env app)) = []
  /\ aiCallsOf (snd (handleAnalyze env app)) = []
  /\ (SetAppState reviewing ∉ snd (handleAnalyze env app))
  /\ mainProjectFiles (fst (handleAnalyze env app)) = mainProjectFiles app
  /\ frontendProjectFiles (fst (handleAnalyze env app)) = frontendProjectFiles app.
Proof.
  intros Hm Hf. unfold handleAnalyze. rewrite Hm, Hf. simpl.
  repeat split; try reflexivity.
  intros Hin. repeat (apply elem_of_cons in Hin as [Hin | Hin]; [discriminate |]).
  now apply elem_of_nil in Hin.
Qed.

Lemma analyze_without_files_witness :
  @handleAnalyze Sample.host Sample.envNoCancel initialApp
  = (mkApp [] [] uploading en EmptyString false,
     [SetAppState loading; SetAppState uploading]).
Proof.
  apply (@analyze_without_files Sample.host Sample.envNoCancel initialApp eq_refl eq_refl).
Defined.

(** ** The classifier *)

Lemma split_without_separator sep s :
  Js.every (fun c => negb (Ascii.eqb c sep)) s = true -> Js.split sep s = [s].
Proof.
  induction s as [|c s IH]; simpl; [reflexivity |].
  intros [Hc Hs]%andb_prop. apply negb_true_iff in Hc. now rewrite Hc, IH.
Qed.

(** A name without a dot is its own extension. *)
Lemma extension_without_dot fileName :
  Js.every (fun c => negb (Ascii.eqb c ".")) fileName = true ->
  extension fileName = Some (Js.toLowerCase fileName).
Proof. intros Hs. unfold extension, Js.pop. now rewrite split_without_separator. Qed.

Lemma split_nonempty sep s : Js.split sep s <> [].
Proof.
  destruct s as [|c s]; simpl; [discriminate |].
  destruct (Ascii.eqb c sep); [discriminate |]. now destruct (Js.split sep s).
Qed.

(** Splitting distributes over a separator. *)
Lemma split_app sep a b :
  Js.split sep (a +:+ String sep b) = Js.split sep a ++ Js.split sep b.
Proof.
  induction a as [|c a IH]; simpl.
  - now rewrite Ascii.eqb_refl.
  - rewrite IH. destruct (Ascii.eqb c sep); [reflexivity |].
    pose proof (split_nonempty sep a) as Hne.
    now destruct (Js.split sep a).
Qed.

Lemma split_last_after sep a b :
  Js.every (fun c => negb (Ascii.eqb c sep)) b = true ->
  last (Js.split sep (a +:+ String sep b)) = Some b.
Proof.
  intros Hb. rewrite split_app, (split_without_separator sep b Hb).
  apply last_snoc.
Qed.

(** With a dot in the name, the extension is the text after the last dot,
    in lower case; the label is read off the table from it, and is the
    sentinel for every extension outside the table. *)
Lemma extension_after_last_dot stem ext :
  Js.every (fun c => negb (Ascii.eqb c ".")) ext = true ->
  extension (stem +:+ String "." ext) = Some (Js.toLowerCase ext).
Proof. intros Hext. unfold extension, Js.pop. now rewrite split_last_after. Qed.

(** C6 (the code departs from the claim).  A name without any dot has no
    extension, yet [getFileLanguage] takes the whole name for one: the file
    named [go] is labelled [Go], and likewise [js], [PY] or [Java], where
    the claim promises the sentinel [code]. *)
Theorem getFileLanguage_bare_name :
  Js.includes "." "go" = false
  /\ getFileLanguage "go" = "Go"
  /\ getFileLanguage "js" = "JavaScript"
  /\ getFileLanguage "PY" = "Python"
  /\ getFileLanguage "Java" = "Java"
  /\ getFileLanguage "Makefile" = "code".
Proof. repeat split. Qed.

(** ** The failure mapping of the service *)

Section FailureFacts.
Context `{Host}.




Lemma withHint_unknownFailure : withHint unknownFailure = unknownFailure.
Proof. reflexivity. Qed.



End FailureFacts.




(** ** Post-processing of the response *)

Lemma postProcess_fenced response inner :
  Js.trim response = fence +:+ inner +:+ fence ->
  postProcess response = Js.trim (fenceInterior inner).
Proof.
  intros Ht. unfold postProcess. rewrite Ht.
  destruct (exec_fenced inner) as (m & -> & ->). reflexivity.
Qed.

Lemma postProcess_plain response :
  (forall inner, Js.trim response <> fence +:+ inner +:+ fence) ->
  postProcess response = Js.trim response.
Proof.
  intros Hplain. unfold postProcess.
  destruct (Regex.exec codeBlockRegex (Js.trim response)) as [m|] eqn:E; [| reflexivity].
  apply exec_sound in E as [inner E]. now apply Hplain in E.
Qed.

(** C8 (amended).  The text of a successful response is trimmed.  When
    what remains lies between an opening and a closing fence of three
    backquotes, the documented text is the interior, trimmed, where the
    interior is what follows the language tag made of ASCII letters (the
    letters right after the opening fence, possibly none) and the line
    feed right after it, if present; otherwise the documented text is the
    trimmed response itself.  That text is what [generateDocumentation]
    returns and what the pipeline stores as the documented content.  The
    response made of an opening fence tagged js, the line foo(); and a
    closing fence gives foo(); *)
Theorem fenced_response_is_unwrapped `{Host} (response : string) :
  (forall inner,
      Js.trim response = fence +:+ inner +:+ fence ->
      postProcess response = Js.trim (fenceInterior inner))
  /\ ((forall inner, Js.trim response <> fence +:+ inner +:+ fence) ->
      postProcess response = Js.trim response)
  /\ (forall (env : Env) projectContext docLang i file,
        String.eqb (language file) "code" = false ->
        Js.allWhiteSpace (content file) = false ->
        (forall request, ai env i request = Answered response) ->
        fst (generateDocumentation (ai env i) (content file) (language file)
               projectContext docLang) = Normal (postProcess response)
        /\ documentedContent (processedRecord env projectContext docLang i file)
           = Some (postProcess response))
  /\ postProcess Sample.fencedResponse = "foo();".
Proof.
  split; [apply postProcess_fenced |]. split; [apply postProcess_plain |].
  split; [| reflexivity].
  intros env projectContext docLang i file Hlang Hblank Hai.
  assert (Hcall : fst (generateDocumentation (ai env i) (content file) (language file)
                         projectContext docLang) = Normal (postProcess response)).
  { unfold generateDocumentation.
    now rewrite Hlang, trim_length_zero, Hblank, Hai. }
  split; [exact Hcall |].
  unfold processedRecord. now rewrite Hlang, Hcall.
Qed.

Lemma fenced_response_is_unwrapped_witness :
  postProcess Sample.fencedResponse
  = Js.trim (fenceInterior ("js" +:+ Js.LF +:+ "foo();" +:+ Js.LF)).
Proof.
  apply (proj1 (@fenced_response_is_unwrapped Sample.host Sample.fencedResponse)).
  reflexivity.
Defined.

(** C8, the claim as it was stated fails on a language tag that is not
    made of letters only: of the tag c++ the letter alone is taken for the
    tag, and the rest of the opening line stays in the documented text. *)
Lemma fenced_response_tag_with_symbols :
  postProcess ("```c++" +:+ Js.LF +:+ "int x;" +:+ Js.LF +:+ "```")
  = "++" +:+ Js.LF +:+ "int x;"
  /\ String.eqb (postProcess ("```c++" +:+ Js.LF +:+ "int x;" +:+ Js.LF +:+ "```")) "int x;"
     = false.
Proof. split; reflexivity. Qed.

(** ** Further properties of the interface *)

(** The classifier on a name with a dot: the label is read off the table
    from the text after the last dot, put in lower case, and an extension
    outside the table gives the sentinel. *)
Theorem getFileLanguage_dotted (stem ext : string) :
  Js.every (fun c => negb (Ascii.eqb c ".")) ext = true ->
  getFileLanguage (stem +:+ "." +:+ ext) = labelIn languageTable (Js.toLowerCase ext)
  /\ (Js.toLowerCase ext ∉ map fst languageTable -> getFileLanguage (stem +:+ "." +:+ ext) = "code").
Proof.
  intros Hext.
  assert (Hlabel : getFileLanguage (stem +:+ "." +:+ ext)
                   = labelIn languageTable (Js.toLowerCase ext)).
  { unfold getFileLanguage.
    change (stem +:+ "." +:+ ext) with (stem +:+ String "." ext).
    now rewrite extension_after_last_dot. }
  split; [exact Hlabel |].
  intros Hout. rewrite Hlabel. simpl.
  repeat match goal with
         | |- context [String.eqb ?a ?b] =>
             destruct (String.eqb_spec a b) as [E |];
             [exfalso; apply Hout; rewrite E; apply list_elem_of_In; simpl; tauto |]
         end.
  reflexivity.
Qed.

Lemma getFileLanguage_dotted_witness :
  getFileLanguage ("report.final" +:+ "." +:+ "Py") = "Python".
Proof.
  exact (proj1 (getFileLanguage_dotted "report.final" "Py" eq_refl)).
Defined.

(** [handleReset] empties both groupings and brings the application back
    to the uploading state, whatever the state was. *)
Theorem handleReset_clears (app : App) :
  mainProjectFiles (handleReset app) = []
  /\ frontendProjectFiles (handleReset app) = []
  /\ appState (handleReset app) = uploading
  /\ combinedFiles (handleReset app) = [].
Proof. now repeat split. Qed.

(** [handleCancel] sets the flag and nothing else. *)
Theorem handleCancel_sets_flag (app : App) :
  isCancelledRef (handleCancel app) = true
  /\ combinedFiles (handleCancel app) = combinedFiles app
  /\ appState (handleCancel app) = appState app.
Proof. now repeat split. Qed.

(** The project context without a README and without a CHANGELOG is the
    listing of the file names alone.  A file counts as the README only
    when its name starts with readme, whatever the case: in the ordering
    scenario, where the name is b.readme, the context has no README
    section. *)
Theorem context_without_sections (files : list ProjectFile) :
  (Js.find (fun f => Js.startsWith "readme" (Js.toLowerCase (name f))) files = None ->
   Js.find (fun f => Js.startsWith "changelog" (Js.toLowerCase (name f))) files = None ->
   detailedProjectContext files
   = "This project contains the following files:" +:+ Js.LF
     +:+ Js.join Js.LF (map (fun f => "- " +:+ name f) files))
  /\ detailedProjectContext (combinedFiles Sample.uploaded)
     = "This project contains the following files:" +:+ Js.LF
       +:+ "- a.py" +:+ Js.LF +:+ "- b.readme" +:+ Js.LF +:+ "- c.js" +:+ Js.LF +:+ "- d.ts"
  /\ Js.includes "--- PROJECT README ---"
       (detailedProjectContext (combinedFiles Sample.uploaded)) = false.
Proof.
  split; [| split; reflexivity].
  intros Hreadme Hchangelog. unfold detailedProjectContext.
  now rewrite Hreadme, Hchangelog.
Qed.

Lemma context_without_sections_witness :
  detailedProjectContext [newProjectFile "main.go"]
  = "This project contains the following files:" +:+ Js.LF +:+ "- main.go".
Proof.
  exact (proj1 (context_without_sections [newProjectFile "main.go"]) eq_refl eq_refl).
Defined.

(** ** Trimmed texts *)

Lemma trimStart_startsClean s : startsClean (Js.trimStart s) = true.
Proof.
  induction s as [|c s IH]; simpl; [reflexivity |].
  destruct (Js.isWhiteSpace c) eqn:E; [exact IH |]. simpl. now rewrite E.
Qed.

Lemma trimStart_clean s : startsClean s = true -> Js.trimStart s = s.
Proof.
  destruct s as [|c s]; simpl; [reflexivity |].
  intros Hc%negb_true_iff. now rewrite Hc.
Qed.

Lemma trimEnd_cons c s :
  Js.isWhiteSpace c = false -> Js.trimEnd (String c s) = String c (Js.trimEnd s).
Proof. intros Hc. simpl. rewrite Hc. now destruct (Js.trimEnd s). Qed.

Lemma trimEnd_idempotent s : Js.trimEnd (Js.trimEnd s) = Js.trimEnd s.
Proof.
  induction s as [|c s IH]; [reflexivity |].
  change (Js.trimEnd (String c s)) with
    (match Js.trimEnd s with
     | EmptyString => if Js.isWhiteSpace c then EmptyString else String c EmptyString
     | t => String c t
     end).
  destruct (Js.trimEnd s) as [|d t] eqn:E.
  - destruct (Js.isWhiteSpace c) eqn:W; [reflexivity |]. simpl. now rewrite W.
  - change (Js.trimEnd (String c (String d t))) with
      (match Js.trimEnd (String d t) with
       | EmptyString => if Js.isWhiteSpace c then EmptyString else String c EmptyString
       | t' => String c t'
       end).
    now rewrite IH.
Qed.

(** Trimming a trimmed text changes nothing. *)
Lemma trim_idempotent s : Js.trim (Js.trim s) = Js.trim s.
Proof.
  unfold Js.trim. pose proof (trimStart_startsClean s) as Hc.
  destruct (Js.trimStart s) as [|c t]; [reflexivity |].
  simpl in Hc. apply negb_true_iff in Hc.
  rewrite (trimEnd_cons c t Hc), trimStart_clean by (simpl; now rewrite Hc).
  now rewrite (trimEnd_cons c _ Hc), trimEnd_idempotent.
Qed.

Lemma postProcess_is_trim response : exists t, postProcess response = Js.trim t.
Proof.
  unfold postProcess.
  destruct (Regex.exec codeBlockRegex (Js.trim response)) as [m|]; [| eauto].
  destruct (Regex.group 1 m); eauto.
Qed.

(** ** What a run keeps of the records *)

Section KeptFacts.
Context `{Host}.

(** The record that a run leaves at a position of the combined list. *)
Lemma analyze_record env app j f :
  combinedFiles app !! j = Some f ->
  exists g,
    combinedFiles (fst (handleAnalyze env app)) !! j = Some g
    /\ (sameButContent f g
        \/ (exists d, sameButContent (setDocumentedContent d f) g)
        \/ (exists m, sameButContent (setError m f) g)).
Proof.
  intros Hf. destruct (analyze_lookup_is_Some env app j f Hf) as [g Hg].
  exists g. split; [exact Hg |].
  destruct (analyze_lookup env app j g Hg) as (f0 & Hf0 & Hrel).
  assert (f0 = f) as -> by congruence.
  destruct (cancelled (runUpTo env app j)); [now left |].
  destruct Hrel as (found & _ & Hsame & Hrel). right.
  destruct (processedRecord_shape env (detailedProjectContext (combinedFiles app))
              (docLanguage app) j found) as [[d E] | [m E]]; rewrite E in Hrel.
  - left. exists d. eapply sameButContent_trans; [| exact Hrel].
    now apply sameButContent_setDocumentedContent.
  - right. exists m. eapply sameButContent_trans; [| exact Hrel].
    now apply sameButContent_setError.
Qed.

(** The two lists after a run are the two parts of the combined list, cut
    where the first list ended. *)
Lemma analyze_groupings env app :
  mainProjectFiles (fst (handleAnalyze env app))
  = take (length (mainProjectFiles app)) (combinedFiles (fst (handleAnalyze env app)))
  /\ frontendProjectFiles (fst (handleAnalyze env app))
     = drop (length (mainProjectFiles app)) (combinedFiles (fst (handleAnalyze env app)))
  /\ length (combinedFiles (fst (handleAnalyze env app))) = length (combinedFiles app).
Proof.
  rewrite analyze_files, run_length.
  unfold handleAnalyze. fold (combinedFiles app).
  destruct (length (combinedFiles app) =? 0) eqn:E; simpl.
  - apply Nat.eqb_eq in E. rewrite E. simpl. unfold combinedFiles in *.
    rewrite length_app in E.
    destruct (mainProjectFiles app); [| simpl in E; lia].
    destruct (frontendProjectFiles app); [| simpl in E; lia].
    now repeat split.
  - now repeat split.
Qed.

Lemma analyze_project_lookup env app project j :
  projectFiles project (fst (handleAnalyze env app)) !! j
  = match project with
    | main =>
        if decide (j < length (mainProjectFiles app))
        then combinedFiles (fst (handleAnalyze env app)) !! j else None
    | frontend =>
        combinedFiles (fst (handleAnalyze env app)) !! (length (mainProjectFiles app) + j)
    end.
Proof.
  destruct (analyze_groupings env app) as (Hm & Hf & _).
  destruct project; simpl.
  - rewrite Hm. destruct (decide (j < length (mainProjectFiles app))).
    + now apply lookup_take_lt.
    + apply lookup_take_ge. lia.
  - rewrite Hf. apply lookup_drop.
Qed.

Lemma project_lookup_combined app project j f :
  projectFiles project app !! j = Some f ->
  combinedFiles app
    !! (match project with main => j | frontend => length (mainProjectFiles app) + j end)
  = Some f
  /\ (project = main -> j < length (mainProjectFiles app)).
Proof.
  intros Hf. unfold combinedFiles. destruct project; simpl in *.
  - split; [now apply lookup_app_l_Some | intros _; now apply lookup_lt_Some in Hf].
  - split; [| discriminate]. rewrite lookup_app_r by lia.
    now replace (length (mainProjectFiles app) + j - length (mainProjectFiles app)) with j by lia.
Qed.

End KeptFacts.

(** A run of [handleAnalyze] itself writes the documented content or the
    error of a record and nothing else: both lists keep their length and
    their order, no record moves from one grouping to the other, and at
    every position the name, the label and the inclusion mark are those
    from before the run.  The content at a position is the one from
    before the run too, unless a reader of the upload fired during one of
    the run's calls and wrote its text there; when no reader fires during
    the run the record is the one from before, or that record with a
    documented content, or that record with an error.  The run ends on
    the review screen exactly when the Analyze button was enabled, that
    is when there was a file. *)
Theorem analyze_keeps_originals `{Host} (env : Env) (app : App) :
  length (mainProjectFiles (fst (handleAnalyze env app))) = length (mainProjectFiles app)
  /\ length (frontendProjectFiles (fst (handleAnalyze env app)))
     = length (frontendProjectFiles app)
  /\ (forall project j f,
        projectFiles project app !! j = Some f ->
        exists g,
          projectFiles project (fst (handleAnalyze env app)) !! j = Some g
          /\ name g = name f /\ language g = language f
          /\ isIncluded g = isIncluded f
          /\ (g = setContent (content g) f
              \/ (exists d, g = setContent (content g) (setDocumentedContent d f))
              \/ (exists m, g = setContent (content g) (setError m f)))
          /\ (content g = content f
              \/ exists i text,
                   i < length (mainProjectFiles app ++ frontendProjectFiles app)
                   /\ (match project with
                       | main => j
                       | frontend => length (mainProjectFiles app) + j
                       end, text) ∈ loadedDuring env i
                   /\ content g = text)
          /\ (quiet env ->
              g = f \/ (exists d, g = setDocumentedContent d f)
              \/ (exists m, g = setError m f)))
  /\ docLanguage (fst (handleAnalyze env app)) = docLanguage app
  /\ (appState (fst (handleAnalyze env app)) = reviewing <-> canAnalyze app = true).
Proof.
  destruct (analyze_groupings env app) as (Hm & Hf & Hlen).
  unfold combinedFiles in Hlen at 2. rewrite length_app in Hlen.
  split; [rewrite Hm, length_take; lia |].
  split; [rewrite Hf, length_drop; lia |].
  split; [| split].
  - intros project j f Hj.
    destruct (project_lookup_combined app project j f Hj) as [Hc Hbound].
    destruct (analyze_record env app _ f Hc) as (g & Hg & Hshape).
    pose proof (analyze_content env app _ f g Hc Hg) as Hcontent.
    assert (Hfields : name g = name f /\ language g = language f
                      /\ isIncluded g = isIncluded f).
    { destruct Hshape as [S | [[d S] | [m S]]];
        destruct (sameButContent_fields _ _ S) as (Hn & Hl & _ & _ & Hi); now repeat split. }
    destruct Hfields as (Hn & Hl & Hi).
    exists g. split.
    { rewrite analyze_project_lookup. destruct project; [| exact Hg].
      destruct (decide (j < length (mainProjectFiles app))); [exact Hg |].
      specialize (Hbound eq_refl). lia. }
    split; [exact Hn |]. split; [exact Hl |]. split; [exact Hi |].
    split; [exact Hshape |]. split; [exact Hcontent |].
    intros Hq. rewrite (analyze_lookup_calm env app _ (quiet_calm env app Hq)), Hc in Hg.
    destruct (cancelled (runUpTo env app _)); simpl in Hg; injection Hg as <-; [now left |].
    right.
    destruct (processedRecord_shape env (detailedProjectContext (combinedFiles app))
                (docLanguage app)
                (match project with
                 | main => j
                 | frontend => length (mainProjectFiles app) + j
                 end) f) as [[d ->] | [m ->]]; eauto.
  - unfold handleAnalyze. now destruct (length _ =? 0).
  - rewrite analyze_state. unfold canAnalyze, combinedFiles. rewrite length_app.
    destruct (mainProjectFiles app), (frontendProjectFiles app); unfold Nat.ltb; simpl;
      split; intros; congruence.
Qed.

Lemma analyze_keeps_originals_witness :
  exists g,
    projectFiles frontend (fst (@handleAnalyze Sample.host Sample.envNoCancel Sample.uploaded))
      !! 0 = Some g
    /\ name g = "d.ts" /\ language g = "TypeScript" /\ isIncluded g = true
    /\ content g = "export const h = () => 1;".
Proof.
  destruct (proj1 (proj2 (proj2
              (@analyze_keeps_originals Sample.host Sample.envNoCancel Sample.uploaded)))
              frontend 0
              (mkProjectFile "d.ts" "export const h = () => 1;" "TypeScript" None None true)
              eq_refl) as (g & Hg & Hn & Hl & Hi & _ & _ & Hexact).
  exists g. repeat split; try assumption.
  destruct (Hexact (fun _ => eq_refl)) as [-> | [[d ->] | [m ->]]]; reflexivity.
Defined.

(** ** The calls of a run to the remote model *)

Section CallFacts.
Context `{Host}.

Lemma runCalls_length env app k : length (runCalls env app k) <= k.
Proof.
  induction k as [|k IH]; [reflexivity |].
  rewrite runCalls_S, length_app.
  destruct (atTurn env app k) as [file|]; [destruct (needsModel file) |]; simpl; lia.
Qed.

(** Every call of the first turns is the request for a record that needs
    the model as the loop finds it. *)
Lemma runCalls_elem env app k e :
  e ∈ runCalls env app k ->
  exists j found,
    j < k /\ atTurn env app j = Some found /\ needsModel found = true
    /\ e = AiCall (requestFor (detailedProjectContext (combinedFiles app))
                     (docLanguage app) found).
Proof.
  induction k as [|k IH]; [intros []%elem_of_nil |].
  rewrite runCalls_S. intros [Hin | Hin]%elem_of_app.
  - destruct (IH Hin) as (j & found & Hj & Hrest). exists j, found. split; [lia | exact Hrest].
  - destruct (atTurn env app k) as [file|] eqn:F; [| now apply elem_of_nil in Hin].
    destruct (needsModel file) eqn:N; [| now apply elem_of_nil in Hin].
    apply list_elem_of_singleton in Hin. exists k, file.
    split; [lia |]. now repeat split.
Qed.

(** When no reader acts the loop finds the records of the application. *)
Lemma runCalls_calm env app k :
  (forall j f, combinedFiles app !! j = Some f -> turnLoads env j f = []) ->
  k <= length (combinedFiles app) ->
  runCalls env app k
  = map (fun f => AiCall (requestFor (detailedProjectContext (combinedFiles app))
                            (docLanguage app) f))
      (List.filter needsModel (take k (combinedFiles app))).
Proof.
  intros calm. induction k as [|k IH]; intros Hk; [reflexivity |].
  destruct (lookup_lt_is_Some_2 (combinedFiles app) k) as [file F]; [lia |].
  rewrite runCalls_S, IH, (atTurn_calm env app calm), F by lia.
  rewrite (take_S_r _ _ _ F), List.filter_app, map_app. simpl.
  now destruct (needsModel file).
Qed.

Lemma analyze_calls env app :
  exists k,
    k <= length (combinedFiles app)
    /\ aiCallsOf (snd (handleAnalyze env app)) = runCalls env app k
    /\ (forall j, j < k -> cancelled (runUpTo env app j) = false)
    /\ ((forall i, cancelDuring env i = false) -> k = length (combinedFiles app)).
Proof.
  destruct (Nat.eq_dec (length (combinedFiles app)) 0) as [E | Hne].
  - exists 0. split; [lia |]. rewrite analyze_trace, E.
    split; [reflexivity |]. split; [intros j; lia | intros _; lia].
  - destruct (analyze_turns env app Hne) as (k & Hk & Htrace & Hclear & _ & Hfull).
    exists k. split; [exact Hk |]. split; [| now split].
    rewrite Htrace.
    change (aiCallsOf (SetAppState loading :: ?t)) with (aiCallsOf t).
    rewrite aiCallsOf_app, runEvents_calls. apply app_nil_r.
Qed.

End CallFacts.

(** Over a whole run the remote model is called once for each file that
    needs it (a label other than the sentinel, a content that is not
    blank) as the loop finds it, among the files the loop came to, in the
    order of the combined list, and for no other: every call carries the
    content that the record has when its turn begins (the uploaded record
    but for a content that a reader may have written since the click),
    the label of the file and the context of the run.  When Cancel is
    never pressed the loop comes to every file; when no reader fires
    during the run the calls are those for the files of the application
    that need the model. *)
Theorem model_calls_of_run `{Host} (env : Env) (app : App) :
  (exists k,
      k <= length (combinedFiles app)
      /\ aiCallsOf (snd (handleAnalyze env app)) = runCalls env app k
      /\ (forall j, j < k -> cancelled (runUpTo env app j) = false)
      /\ ((forall i, cancelDuring env i = false) -> k = length (combinedFiles app))
      /\ (quiet env ->
          aiCallsOf (snd (handleAnalyze env app))
          = map (fun f => AiCall (requestFor (detailedProjectContext (combinedFiles app))
                                    (docLanguage app) f))
              (List.filter needsModel (take k (combinedFiles app)))))
  /\ length (aiCallsOf (snd (handleAnalyze env app))) <= length (combinedFiles app)
  /\ (forall e,
        e ∈ aiCallsOf (snd (handleAnalyze env app)) ->
        exists j f found,
          combinedFiles app !! j = Some f /\ atTurn env app j = Some found
          /\ found = setContent (content found) f
          /\ needsModel found = true
          /\ e = AiCall (mkRequest "gemini-2.5-flash" (content found)
                           (buildSystemInstruction (language f)
                              (detailedProjectContext (combinedFiles app))
                              (docLanguage app))))
  /\ (quiet env -> (forall i, cancelDuring env i = false) ->
      aiCallsOf (snd (handleAnalyze env app))
      = map (fun f => AiCall (requestFor (detailedProjectContext (combinedFiles app))
                                (docLanguage app) f))
          (List.filter needsModel (combinedFiles app))).
Proof.
  destruct (analyze_calls env app) as (k & Hk & Hcalls & Hclear & Hfull).
  split; [| split; [| split]].
  - exists k. split; [exact Hk |]. split; [exact Hcalls |]. split; [exact Hclear |].
    split; [exact Hfull |]. intros Hq. rewrite Hcalls.
    apply runCalls_calm; [now apply quiet_calm | exact Hk].
  - rewrite Hcalls. pose proof (runCalls_length env app k). lia.
  - intros e He. rewrite Hcalls in He.
    destruct (runCalls_elem env app k e He) as (j & found & Hj & Hfound & Hneeds & ->).
    destruct (atTurn_original env app j found Hfound) as (f & Hf & Hsame).
    exists j, f, found. split; [exact Hf |]. split; [exact Hfound |].
    split; [exact Hsame |]. split; [exact Hneeds |].
    unfold requestFor. destruct (sameButContent_fields _ _ Hsame) as (_ & -> & _).
    reflexivity.
  - intros Hq Hnever. rewrite Hcalls, (Hfull Hnever).
    rewrite runCalls_calm by (now apply quiet_calm || lia).
    now rewrite firstn_all.
Qed.

Lemma model_calls_of_run_witness :
  aiCallsOf (snd (@handleAnalyze Sample.host Sample.envNoCancel Sample.uploaded))
  = map (fun f => AiCall (@requestFor Sample.host
                            (detailedProjectContext (combinedFiles Sample.uploaded)) en f))
      [mkProjectFile "a.py" "def f(): pass" "Python" None None true;
       mkProjectFile "c.js" "function g() {}" "JavaScript" None None true;
       mkProjectFile "d.ts" "export const h = () => 1;" "TypeScript" None None true].
Proof.
  apply (proj2 (proj2 (proj2
           (@model_calls_of_run Sample.host Sample.envNoCancel Sample.uploaded)))).
  - intros i. reflexivity.
  - intros i. reflexivity.
Defined.

(** A reader that fires while a call is out is seen by the turns that
    follow, and by no turn before.  With c.js unread at the click, its
    reader firing during the call for a.py (index 0) makes the loop send
    the text read for c.js; firing during the call for d.ts (index 3) it
    comes too late: c.js was skipped as blank and documented as the empty
    text, though its content is there when the run ends. *)
Example reader_during_a_call :
  map (fun e => match e with AiCall request => contents request | _ => EmptyString end)
    (aiCallsOf (snd (@handleAnalyze Sample.host (Sample.envReaderAt 0) Sample.halfRead)))
  = ["def f(): pass"; "function g() {}"; "export const h = () => 1;"]
  /\ combinedFiles (fst (@handleAnalyze Sample.host (Sample.envReaderAt 0) Sample.halfRead)) !! 2
     = Some (mkProjectFile "c.js" "function g() {}" "JavaScript"
               (Some "function g() {}") None true)
  /\ map (fun e => match e with AiCall request => contents request | _ => EmptyString end)
       (aiCallsOf (snd (@handleAnalyze Sample.host (Sample.envReaderAt 3) Sample.halfRead)))
     = ["def f(): pass"; "export const h = () => 1;"]
  /\ combinedFiles (fst (@handleAnalyze Sample.host (Sample.envReaderAt 3) Sample.halfRead)) !! 2
     = Some (mkProjectFile "c.js" "function g() {}" "JavaScript"
               (Some EmptyString) None true).
Proof. repeat split. Qed.

(** ** What a request carries *)

Lemma includes_unfold p s :
  Js.includes p s
  = Js.startsWith p s
    || match s with EmptyString => false | String _ s' => Js.includes p s' end.
Proof. now destruct s. Qed.

Lemma startsWith_append p s b :
  Js.startsWith p s = true -> Js.startsWith p (s +:+ b) = true.
Proof.
  revert s. induction p as [|a p IH]; intros s; [reflexivity |].
  destruct s as [|c s]; simpl; [discriminate |].
  intros [Ha Hp]%andb_prop. rewrite Ha. simpl. now apply IH.
Qed.

Lemma startsWith_self p : Js.startsWith p p = true.
Proof. induction p as [|a p IH]; simpl; [reflexivity |]. now rewrite Ascii.eqb_refl. Qed.

Lemma includes_self p : Js.includes p p = true.
Proof. rewrite includes_unfold, startsWith_self. reflexivity. Qed.

Lemma includes_append_r p a s : Js.includes p s = true -> Js.includes p (a +:+ s) = true.
Proof.
  intros Hs. induction a as [|c a IH]; simpl; [exact Hs |].
  rewrite IH. apply orb_true_r.
Qed.

Lemma includes_append_l p s b : Js.includes p s = true -> Js.includes p (s +:+ b) = true.
Proof.
  induction s as [|c s IH]; rewrite includes_unfold.
  - rewrite orb_false_r. intros Hp. rewrite includes_unfold.
    now rewrite (startsWith_append p EmptyString b Hp).
  - intros [Hp | Hs]%orb_prop; rewrite includes_unfold.
    + now rewrite (startsWith_append p (String c s) b Hp).
    + simpl. rewrite (IH Hs). apply orb_true_r.
Qed.

Lemma includes_join sep x items :
  x ∈ items -> Js.includes x (Js.join sep items) = true.
Proof.
  induction items as [|y items IH]; intros Hx; [now apply elem_of_nil in Hx |].
  destruct items as [|z items].
  - apply list_elem_of_singleton in Hx as ->. apply includes_self.
  - change (Js.join sep (y :: z :: items)) with (y +:+ sep +:+ Js.join sep (z :: items)).
    apply elem_of_cons in Hx as [-> | Hx].
    + apply includes_append_l, includes_self.
    + do 2 apply includes_append_r. now apply IH.
Qed.

Section ContextFacts.
Context `{Host}.

Lemma systemInstruction_context lang projectContext docLang x :
  Js.includes x projectContext = true ->
  Js.includes x (buildSystemInstruction lang projectContext docLang) = true.
Proof.
  intros Hx. unfold buildSystemInstruction. cbv zeta.
  do 15 apply includes_append_r. now apply includes_append_l.
Qed.

Lemma context_names files f :
  f ∈ files -> Js.includes ("- " +:+ name f) (detailedProjectContext files) = true.
Proof.
  intros Hf.
  assert (Hlisting : Js.includes ("- " +:+ name f)
            ("This project contains the following files:" +:+ Js.LF
             +:+ Js.join Js.LF (map (fun g => "- " +:+ name g) files)) = true).
  { do 2 apply includes_append_r. apply includes_join.
    apply list_elem_of_fmap. now exists f. }
  unfold detailedProjectContext.
  destruct (Js.find (fun g => Js.startsWith "changelog" _) files);
    destruct (Js.find (fun g => Js.startsWith "readme" _) files);
    cbv zeta; repeat first [exact Hlisting | apply includes_append_l].
Qed.

Lemma context_readme files readme :
  Js.find (fun f => Js.startsWith "readme" (Js.toLowerCase (name f))) files = Some readme ->
  Js.includes
    ("--- PROJECT README ---" +:+ Js.LF +:+ content readme +:+ Js.LF +:+ "--- END README ---")
    (detailedProjectContext files) = true.
Proof.
  intros Hr. unfold detailedProjectContext. rewrite Hr.
  destruct (Js.find (fun g => Js.startsWith "changelog" _) files);
    [apply includes_append_l |];
    do 3 apply includes_append_r; apply includes_self.
Qed.

Lemma context_changelog files changelog :
  Js.find (fun f => Js.startsWith "changelog" (Js.toLowerCase (name f))) files
  = Some changelog ->
  Js.includes
    ("--- PROJECT CHANGELOG ---" +:+ Js.LF +:+ content changelog +:+ Js.LF
     +:+ "--- END CHANGELOG ---")
    (detailedProjectContext files) = true.
Proof.
  intros Hc. unfold detailedProjectContext. rewrite Hc.
  do 3 apply includes_append_r. apply includes_self.
Qed.

End ContextFacts.

(** Every request that a run sends to the remote model is the request for
    one of the run's files, one that needs the model as the loop finds it:
    it carries the content that the record has when its turn begins (the
    uploaded record but for a content that a reader may have written
    since the click), and its system instruction holds the project
    context, built once from the records as they stand at the click: the
    line of every file of both groupings, the content of the first file
    whose name starts with readme between the README markers, and the
    content of the first file whose name starts with changelog between
    the CHANGELOG markers, when there are such files. *)
Theorem request_carries_context `{Host} (env : Env) (app : App) (request : Request) :
  AiCall request ∈ snd (handleAnalyze env app) ->
  (exists j f found,
      combinedFiles app !! j = Some f /\ atTurn env app j = Some found
      /\ found = setContent (content found) f
      /\ (quiet env -> found = f)
      /\ needsModel found = true
      /\ request = requestFor (detailedProjectContext (combinedFiles app)) (docLanguage app)
                     found
      /\ contents request = content found
      /\ systemInstruction request
         = buildSystemInstruction (language f) (detailedProjectContext (combinedFiles app))
             (docLanguage app))
  /\ (forall f, f ∈ combinedFiles app ->
        Js.includes ("- " +:+ name f) (systemInstruction request) = true)
  /\ (forall readme,
        Js.find (fun f => Js.startsWith "readme" (Js.toLowerCase (name f)))
          (combinedFiles app) = Some readme ->
        Js.includes
          ("--- PROJECT README ---" +:+ Js.LF +:+ content readme +:+ Js.LF
           +:+ "--- END README ---")
          (systemInstruction request) = true)
  /\ (forall changelog,
        Js.find (fun f => Js.startsWith "changelog" (Js.toLowerCase (name f)))
          (combinedFiles app) = Some changelog ->
        Js.includes
          ("--- PROJECT CHANGELOG ---" +:+ Js.LF +:+ content changelog +:+ Js.LF
           +:+ "--- END CHANGELOG ---")
          (systemInstruction request) = true).
Proof.
  intros Hin.
  assert (Hcall : AiCall request ∈ aiCallsOf (snd (handleAnalyze env app))).
  { unfold aiCallsOf. apply list_elem_of_filter. now split. }
  destruct (analyze_calls env app) as (k & _ & Hcalls & _).
  rewrite Hcalls in Hcall.
  destruct (runCalls_elem env app k _ Hcall) as (j & found & _ & Hfound & Hneeds & Hreq).
  injection Hreq as ->.
  destruct (atTurn_original env app j found Hfound) as (f & Hf & Hsame).
  destruct (sameButContent_fields _ _ Hsame) as (_ & Hlang & _).
  split.
  { exists j, f, found. split; [exact Hf |]. split; [exact Hfound |].
    split; [exact Hsame |]. split.
    - intros Hq. pose proof (atTurn_calm env app (quiet_calm env app Hq) j) as E.
      rewrite Hfound, Hf in E. now injection E.
    - split; [exact Hneeds |]. split; [reflexivity |]. split; [reflexivity |].
      simpl. now rewrite Hlang. }
  split; [| split].
  - intros g Hg. apply systemInstruction_context. now apply context_names.
  - intros readme Hr. apply systemInstruction_context. now apply context_readme.
  - intros changelog Hc. apply systemInstruction_context. now apply context_changelog.
Qed.

Lemma request_carries_context_witness :
  Js.includes
    ("--- PROJECT README ---" +:+ Js.LF +:+ "Converts sheets." +:+ Js.LF
     +:+ "--- END README ---")
    (systemInstruction
       (@requestFor Sample.host (detailedProjectContext (combinedFiles Sample.withReadme)) en
          (mkProjectFile "run.gs" "function run() {}" "Google Apps Script" None None true)))
  = true.
Proof.
  assert (Hin : AiCall (@requestFor Sample.host
                          (detailedProjectContext (combinedFiles Sample.withReadme)) en
                          (mkProjectFile "run.gs" "function run() {}" "Google Apps Script"
                             None None true))
                ∈ snd (@handleAnalyze Sample.host Sample.envNoCancel Sample.withReadme)).
  { apply (list_elem_of_lookup_2 _ 3). reflexivity. }
  exact (proj1 (proj2 (proj2
           (@request_carries_context Sample.host Sample.envNoCancel Sample.withReadme _ Hin)))
           (mkProjectFile "README.md" "Converts sheets." "code" None None true) eq_refl).
Defined.

(** ** A run before the contents are read *)

Section UnreadFacts.
Context `{Host}.

(** A file that does not need the model comes out of its turn with its
    content as the documented content. *)
Lemma processedRecord_skipped env projectContext docLang i f :
  needsModel f = false ->
  processedRecord env projectContext docLang i f = setDocumentedContent (content f) f.
Proof.
  unfold needsModel, processedRecord, generateDocumentation. rewrite trim_length_zero.
  destruct (String.eqb (language f) "code"); [reflexivity |]. simpl.
  intros Hblank%negb_false_iff. now rewrite Hblank.
Qed.

Lemma projectFiles_setProjectFiles project l app :
  projectFiles project (setProjectFiles project l app) = l.
Proof. now destruct project. Qed.

Lemma readerOnload_lookup project index text app :
  projectFiles project (readerOnload project index text app) !! index
  = setContent text <$> projectFiles project app !! index.
Proof.
  unfold readerOnload.
  destruct (projectFiles project app !! index) as [f|] eqn:L; [| now rewrite L].
  rewrite projectFiles_setProjectFiles. apply list_lookup_insert_eq.
  now apply lookup_lt_Some in L.
Qed.

Lemma filter_none_needs (l : list ProjectFile) :
  (forall f, f ∈ l -> needsModel f = false) -> List.filter needsModel l = [].
Proof.
  induction l as [|f l IH]; intros Hl; [reflexivity |]. simpl.
  rewrite (Hl f) by (apply elem_of_cons; now left).
  apply IH. intros g Hg. apply Hl. apply elem_of_cons; now right.
Qed.

Lemma project_record_combined app project j g :
  projectFiles project app !! j = Some g -> exists i, combinedFiles app !! i = Some g.
Proof.
  intros Hg. destruct (project_lookup_combined app project j g Hg) as [Hc _]. eauto.
Qed.

End UnreadFacts.

(** When Analyze is pressed while the records have no content yet (the
    readers of the upload have not fired), the run calls the remote model
    not once and leaves no error: the documented content of every record
    the loop came to is the empty text.  A reader that fires afterwards
    sets the content of its record and nothing else, so the record, which
    is included, goes to the archive as the empty text. *)
Theorem analyze_before_contents_load `{Host} (env : Env) (app : App) :
  Forall (fun f => content f = EmptyString /\ pristine f /\ isIncluded f = true)
    (combinedFiles app) ->
  aiCallsOf (snd (handleAnalyze env app)) = []
  /\ (forall j g,
        combinedFiles (fst (handleAnalyze env app)) !! j = Some g ->
        content g = EmptyString /\ error g = None /\ isIncluded g = true
        /\ (documentedContent g = None \/ documentedContent g = Some EmptyString)
        /\ ((forall i, cancelDuring env i = false) ->
            documentedContent g = Some EmptyString))
  /\ (forall project index text g,
        (forall i, cancelDuring env i = false) ->
        projectFiles project (readerOnload project index text (fst (handleAnalyze env app)))
          !! index = Some g ->
        content g = text
        /\ documentedContent g = Some EmptyString
        /\ ReviewChanges.archivedContent g = EmptyString).
Proof.
  intros Hunread.
  assert (Hskip : forall f, f ∈ combinedFiles app -> needsModel f = false).
  { intros f Hf. apply (proj1 (Forall_forall _ _) Hunread) in Hf as (Hc & _ & _).
    unfold needsModel. rewrite Hc. apply andb_false_r. }
  assert (Hrecord : forall j g,
            combinedFiles (fst (handleAnalyze env app)) !! j = Some g ->
            content g = EmptyString /\ error g = None /\ isIncluded g = true
            /\ (documentedContent g = None \/ documentedContent g = Some EmptyString)
            /\ ((forall i, cancelDuring env i = false) ->
                documentedContent g = Some EmptyString)).
  { intros j g Hg. rewrite (analyze_lookup_calm env app j (unread_calm env app Hskip)) in Hg.
    destruct (combinedFiles app !! j) as [f|] eqn:F;
      [| destruct (cancelled _); discriminate].
    pose proof (proj1 (Forall_lookup _ _) Hunread j f F) as (Hc & [Hd He] & Hi).
    pose proof (Hskip f (list_elem_of_lookup_2 _ _ _ F)) as Hs.
    destruct (cancelled (runUpTo env app j)) eqn:C; simpl in Hg;
      rewrite ?(processedRecord_skipped env _ _ j f Hs) in Hg; injection Hg as <-.
    - repeat split; auto. intros Hnever.
      rewrite (run_never_cancelled env app j Hnever) in C. discriminate.
    - simpl. rewrite Hc. repeat split; auto. }
  split; [| split; [exact Hrecord |]].
  - destruct (analyze_calls env app) as (k & Hk & -> & _).
    rewrite (runCalls_calm env app k (unread_calm env app Hskip) Hk).
    rewrite filter_none_needs; [reflexivity |].
    intros f Hf%elem_of_take. destruct Hf as (i & Hf & _).
    apply Hskip. now apply list_elem_of_lookup_2 in Hf.
  - intros project index text g Hnever Hg. rewrite readerOnload_lookup in Hg.
    destruct (projectFiles project (fst (handleAnalyze env app)) !! index) as [f|] eqn:F;
      [| discriminate].
    injection Hg as <-.
    destruct (project_record_combined _ _ _ _ F) as [i Hi].
    destruct (Hrecord i f Hi) as (_ & _ & Hinc & _ & Hdoc). specialize (Hdoc Hnever).
    unfold ReviewChanges.archivedContent. simpl. rewrite Hinc, Hdoc. now repeat split.
Qed.

Lemma analyze_before_contents_load_witness :
  aiCallsOf (snd (@handleAnalyze Sample.host Sample.envNoCancel
                    (handleFilesUpload main ["a.py"; "b.js"] initialApp))) = []
  /\ forall g,
       projectFiles main
         (readerOnload main 0 "def f(): pass"
            (fst (@handleAnalyze Sample.host Sample.envNoCancel
                    (handleFilesUpload main ["a.py"; "b.js"] initialApp)))) !! 0 = Some g ->
       content g = "def f(): pass"
       /\ documentedContent g = Some EmptyString
       /\ ReviewChanges.archivedContent g = EmptyString.
Proof.
  assert (Hunread : Forall (fun f => content f = EmptyString /\ pristine f /\ isIncluded f = true)
                      (combinedFiles (handleFilesUpload main ["a.py"; "b.js"] initialApp))).
  { repeat constructor. }
  split.
  - exact (proj1 (@analyze_before_contents_load Sample.host Sample.envNoCancel _ Hunread)).
  - intros g.
    exact (proj2 (proj2 (@analyze_before_contents_load Sample.host Sample.envNoCancel _ Hunread))
             main 0 "def f(): pass" g (fun _ => eq_refl)).
Defined.

(** ** The selection of the review screen *)

Lemma find_first {A} (p : A -> bool) (l : list A) (x : A) :
  Js.find p l = Some x ->
  p x = true
  /\ exists i, l !! i = Some x /\ forall k y, k < i -> l !! k = Some y -> p y = false.
Proof.
  unfold Js.find. induction l as [|a l IH]; simpl; [discriminate |].
  destruct (p a) eqn:Pa.
  - intros [= ->]. split; [exact Pa |]. exists 0. split; [reflexivity |]. intros; lia.
  - intros Hx. destruct (IH Hx) as (Hp & i & Hi & Hbefore).
    split; [exact Hp |]. exists (S i). split; [exact Hi |].
    intros [|k] y Hk Hy; [now injection Hy as <- |].
    apply (Hbefore k y); [lia | exact Hy].
Qed.

Lemma find_nothing {A} (p : A -> bool) (l : list A) :
  Js.find p l = None -> Forall (fun y => p y = false) l.
Proof.
  unfold Js.find. induction l as [|a l IH]; simpl; [constructor |].
  destruct (p a) eqn:Pa; [discriminate |]. intros Hl. constructor; auto.
Qed.

Lemma initialSelection_none mainFiles frontendFiles :
  ReviewChanges.initialSelection mainFiles frontendFiles = None
  <-> mainFiles = [] /\ frontendFiles = [].
Proof.
  unfold ReviewChanges.initialSelection, ReviewChanges.allFiles. split.
  - destruct (Js.find _ _); [discriminate |].
    destruct mainFiles; [| discriminate]. now destruct frontendFiles.
  - now intros [-> ->].
Qed.

(** When the review screen mounts it selects the first file, main files
    first, whose documented content is neither missing nor empty and
    differs from the content; without such a file it selects the first
    file of the screen; it selects nothing only when both lists are
    empty.  A record without a documented content, with the empty text as
    documented content, or documented as it was, is not a changed file. *)
Theorem initial_selection (mainFiles frontendFiles : list ProjectFile) :
  (ReviewChanges.initialSelection mainFiles frontendFiles = None
   <-> mainFiles = [] /\ frontendFiles = [])
  /\ (forall s,
        ReviewChanges.initialSelection mainFiles frontendFiles = Some s ->
        (ReviewChanges.hasSuggestedChanges (ReviewChanges.file s) = true ->
         exists i,
           ReviewChanges.allFiles mainFiles frontendFiles !! i = Some s
           /\ forall k x,
                k < i -> ReviewChanges.allFiles mainFiles frontendFiles !! k = Some x ->
                ReviewChanges.hasSuggestedChanges (ReviewChanges.file x) = false)
        /\ (ReviewChanges.hasSuggestedChanges (ReviewChanges.file s) = false ->
            ReviewChanges.allFiles mainFiles frontendFiles !! 0 = Some s
            /\ Forall (fun x => ReviewChanges.hasSuggestedChanges (ReviewChanges.file x) = false)
                 (ReviewChanges.allFiles mainFiles frontendFiles)))
  /\ (forall f,
        ReviewChanges.hasSuggestedChanges f = true
        <-> exists d, documentedContent f = Some d /\ d <> EmptyString /\ d <> content f).
Proof.
  split; [apply initialSelection_none |]. split.
  - intros s. unfold ReviewChanges.initialSelection.
    destruct (Js.find _ _) as [first|] eqn:F.
    + intros [= ->]. apply find_first in F as (Hp & i & Hi & Hbefore).
      split; [intros _; eauto | congruence].
    + pose proof (find_nothing _ _ F) as Hall.
      destruct (0 <? length _); [| discriminate]. intros Hs. split.
      * intros Hchanged.
        apply (proj1 (Forall_lookup _ _) Hall) in Hs. simpl in Hs. congruence.
      * intros _. now split.
  - intros f. unfold ReviewChanges.hasSuggestedChanges.
    destruct (documentedContent f) as [d|].
    + rewrite andb_true_iff, !negb_true_iff, !String.eqb_neq. split.
      * intros [? ?]. eauto.
      * intros (d' & [= <-] & ? & ?). auto.
    + split; [discriminate | intros (d & Hd & _); discriminate].
Qed.

Lemma initial_selection_witness :
  exists i,
    ReviewChanges.allFiles
      [mkProjectFile "notes.txt" "plain" "code" (Some "plain") None true;
       mkProjectFile "a.py" "x" "Python" (Some EmptyString) None true]
      [mkProjectFile "d.ts" "y" "TypeScript" (Some "/** doc */ y") None true] !! i
    = Some (ReviewChanges.mkSelected
              (mkProjectFile "d.ts" "y" "TypeScript" (Some "/** doc */ y") None true) frontend)
    /\ forall k x,
         k < i ->
         ReviewChanges.allFiles
           [mkProjectFile "notes.txt" "plain" "code" (Some "plain") None true;
            mkProjectFile "a.py" "x" "Python" (Some EmptyString) None true]
           [mkProjectFile "d.ts" "y" "TypeScript" (Some "/** doc */ y") None true] !! k
         = Some x ->
         ReviewChanges.hasSuggestedChanges (ReviewChanges.file x) = false.
Proof.
  exact (proj1 (proj1 (proj2 (initial_selection
           [mkProjectFile "notes.txt" "plain" "code" (Some "plain") None true;
            mkProjectFile "a.py" "x" "Python" (Some EmptyString) None true]
           [mkProjectFile "d.ts" "y" "TypeScript" (Some "/** doc */ y") None true]))
           (ReviewChanges.mkSelected
              (mkProjectFile "d.ts" "y" "TypeScript" (Some "/** doc */ y") None true) frontend)
           eq_refl) eq_refl).
Defined.

(** ** Invariants of the screens *)

Section ScreenFacts.
Context `{Host}.

(** A property of records that the loop body and the readers keep holds
    after a run. *)
Lemma analyze_Forall (P : ProjectFile -> Prop) env app :
  (forall d f, P f -> P (setDocumentedContent d f)) ->
  (forall m f, P f -> P (setError m f)) ->
  (forall text f, P f -> P (setContent text f)) ->
  Forall P (combinedFiles app) ->
  Forall P (combinedFiles (fst (handleAnalyze env app))).
Proof.
  intros Hdoc Herr Hset Hall. apply Forall_lookup. intros j g Hg.
  destruct (analyze_lookup env app j g Hg) as (f & Hf & _).
  pose proof (proj1 (Forall_lookup _ _) Hall j f Hf) as Pf.
  destruct (analyze_record env app j f Hf) as (g' & Hg' & Hshape).
  assert (g' = g) as -> by congruence.
  unfold sameButContent in Hshape.
  destruct Hshape as [-> | [[d ->] | [m ->]]]; auto.
Qed.

Lemma upload_Forall (P : ProjectFile -> Prop) project fileNames app :
  (forall fileName, P (newProjectFile fileName)) ->
  Forall P (combinedFiles app) ->
  Forall P (combinedFiles (handleFilesUpload project fileNames app)).
Proof.
  intros Hnew [Hm Hf]%Forall_app. unfold combinedFiles. apply Forall_app.
  destruct project; simpl; (split; try assumption);
    apply Forall_fmap, Forall_true; intros ?; apply Hnew.
Qed.

Lemma onload_Forall (P : ProjectFile -> Prop) project index text app :
  (forall f, P f -> P (setContent text f)) ->
  Forall P (combinedFiles app) ->
  Forall P (combinedFiles (readerOnload project index text app)).
Proof.
  intros Hset Hall. unfold readerOnload.
  destruct (projectFiles project app !! index) as [f|] eqn:L; [| exact Hall].
  apply Forall_app in Hall as [Hm Hf]. unfold combinedFiles. apply Forall_app.
  destruct project; simpl in *; (split; try assumption);
    apply Forall_insert; auto; apply Hset.
  - exact (proj1 (Forall_lookup _ _) Hm _ _ L).
  - exact (proj1 (Forall_lookup _ _) Hf _ _ L).
Qed.

Lemma toggle_Forall (P : ProjectFile -> Prop) project fileName app :
  (forall f, P f -> P (flipIncluded f)) ->
  Forall P (combinedFiles app) ->
  Forall P (combinedFiles (toggleFileInclusion project fileName app)).
Proof.
  intros Hflip [Hm Hf]%Forall_app. unfold combinedFiles. apply Forall_app.
  destruct project; simpl; (split; try assumption);
    apply Forall_fmap; (eapply Forall_impl; [eassumption |]);
    intros g Hg; simpl; destruct (String.eqb (name g) fileName); auto.
Qed.

Lemma onload_length project index text app :
  length (combinedFiles (readerOnload project index text app)) = length (combinedFiles app).
Proof.
  unfold readerOnload.
  destruct (projectFiles project app !! index); [| reflexivity].
  unfold combinedFiles. destruct project; simpl; now rewrite !length_app, length_insert.
Qed.

Lemma onload_state project index text app :
  appState (readerOnload project index text app) = appState app.
Proof.
  unfold readerOnload. destruct (projectFiles project app !! index); [| reflexivity].
  now destruct project.
Qed.

Lemma toggle_length project fileName app :
  length (combinedFiles (toggleFileInclusion project fileName app))
  = length (combinedFiles app).
Proof.
  unfold combinedFiles. destruct project; simpl; now rewrite !length_app, length_map.
Qed.

End ScreenFacts.

(** In every state that the interface brings about, the label of every
    record is the classification of its name; while the upload screen is
    shown every record is included; and the review screen is never shown
    without a file, so that it always mounts with a file selected and
    never with the placeholder of its right-hand pane. *)
Theorem reachable_screens `{Host} (app : App) :
  Reachable app ->
  Forall (fun f => language f = getFileLanguage (name f)) (combinedFiles app)
  /\ (appState app = uploading ->
      Forall (fun f => isIncluded f = true) (combinedFiles app))
  /\ (appState app = reviewing ->
      combinedFiles app <> []
      /\ exists s,
           ReviewChanges.initialSelection (mainProjectFiles app) (frontendProjectFiles app)
           = Some s
           /\ ReviewChanges.mainPane (Some s) <> ReviewChanges.Placeholder).
Proof.
  intros Hreach.
  assert (Hinv : Forall (fun f => language f = getFileLanguage (name f)) (combinedFiles app)
                 /\ (appState app = uploading ->
                     Forall (fun f => isIncluded f = true) (combinedFiles app))
                 /\ (appState app = reviewing -> length (combinedFiles app) <> 0)).
  { induction Hreach as [ | project fileNames app _ (IHl & IHi & IHn) St
                          | project index text app _ (IHl & IHi & IHn)
                          | l app _ (IHl & IHi & IHn) St
                          | env app _ (IHl & IHi & IHn) St
                          | project fileName app _ (IHl & IHi & IHn) St
                          | app _ _ _ ].
    - split; [constructor |]. split; [intros _; constructor | discriminate].
    - split; [now apply upload_Forall |]. split.
      + intros _. apply upload_Forall; [reflexivity | now apply IHi].
      + destruct project; simpl; congruence.
    - rewrite onload_state, onload_length.
      split; [now apply onload_Forall |]. split; [| exact IHn].
      intros St. apply onload_Forall; [auto | now apply IHi].
    - now repeat split.
    - rewrite analyze_state.
      split; [now apply analyze_Forall |]. split.
      + destruct (length (combinedFiles app) =? 0) eqn:E; [| discriminate].
        intros _. apply analyze_Forall; auto.
      + destruct (analyze_groupings env app) as (_ & _ & ->).
        destruct (length (combinedFiles app) =? 0) eqn:E; [discriminate |].
        intros _. now apply Nat.eqb_neq in E.
    - rewrite toggle_length.
      split; [now apply toggle_Forall |]. split; [| intros _; now apply IHn].
      destruct project; simpl; congruence.
    - split; [constructor |]. split; [intros _; constructor | discriminate]. }
  destruct Hinv as (Hl & Hi & Hn). split; [exact Hl |]. split; [exact Hi |].
  intros St. specialize (Hn St).
  assert (Hne : combinedFiles app <> []) by (intros E; now rewrite E in Hn).
  split; [exact Hne |].
  destruct (ReviewChanges.initialSelection (mainProjectFiles app) (frontendProjectFiles app))
    as [s|] eqn:S.
  - exists s. split; [reflexivity | discriminate].
  - apply initialSelection_none in S as [Em Ef]. exfalso. apply Hne.
    unfold combinedFiles. now rewrite Em, Ef.
Qed.

Lemma reachable_screens_witness :
  Forall (fun f => language f = getFileLanguage (name f))
    (combinedFiles (fst (@handleAnalyze Sample.host Sample.envNoCancel Sample.uploaded)))
  /\ exists s,
       ReviewChanges.initialSelection
         (mainProjectFiles (fst (@handleAnalyze Sample.host Sample.envNoCancel Sample.uploaded)))
         (frontendProjectFiles
            (fst (@handleAnalyze Sample.host Sample.envNoCancel Sample.uploaded)))
       = Some s
       /\ ReviewChanges.mainPane (Some s) <> ReviewChanges.Placeholder.
Proof.
  pose proof (@reachable_screens Sample.host _
                (@reach_analyze Sample.host Sample.envNoCancel _
                   sample_uploaded_reachable eq_refl)) as (Hl & _ & Hr).
  split; [exact Hl | exact (proj2 (Hr eq_refl))].
Defined.

(** ** The documented text on the review screen *)

Section ReviewFacts.
Context `{Host}.

(** The turn of a file that needs the model, by how the call ends. *)
Lemma processedRecord_called env projectContext docLang i f :
  needsModel f = true ->
  processedRecord env projectContext docLang i f
  = match ai env i (requestFor projectContext docLang f) with
    | Answered response => setDocumentedContent (postProcess response) f
    | Rejected cause => setError (finalMessage cause) f
    end.
Proof.
  unfold needsModel, processedRecord, generateDocumentation, requestFor.
  rewrite trim_length_zero.
  destruct (String.eqb (language f) "code"); [discriminate |]. simpl.
  intros ->%negb_true_iff. now destruct (ai env i _).
Qed.


End ReviewFacts.

(** What the service returns for an answered call is a trimmed text: it
    neither begins nor ends with white space.  Hence a file whose content
    begins or ends with white space (a final line feed, say) never comes
    back from the model as it was: whatever the answer, the record is not
    marked as unchanged in the list, and the viewer of the included file
    shows the two columns. *)
Theorem documented_text_is_trimmed `{Host} (response : string) :
  Js.trim (postProcess response) = postProcess response
  /\ (forall (env : Env) projectContext docLang i f project selected,
        needsModel f = true -> error f = None ->
        ai env i (requestFor projectContext docLang f) = Answered response ->
        Js.trim (content f) <> content f ->
        documentedContent (processedRecord env projectContext docLang i f)
        = Some (postProcess response)
        /\ postProcess response <> content f
        /\ ReviewChanges.noChangesBadge
             (ReviewChanges.fileListItem selected project
                (processedRecord env projectContext docLang i f)) = false
        /\ (isIncluded f = true ->
            ReviewChanges.mainPane
              (Some (ReviewChanges.mkSelected
                       (processedRecord env projectContext docLang i f) project))
            = ReviewChanges.Viewer
                (DiffViewer.SideBySide (name f) (content f) (postProcess response)))).
Proof.
  assert (Htrim : Js.trim (postProcess response) = postProcess response).
  { destruct (postProcess_is_trim response) as [t ->]. apply trim_idempotent. }
  split; [exact Htrim |].
  intros env projectContext docLang i f project selected Hneeds Herr Hanswer Huntrimmed.
  rewrite (processedRecord_called env projectContext docLang i f Hneeds), Hanswer.
  assert (Hdiff : postProcess response <> content f).
  { intros E. apply Huntrimmed. now rewrite <- E. }
  split; [reflexivity |]. split; [exact Hdiff |]. split.
  - simpl. now apply String.eqb_neq.
  - intros Hinc. unfold ReviewChanges.mainPane, DiffViewer.render. simpl.
    rewrite Hinc, Herr. simpl.
    assert (E : String.eqb (content f) (postProcess response) = false).
    { apply String.eqb_neq. congruence. }
    now rewrite E.
Qed.

Lemma documented_text_is_trimmed_witness :
  ReviewChanges.mainPane
    (Some (ReviewChanges.mkSelected
             (@processedRecord Sample.host
                (mkEnv (fun _ _ => Answered ("f();" +:+ Js.LF)) (fun _ => false) (fun _ => []))
                "context" en 0
                (mkProjectFile "a.js" ("f();" +:+ Js.LF) "JavaScript" None None true))
             main))
  = ReviewChanges.Viewer (DiffViewer.SideBySide "a.js" ("f();" +:+ Js.LF) "f();").
Proof.
  apply (proj2 (proj2 (proj2
           (proj2 (@documented_text_is_trimmed Sample.host ("f();" +:+ Js.LF))
              (mkEnv (fun _ _ => Answered ("f();" +:+ Js.LF)) (fun _ => false) (fun _ => []))
              "context" en 0
              (mkProjectFile "a.js" ("f();" +:+ Js.LF) "JavaScript" None None true)
              main None eq_refl eq_refl eq_refl
              ltac:(discriminate))))).
  reflexivity.
Defined.



(** ** The archive *)

Lemma zipFilesOf_app t1 t2 : zipFilesOf (t1 ++ t2) = zipFilesOf t1 ++ zipFilesOf t2.
Proof. apply omap_app. Qed.

Lemma zipFilesOf_folderEffect folder : zipFilesOf (ReviewChanges.folderEffect folder) = [].
Proof. now destruct folder. Qed.

Lemma zipFilesOf_writeFiles folder files :
  zipFilesOf (ReviewChanges.writeFiles (ReviewChanges.openFolder folder files) files)
  = map (fun f => (folder, name f, ReviewChanges.archivedContent f)) files.
Proof.
  unfold ReviewChanges.openFolder.
  destruct files as [|f0 files0] eqn:E; [reflexivity |]. rewrite <- E.
  replace (0 <? length files) with true by now rewrite E.
  clear E. induction files as [|f files IH]; [reflexivity |]. simpl.
  unfold ReviewChanges.writeFiles in IH. now rewrite <- IH.
Qed.

Lemma existsb_false_Forall {A} (p : A -> bool) (l : list A) :
  existsb p l = false <-> Forall (fun x => p x = false) l.
Proof.
  induction l as [|x l IH]; simpl; [split; [constructor | reflexivity] |].
  rewrite orb_false_iff, IH. split.
  - intros [? ?]. now constructor.
  - intros Hx. inversion Hx. now split.
Qed.

Lemma folderEffect_elem folder e :
  e ∈ ReviewChanges.folderEffect folder <-> exists d, folder = Some d /\ e = ReviewChanges.ZipFolder d.
Proof.
  destruct folder as [d|]; simpl.
  - rewrite list_elem_of_singleton. split; [eauto |]. now intros (d' & [= <-] & ->).
  - rewrite elem_of_nil. split; [tauto | intros (d & Hd & _); discriminate].
Qed.

Lemma openFolder_Some folder (files : list ProjectFile) d :
  ReviewChanges.openFolder folder files = Some d <-> d = folder /\ files <> [].
Proof.
  unfold ReviewChanges.openFolder. destruct files; simpl; split.
  - discriminate.
  - now intros [_ ?].
  - intros [= <-]. now split.
  - now intros [-> _].
Qed.

Lemma writeFiles_elem folder files e :
  e ∈ ReviewChanges.writeFiles folder files -> exists a b c, e = ReviewChanges.ZipFile a b c.
Proof.
  unfold ReviewChanges.writeFiles.
  induction files as [|f files IH]; simpl; [intros Hin; now apply elem_of_nil in Hin |].
  destruct folder as [d|]; simpl; [| exact IH].
  intros [-> | Hin]%elem_of_cons; eauto.
Qed.

(** The effects of Apply and Download, one group after the other. *)
Lemma handleApplyAndDownload_elem generated mainFiles frontendFiles e :
  e ∈ ReviewChanges.handleApplyAndDownload generated mainFiles frontendFiles
  <-> e = ReviewChanges.SetIsDownloading true
      \/ e ∈ ReviewChanges.folderEffect (ReviewChanges.openFolder "main_project" mainFiles)
      \/ e ∈ ReviewChanges.folderEffect
               (ReviewChanges.openFolder "frontend_project" frontendFiles)
      \/ e ∈ ReviewChanges.writeFiles
               (ReviewChanges.openFolder "main_project" mainFiles) mainFiles
      \/ e ∈ ReviewChanges.writeFiles
               (ReviewChanges.openFolder "frontend_project" frontendFiles) frontendFiles
      \/ e = ReviewChanges.GenerateAsync
      \/ (if generated then e = ReviewChanges.Download "documented_project.zip"
          else e = ReviewChanges.LogError "Failed to create or download zip file"
               \/ e = ReviewChanges.Alert "Failed to create zip archive.")
      \/ e = ReviewChanges.SetIsDownloading false.
Proof.
  unfold ReviewChanges.handleApplyAndDownload.
  rewrite !elem_of_app, !list_elem_of_singleton.
  destruct generated; rewrite ?elem_of_cons, ?list_elem_of_singleton, ?elem_of_nil; tauto.
Qed.

(** Apply and Download writes every record of both lists to the archive,
    once and in order, the main files under main_project and the frontend
    files under frontend_project: an included record with its documented
    content when it has one, and with its content otherwise; a record
    that is not included is written as well, with its content.  A folder
    is created only for a list that is not empty.  The download happens
    exactly when the archive could be generated, and the last effect,
    either way, resets the downloading mark.  The button is enabled as
    long as one record is included. *)
Theorem archive_entries (generated : bool) (mainFiles frontendFiles : list ProjectFile) :
  zipFilesOf (ReviewChanges.handleApplyAndDownload generated mainFiles frontendFiles)
  = map (fun f => ("main_project", name f, ReviewChanges.archivedContent f)) mainFiles
    ++ map (fun f => ("frontend_project", name f, ReviewChanges.archivedContent f))
         frontendFiles
  /\ (forall f,
        ReviewChanges.archivedContent f
        = match isIncluded f, documentedContent f with
          | true, Some d => d
          | _, _ => content f
          end)
  /\ (ReviewChanges.ZipFolder "main_project"
        ∈ ReviewChanges.handleApplyAndDownload generated mainFiles frontendFiles
      <-> mainFiles <> [])
  /\ (ReviewChanges.ZipFolder "frontend_project"
        ∈ ReviewChanges.handleApplyAndDownload generated mainFiles frontendFiles
      <-> frontendFiles <> [])
  /\ (ReviewChanges.Download "documented_project.zip"
        ∈ ReviewChanges.handleApplyAndDownload generated mainFiles frontendFiles
      <-> generated = true)
  /\ last (ReviewChanges.handleApplyAndDownload generated mainFiles frontendFiles)
     = Some (ReviewChanges.SetIsDownloading false)
  /\ (ReviewChanges.hasFilesToDownload mainFiles frontendFiles = false
      <-> Forall (fun f => isIncluded f = false) (mainFiles ++ frontendFiles)).
Proof.
  split; [| split; [| split; [| split; [| split; [| split]]]]].
  - unfold ReviewChanges.handleApplyAndDownload.
    rewrite !zipFilesOf_app, !zipFilesOf_folderEffect, !zipFilesOf_writeFiles.
    simpl. destruct generated; simpl; now rewrite app_nil_r.
  - intros f. unfold ReviewChanges.archivedContent.
    destruct (isIncluded f); [| reflexivity]. now destruct (documentedContent f).
  - rewrite handleApplyAndDownload_elem. split.
    + intros [Hin | [Hin | [Hin | [Hin | [Hin | [Hin | [Hin | Hin]]]]]]];
        try discriminate;
        try (apply writeFiles_elem in Hin as (a & b & c & Hin); discriminate);
        try (destruct generated; [| destruct Hin]; discriminate).
      * apply folderEffect_elem in Hin as (d & Hd%openFolder_Some & _). tauto.
      * apply folderEffect_elem in Hin as (d & [-> _]%openFolder_Some & Hin). discriminate.
    + intros Hne. right. left. apply folderEffect_elem. exists "main_project".
      split; [now apply openFolder_Some | reflexivity].
  - rewrite handleApplyAndDownload_elem. split.
    + intros [Hin | [Hin | [Hin | [Hin | [Hin | [Hin | [Hin | Hin]]]]]]];
        try discriminate;
        try (apply writeFiles_elem in Hin as (a & b & c & Hin); discriminate);
        try (destruct generated; [| destruct Hin]; discriminate).
      * apply folderEffect_elem in Hin as (d & [-> _]%openFolder_Some & Hin). discriminate.
      * apply folderEffect_elem in Hin as (d & Hd%openFolder_Some & _). tauto.
    + intros Hne. right. right. left. apply folderEffect_elem. exists "frontend_project".
      split; [now apply openFolder_Some | reflexivity].
  - rewrite handleApplyAndDownload_elem. split.
    + intros [Hin | [Hin | [Hin | [Hin | [Hin | [Hin | [Hin | Hin]]]]]]];
        try discriminate;
        try (apply writeFiles_elem in Hin as (a & b & c & Hin); discriminate);
        try (apply folderEffect_elem in Hin as (d & _ & Hin); discriminate).
      destruct generated; [reflexivity | destruct Hin; discriminate].
    + intros ->. do 6 right. now left.
  - unfold ReviewChanges.handleApplyAndDownload.
    rewrite !app_assoc. apply last_snoc.
  - unfold ReviewChanges.hasFilesToDownload.
    rewrite orb_false_iff, !existsb_false_Forall, Forall_app. reflexivity.
Qed.

(** After a run from records as the uploads leave them, the archive
    receives a file with the content that its record has when the run is
    over whenever its call failed, the loop never came to it, or it is not
    included; an included file that has a documented content goes to the
    archive as that text, which is the post-processed answer of its call
    when the record needed the model as the loop found it, and else the
    content that the loop found.  The content of a record is the uploaded
    one unless a reader wrote there during one of the run's calls; when no
    reader fires during the run, the archive receives the file with its
    content as uploaded whenever the file did not need the model, its call
    failed, the loop never came to it, or it is not included, and as the
    post-processed answer of the call for the uploaded record
    otherwise. *)
Theorem archive_after_run `{Host} (env : Env) (app : App) (j : nat) (f g : ProjectFile) :
  Forall pristine (combinedFiles app) ->
  combinedFiles app !! j = Some f ->
  combinedFiles (fst (handleAnalyze env app)) !! j = Some g ->
  name g = name f
  /\ isIncluded g = isIncluded f
  /\ (is_Some (error g) \/ documentedContent g = None \/ isIncluded f = false ->
      ReviewChanges.archivedContent g = content g)
  /\ (forall d,
        isIncluded f = true -> documentedContent g = Some d ->
        ReviewChanges.archivedContent g = d
        /\ exists found,
             atTurn env app j = Some found /\ found = setContent (content found) f
             /\ if needsModel found
                then exists response,
                       ai env j (requestFor (detailedProjectContext (combinedFiles app))
                                   (docLanguage app) found)
                       = Answered response
                       /\ d = postProcess response
                else d = content found)
  /\ (content g = content f
      \/ exists i text,
           i < length (combinedFiles app) /\ (j, text) ∈ loadedDuring env i
           /\ content g = text)
  /\ (quiet env ->
      (needsModel f = false \/ is_Some (error g) \/ documentedContent g = None
       \/ isIncluded f = false ->
       ReviewChanges.archivedContent g = content f)
      /\ (forall d,
            needsModel f = true -> isIncluded f = true -> documentedContent g = Some d ->
            exists response,
              ai env j (requestFor (detailedProjectContext (combinedFiles app))
                          (docLanguage app) f)
              = Answered response
              /\ d = postProcess response /\ ReviewChanges.archivedContent g = d)).
Proof.
  intros Hp Hf Hg.
  destruct (proj1 (Forall_lookup _ _) Hp j f Hf) as [Hd He].
  pose proof (analyze_content env app j f g Hf Hg) as Hcontent.
  assert (Hquiet : quiet env ->
            (needsModel f = false \/ is_Some (error g) \/ documentedContent g = None
             \/ isIncluded f = false ->
             ReviewChanges.archivedContent g = content f)
            /\ (forall d,
                  needsModel f = true -> isIncluded f = true ->
                  documentedContent g = Some d ->
                  exists response,
                    ai env j (requestFor (detailedProjectContext (combinedFiles app))
                                (docLanguage app) f)
                    = Answered response
                    /\ d = postProcess response /\ ReviewChanges.archivedContent g = d)).
  { intros Hq. clear Hcontent.
    rewrite (analyze_lookup_calm env app j (quiet_calm env app Hq)), Hf in Hg.
    unfold ReviewChanges.archivedContent.
    destruct (cancelled (runUpTo env app j)); simpl in Hg; injection Hg as <-.
    - rewrite Hd. split; [now destruct (isIncluded f) |].
      intros d _ _ Habs. discriminate.
    - destruct (needsModel f) eqn:N.
      + rewrite processedRecord_called by exact N.
        destruct (ai env j _) as [response | cause]; simpl.
        * rewrite He. split.
          -- intros [Habs | [[m Habs] | [Habs | ->]]]; try discriminate. reflexivity.
          -- intros d _ -> [= <-]. exists response. now repeat split.
        * rewrite Hd. split; [now destruct (isIncluded f) |].
          intros d _ _ Habs. discriminate.
      + rewrite processedRecord_skipped by exact N. simpl.
        split; [now destruct (isIncluded f) |].
        intros d Habs. discriminate. }
  assert (D : name g = name f /\ isIncluded g = isIncluded f
              /\ (documentedContent g = None
                  \/ exists d found,
                       documentedContent g = Some d /\ error g = None
                       /\ atTurn env app j = Some found
                       /\ found = setContent (content found) f
                       /\ if needsModel found
                          then exists response,
                                 ai env j (requestFor
                                             (detailedProjectContext (combinedFiles app))
                                             (docLanguage app) found)
                                 = Answered response
                                 /\ d = postProcess response
                          else d = content found)).
  { destruct (analyze_lookup env app j g Hg) as (f0 & Hf0 & Hrel).
    assert (f0 = f) as -> by congruence. clear Hf0.
    destruct (cancelled (runUpTo env app j)).
    { destruct (sameButContent_fields _ _ Hrel) as (Hn & _ & Hd' & _ & Hi).
      split; [exact Hn |]. split; [exact Hi |]. left. congruence. }
    destruct Hrel as (found & Hfound & Hsame & Hrel).
    destruct (sameButContent_fields _ _ Hsame) as (Hn0 & _ & Hd0 & He0 & Hi0).
    destruct (sameButContent_fields _ _ Hrel) as (Hn & _ & Hd' & He' & Hi).
    destruct (needsModel found) eqn:N.
    - rewrite processedRecord_called in Hn, Hd', He', Hi by exact N.
      destruct (ai env j (requestFor _ _ found)) as [response | cause] eqn:A;
        simpl in Hn, Hd', He', Hi;
        (split; [congruence |]); (split; [congruence |]).
      + right. exists (postProcess response), found.
        split; [exact Hd' |]. split; [congruence |]. split; [exact Hfound |].
        split; [exact Hsame |]. rewrite N. exists response. now split.
      + left. congruence.
    - rewrite processedRecord_skipped in Hn, Hd', He', Hi by exact N.
      simpl in Hn, Hd', He', Hi.
      split; [congruence |]. split; [congruence |].
      right. exists (content found), found.
      split; [exact Hd' |]. split; [congruence |]. split; [exact Hfound |].
      split; [exact Hsame |]. now rewrite N. }
  destruct D as (Hn & Hi & D).
  split; [exact Hn |]. split; [exact Hi |]. split; [| split; [| now split]].
  - intros Hcase. unfold ReviewChanges.archivedContent. rewrite Hi.
    destruct D as [Hnone | (d & found & Hdoc & Herr & _)].
    + rewrite Hnone. now destruct (isIncluded f).
    + rewrite Hdoc. destruct Hcase as [[m Habs] | [Habs | ->]]; [congruence.. | reflexivity].
  - intros d Hinc Hdoc.
    destruct D as [Hnone | (d' & found & Hdoc' & _ & Hrest)]; [congruence |].
    assert (d' = d) as -> by congruence.
    split; [unfold ReviewChanges.archivedContent; now rewrite Hi, Hinc, Hdoc |].
    exists found. exact Hrest.
Qed.

Lemma archive_after_run_witness :
  ReviewChanges.archivedContent
    (mkProjectFile "c.js" "function g() {}" "JavaScript" None
       (Some (Wide.ofString "The AI model returned an error: quota exceeded")) true)
  = "function g() {}".
Proof.
  apply (proj1 (proj2 (proj2
           (@archive_after_run Sample.host Sample.envNoCancel Sample.uploaded 2
              (mkProjectFile "c.js" "function g() {}" "JavaScript" None None true)
              (mkProjectFile "c.js" "function g() {}" "JavaScript" None
                 (Some (Wide.ofString "The AI model returned an error: quota exceeded")) true)
              sample_uploaded_pristine eq_refl eq_refl)))).
  left. eexists. reflexivity.
Defined.

(** ** The upload zones *)

Lemma zoneStep_sync project action s :
  (forall p, zoneInSync p s) -> forall p, zoneInSync p (zoneStep project action s).
Proof.
  intros Hs p. pose proof (Hs main) as Hm. pose proof (Hs frontend) as Hf.
  unfold zoneInSync, zoneStep in *.
  assert (Hnames : forall fileNames : list string,
            map name (map newProjectFile fileNames) = fileNames).
  { intros fileNames. rewrite <- list_fmap_compose. apply list_fmap_id. }
  destruct action as [[newFiles|] | | | | droppedFiles];
    destruct project, p; simpl; unfold FileUpload.handleDrop;
    try destruct (0 <? length droppedFiles); simpl in *; rewrite ?Hnames; auto.
Qed.

Lemma screenStep_sync s action :
  (forall p, zoneInSync p s) -> forall p, zoneInSync p (screenStep s action).
Proof.
  intros Hs. destruct action as [project zoneAction | project index text | l].
  - now apply zoneStep_sync.
  - intros p. specialize (Hs p). unfold zoneInSync in *. simpl.
    replace (zone p (mkUploadScreen (readerOnload project index text (screenApp s))
                       (mainZone s) (frontendZone s)))
      with (zone p s) by now destruct p.
    rewrite Hs. unfold readerOnload.
    destruct (projectFiles project (screenApp s) !! index) as [f|] eqn:L; [| reflexivity].
    assert (Hins : map name (<[index := setContent text f]> (projectFiles project (screenApp s)))
                   = map name (projectFiles project (screenApp s))).
    { rewrite list_fmap_insert. simpl. apply list_insert_id.
      now rewrite list_lookup_fmap, L. }
    destruct project, p; simpl in *; auto.
  - intros p. specialize (Hs p). unfold zoneInSync in *. now destruct p.
Qed.

Lemma screenSteps_sync actions : forall s,
  (forall p, zoneInSync p s) -> forall p, zoneInSync p (screenSteps actions s).
Proof.
  unfold screenSteps. induction actions as [|a actions IH]; intros s Hs; [exact Hs |].
  simpl. apply IH. now apply screenStep_sync.
Qed.

(** On the uploading screen, mounted over an application without files,
    the state cell of each zone holds the names of the records of its
    project, in order, whatever the user does to the zones and whenever
    the readers fire.  Hence the count that a zone renders is the number
    of records, the items that it renders are one for each record, in
    order, with the name of the record as key and as text, and the keys
    are pairwise distinct exactly when the names of the records are (two
    files of one name give two items under one key).  The Analyze button
    is enabled exactly when a zone renders a count.  A drop without files
    changes no list, whereas a change of the file input to an empty
    selection empties the project's list, and a change without a selection
    does nothing. *)
Theorem upload_zones_in_sync (actions : list ScreenAction) (app : App) :
  mainProjectFiles app = [] ->
  frontendProjectFiles app = [] ->
  (forall project,
      FileUpload.files (zone project (screenSteps actions (mountUploadScreen app)))
      = map name (projectFiles project (screenApp (screenSteps actions (mountUploadScreen app))))
      /\ FileUpload.summary (zone project (screenSteps actions (mountUploadScreen app)))
         = (if 0 <? length (projectFiles project
                              (screenApp (screenSteps actions (mountUploadScreen app))))
            then Some (length (projectFiles project
                                 (screenApp (screenSteps actions (mountUploadScreen app)))),
                       map (fun f => FileUpload.mkItem (name f) (name f))
                         (projectFiles project
                            (screenApp (screenSteps actions (mountUploadScreen app)))))
            else None)
      /\ (forall count items,
            FileUpload.summary (zone project (screenSteps actions (mountUploadScreen app)))
            = Some (count, items) ->
            (NoDup (map FileUpload.key items)
             <-> NoDup (map name
                          (projectFiles project
                             (screenApp (screenSteps actions (mountUploadScreen app))))))))
  /\ (canAnalyze (screenApp (screenSteps actions (mountUploadScreen app))) = true
      <-> exists project,
            is_Some (FileUpload.summary
                       (zone project (screenSteps actions (mountUploadScreen app)))))
  /\ (forall project s,
        screenApp (zoneStep project (Drop []) s) = screenApp s
        /\ screenApp (zoneStep project (FileChange None) s) = screenApp s
        /\ screenApp (zoneStep project (FileChange (Some [])) s)
           = handleFilesUpload project [] (screenApp s)
        /\ projectFiles project (screenApp (zoneStep project (FileChange (Some [])) s)) = []
        /\ forall fileNames,
             fileNames <> [] ->
             screenApp (zoneStep project (Drop fileNames) s)
             = handleFilesUpload project fileNames (screenApp s)
             /\ screenApp (zoneStep project (FileChange (Some fileNames)) s)
                = handleFilesUpload project fileNames (screenApp s)).
Proof.
  intros Hm Hf.
  assert (Hsync : forall p, zoneInSync p (screenSteps actions (mountUploadScreen app))).
  { apply screenSteps_sync. intros p. unfold zoneInSync. destruct p; simpl; now rewrite ?Hm, ?Hf. }
  assert (Hsummary : forall project,
            FileUpload.summary (zone project (screenSteps actions (mountUploadScreen app)))
            = (if 0 <? length (projectFiles project
                                 (screenApp (screenSteps actions (mountUploadScreen app))))
               then Some (length (projectFiles project
                                    (screenApp (screenSteps actions (mountUploadScreen app)))),
                          map (fun f => FileUpload.mkItem (name f) (name f))
                            (projectFiles project
                               (screenApp (screenSteps actions (mountUploadScreen app)))))
               else None)).
  { intros project. pose proof (Hsync project) as E. unfold zoneInSync in E.
    unfold FileUpload.summary. rewrite !E, length_map.
    destruct (0 <? length _); [| reflexivity].
    now rewrite <- list_fmap_compose. }
  split; [intros project; split; [apply Hsync | split; [apply Hsummary |]] |].
  - intros count items. rewrite Hsummary.
    destruct (0 <? length _); [| discriminate]. intros [= _ <-].
    now rewrite <- list_fmap_compose.
  - split.
    + unfold canAnalyze. rewrite orb_true_iff. split.
      * intros [Hc | Hc]; [exists main | exists frontend]; rewrite Hsummary; simpl;
          rewrite Hc; eauto.
      * intros [project [x Hx]]. rewrite Hsummary in Hx.
        destruct project; simpl in Hx; [left | right];
          now destruct (0 <? length _).
    + intros project s.
      split; [now destruct project |]. split; [now destruct project |].
      split; [now destruct project |]. split; [now destruct project |].
      intros fileNames Hne. destruct fileNames as [|x l]; [congruence |].
      now destruct project.
Qed.

Lemma upload_zones_in_sync_witness :
  FileUpload.summary
    (zone main
       (screenSteps
          [OnZone main (Drop ["a.py"; "b.js"]); OnZone main DragEnter;
           OnLoad main 0 "def f(): pass"; OnZone main (Drop []);
           OnZone frontend (FileChange (Some ["d.ts"]));
           OnZone frontend (FileChange (Some []))]
          (mountUploadScreen initialApp)))
  = Some (2, [FileUpload.mkItem "a.py" "a.py"; FileUpload.mkItem "b.js" "b.js"])
  /\ FileUpload.summary
       (zone frontend
          (screenSteps
             [OnZone main (Drop ["a.py"; "b.js"]); OnZone main DragEnter;
              OnLoad main 0 "def f(): pass"; OnZone main (Drop []);
              OnZone frontend (FileChange (Some ["d.ts"]));
              OnZone frontend (FileChange (Some []))]
             (mountUploadScreen initialApp)))
     = None.
Proof.
  split.
  - exact (proj1 (proj2 (proj1 (upload_zones_in_sync
             [OnZone main (Drop ["a.py"; "b.js"]); OnZone main DragEnter;
              OnLoad main 0 "def f(): pass"; OnZone main (Drop []);
              OnZone frontend (FileChange (Some ["d.ts"]));
              OnZone frontend (FileChange (Some []))]
             initialApp eq_refl eq_refl) main))).
  - exact (proj1 (proj2 (proj1 (upload_zones_in_sync
             [OnZone main (Drop ["a.py"; "b.js"]); OnZone main DragEnter;
              OnLoad main 0 "def f(): pass"; OnZone main (Drop []);
              OnZone frontend (FileChange (Some ["d.ts"]));
              OnZone frontend (FileChange (Some []))]
             initialApp eq_refl eq_refl) frontend))).
Defined.

(** ** The viewer, the marks of the list and the selection *)

(** For a selected record without error message the viewer says that
    nothing changed when the record is not included, when it has no
    documented content, and when the documented content is the content;
    it shows the two columns, the content beside the documented content,
    in the remaining case.  The mark of the list and the test of the
    initial selection agree with the viewer one way only: a record marked
    as unchanged shows no columns, and an included record that counts as
    changed shows them; but a record without documented content carries
    no mark although the viewer says that nothing changed, and a record
    documented as the empty text shows the columns although it does not
    count as changed. *)
Theorem review_views_agree (f : ProjectFile) (project : Project)
    (selected : option ReviewChanges.SelectedProjectFile) :
  error f = None \/ error f = Some [] ->
  (isIncluded f = false \/ documentedContent f = None
   \/ documentedContent f = Some (content f) ->
   ReviewChanges.mainPane (Some (ReviewChanges.mkSelected f project))
   = ReviewChanges.Viewer (DiffViewer.NoChanges (name f)))
  /\ (forall d,
        isIncluded f = true -> documentedContent f = Some d -> d <> content f ->
        ReviewChanges.mainPane (Some (ReviewChanges.mkSelected f project))
        = ReviewChanges.Viewer (DiffViewer.SideBySide (name f) (content f) d))
  /\ (ReviewChanges.noChangesBadge (ReviewChanges.fileListItem selected project f) = true ->
      ReviewChanges.mainPane (Some (ReviewChanges.mkSelected f project))
      = ReviewChanges.Viewer (DiffViewer.NoChanges (name f)))
  /\ (ReviewChanges.hasSuggestedChanges f = true -> isIncluded f = true ->
      exists d,
        documentedContent f = Some d
        /\ ReviewChanges.mainPane (Some (ReviewChanges.mkSelected f project))
           = ReviewChanges.Viewer (DiffViewer.SideBySide (name f) (content f) d))
  /\ (documentedContent f = None ->
      ReviewChanges.noChangesBadge (ReviewChanges.fileListItem selected project f) = false)
  /\ (documentedContent f = Some EmptyString -> content f <> EmptyString ->
      ReviewChanges.hasSuggestedChanges f = false
      /\ (isIncluded f = true ->
          ReviewChanges.mainPane (Some (ReviewChanges.mkSelected f project))
          = ReviewChanges.Viewer
              (DiffViewer.SideBySide (name f) (content f) EmptyString))).
Proof.
  intros Herr.
  assert (Hbody : ReviewChanges.mainPane (Some (ReviewChanges.mkSelected f project))
                  = ReviewChanges.Viewer
                      (if String.eqb (content f)
                            (default (content f)
                               (if isIncluded f then documentedContent f
                                else Some (content f)))
                       then DiffViewer.NoChanges (name f)
                       else DiffViewer.SideBySide (name f) (content f)
                              (default (content f)
                                 (if isIncluded f then documentedContent f
                                  else Some (content f))))).
  { unfold ReviewChanges.mainPane, DiffViewer.render. simpl.
    destruct Herr as [-> | ->]; simpl;
      now destruct (String.eqb (content f) _). }
  assert (Hsame : isIncluded f = false \/ documentedContent f = None
                  \/ documentedContent f = Some (content f) ->
                  ReviewChanges.mainPane (Some (ReviewChanges.mkSelected f project))
                  = ReviewChanges.Viewer (DiffViewer.NoChanges (name f))).
  { rewrite Hbody. intros [-> | [-> | ->]]; simpl; rewrite ?String.eqb_refl; try reflexivity;
      destruct (isIncluded f); simpl; now rewrite String.eqb_refl. }
  assert (Hdiff : forall d,
            isIncluded f = true -> documentedContent f = Some d -> d <> content f ->
            ReviewChanges.mainPane (Some (ReviewChanges.mkSelected f project))
            = ReviewChanges.Viewer (DiffViewer.SideBySide (name f) (content f) d)).
  { intros d Hi Hd Hne. rewrite Hbody, Hi, Hd. simpl.
    assert (E : String.eqb (content f) d = false) by (apply String.eqb_neq; congruence).
    now rewrite E. }
  split; [exact Hsame |]. split; [exact Hdiff |].
  split; [| split; [| split]].
  - intros Hbadge. apply Hsame. right. right.
    unfold ReviewChanges.fileListItem in Hbadge. simpl in Hbadge.
    destruct (documentedContent f) as [d|]; [| discriminate].
    apply String.eqb_eq in Hbadge. now rewrite Hbadge.
  - intros Hchanged Hi. unfold ReviewChanges.hasSuggestedChanges in Hchanged.
    destruct (documentedContent f) as [d|] eqn:D; [| discriminate].
    apply andb_prop in Hchanged as [_ Hd%negb_true_iff%String.eqb_neq].
    exists d. split; [reflexivity |]. now apply Hdiff.
  - intros Hd. unfold ReviewChanges.fileListItem. simpl. now rewrite Hd.
  - intros Hd Hne. split.
    + unfold ReviewChanges.hasSuggestedChanges. now rewrite Hd.
    + intros Hi. apply Hdiff; auto.
Qed.

Lemma review_views_agree_witness :
  ReviewChanges.mainPane
    (Some (ReviewChanges.mkSelected
             (mkProjectFile "a.py" "def f(): pass" "Python" (Some "# doc") None false) main))
  = ReviewChanges.Viewer (DiffViewer.NoChanges "a.py").
Proof.
  apply (proj1 (review_views_agree
                  (mkProjectFile "a.py" "def f(): pass" "Python" (Some "# doc") None false)
                  main None (or_introl eq_refl))).
  left. reflexivity.
Defined.

(** ** The paths of the archive *)

Lemma zipFilesOf_download generated mainFiles frontendFiles :
  zipFilesOf (ReviewChanges.handleApplyAndDownload generated mainFiles frontendFiles)
  = map (fun f => ("main_project", name f, ReviewChanges.archivedContent f)) mainFiles
    ++ map (fun f => ("frontend_project", name f, ReviewChanges.archivedContent f))
         frontendFiles.
Proof.
  unfold ReviewChanges.handleApplyAndDownload.
  rewrite !zipFilesOf_app, !zipFilesOf_folderEffect, !zipFilesOf_writeFiles.
  simpl. destruct generated; simpl; now rewrite app_nil_r.
Qed.

(** The files of the archive are written under the names of the records
    alone, so two writes go to one path of the archive exactly when two
    records of one list bear the same name: the paths are pairwise
    distinct if and only if the names are, within each list.  Records of
    the two lists never meet, their folders being different. *)
Theorem archive_paths (generated : bool) (mainFiles frontendFiles : list ProjectFile) :
  NoDup (map fst (zipFilesOf
                    (ReviewChanges.handleApplyAndDownload generated mainFiles frontendFiles)))
  <-> NoDup (map name mainFiles) /\ NoDup (map name frontendFiles).
Proof.
  rewrite zipFilesOf_download, map_app, !map_map. simpl.
  assert (Hpaths : forall (folder : string) (files : list ProjectFile),
            map (fun f => (folder, name f)) files
            = (fun n : string => (folder, n)) <$> map name files).
  { intros folder files. now rewrite <- list_fmap_compose. }
  rewrite !Hpaths, NoDup_app.
  assert (Hinj : forall folder : string, Inj eq eq (fun n : string => (folder, n))).
  { intros folder a b [= ->]. reflexivity. }
  rewrite !(NoDup_fmap _). split.
  - intros (Hm & _ & Hf). now split.
  - intros [Hm Hf]. split; [exact Hm |]. split; [| exact Hf].
    intros path [a [-> _]]%list_elem_of_fmap [b [Hb _]]%list_elem_of_fmap.
    discriminate.
Qed.

